(** * SmartPlace scraper: reconciliation, markup extraction and session

    A shallow embedding of [smartplace_scraper.py] (class
    [SmartPlaceScraper] and [scrape_store]) and the properties of its
    merge step, its markup extractor, its URL rewriting and its session
    envelope.

    Conventions of the embedding:
    - a Python [str] is a [string] holding its UTF-8 bytes, cut into
      characters by [PyStr.chars]; the decimal digits and the white space
      are those of the Unicode database of Python 3.11;
    - a Python [float] is a [spec_float] of the IEEE binary64 format
      (precision 53, exponent bound 1024), rounded to nearest even;
    - a Python [dict] is an association list in insertion order with
      unique keys: assigning an existing key replaces the value in place;
    - awaited browser calls are answered by an environment and may raise. *)

From Stdlib Require Import String Ascii List ZArith NArith Lia Bool Arith.
From Stdlib Require Import Floats.SpecFloat.
Import ListNotations.

Local Open Scope list_scope.
Local Open Scope string_scope.

(** ** Python strings *)

Module PyStr.

(** [p] is a prefix of [s] *)
Fixpoint startswith (p s : string) : bool :=
  match p, s with
  | EmptyString, _ => true
  | String a p', String b s' => Ascii.eqb a b && startswith p' s'
  | String _ _, EmptyString => false
  end.

(** [sub in s] *)
Fixpoint str_in (sub s : string) : bool :=
  startswith sub s ||
  match s with
  | EmptyString => false
  | String _ s' => str_in sub s'
  end.

(** *** Characters

    A [str] is held as its UTF-8 bytes; [chars] cuts them into the
    characters of the [str], each lead byte with the continuation bytes it
    announces. *)

Definition is_continuation (b : ascii) : bool :=
  (128 <=? N_of_ascii b)%N && (N_of_ascii b <? 192)%N.

(** the number of continuation bytes a lead byte announces *)
Definition followers (b : ascii) : nat :=
  let n := N_of_ascii b in
  if (n <? 192)%N then 0
  else if (n <? 224)%N then 1
  else if (n <? 240)%N then 2
  else if (n <? 248)%N then 3
  else 0.

Definition emit (current : string) (rest : list string) : list string :=
  match current with
  | EmptyString => rest
  | _ => current :: rest
  end.

Fixpoint chars_from (pending : nat) (current : string) (s : string) : list string :=
  match s with
  | EmptyString => emit current []
  | String b s' =>
      match pending with
      | S k =>
          if is_continuation b then chars_from k (current ++ String b EmptyString) s'
          else emit current (chars_from (followers b) (String b EmptyString) s')
      | O => emit current (chars_from (followers b) (String b EmptyString) s')
      end
  end.

(** the characters of [s] *)
Definition chars (s : string) : list string := chars_from 0 EmptyString s.

(** the [str] made of the characters of [l] *)
Fixpoint join (l : list string) : string :=
  match l with
  | [] => EmptyString
  | c :: l' => c ++ join l'
  end.

(** the code point of a character; none for bytes that are no UTF-8
    encoding of a character: a stray byte, an encoding longer than
    needed, a surrogate, or a value beyond the last code point *)
Definition code_point (c : string) : option N :=
  match c with
  | String b0 EmptyString =>
      if (N_of_ascii b0 <? 128)%N then Some (N_of_ascii b0) else None
  | String b0 (String b1 EmptyString) =>
      if (194 <=? N_of_ascii b0)%N then
        if (N_of_ascii b0 <? 224)%N then
          if is_continuation b1 then
            Some ((N_of_ascii b0 - 192) * 64 + (N_of_ascii b1 - 128))%N
          else None
        else None
      else None
  | String b0 (String b1 (String b2 EmptyString)) =>
      if (224 <=? N_of_ascii b0)%N then
        if (N_of_ascii b0 <? 240)%N then
          if is_continuation b1 then
            if is_continuation b2 then
              let cp := ((N_of_ascii b0 - 224) * 4096 + (N_of_ascii b1 - 128) * 64
                         + (N_of_ascii b2 - 128))%N in
              if (2048 <=? cp)%N && negb ((55296 <=? cp)%N && (cp <=? 57343)%N)
              then Some cp else None
            else None
          else None
        else None
      else None
  | String b0 (String b1 (String b2 (String b3 EmptyString))) =>
      if (240 <=? N_of_ascii b0)%N then
        if (N_of_ascii b0 <? 248)%N then
          if is_continuation b1 then
            if is_continuation b2 then
              if is_continuation b3 then
                let cp := ((N_of_ascii b0 - 240) * 262144 + (N_of_ascii b1 - 128) * 4096
                           + (N_of_ascii b2 - 128) * 64 + (N_of_ascii b3 - 128))%N in
                if (65536 <=? cp)%N && (cp <=? 1114111)%N then Some cp else None
              else None
            else None
          else None
        else None
      else None
  | _ => None
  end.

(** the decimal digits of Unicode 14.0, the database of Python 3.11, which
    is the runtime the deployment script names: 66 runs of ten code
    points, each run holding the digits 0 to 9 in order; the list gives
    the code point of each zero *)
Definition decimal_zeros : list N :=
  [ 48; 1632; 1776; 1984; 2406; 2534; 2662; 2790; 2918; 3046; 3174; 3302;
    3430; 3558; 3664; 3792; 3872; 4160; 4240; 6112; 6160; 6470; 6608; 6784;
    6800; 6992; 7088; 7232; 7248; 42528; 43216; 43264; 43472; 43504; 43600;
    44016; 65296; 66720; 68912; 69734; 69872; 69942; 70096; 70384; 70736;
    70864; 71248; 71360; 71472; 71904; 72016; 72784; 73040; 73120; 92768;
    92864; 93008; 120782; 120792; 120802; 120812; 120822; 123200; 123632;
    125264; 130032 ]%N.

(** the value of a code point as a decimal digit *)
Definition decimal_of_code_point (cp : N) : option N :=
  option_map (fun zero => cp - zero)%N
    (find (fun zero => (zero <=? cp)%N && (cp <? zero + 10)%N) decimal_zeros).

Definition decimal (c : string) : option N :=
  match code_point c with
  | Some cp => decimal_of_code_point cp
  | None => None
  end.

(** [c.isdecimal()]: what [\d] matches and [float] reads as a digit *)
Definition isdecimal (c : string) : bool :=
  match decimal c with
  | Some _ => true
  | None => false
  end.

(** the code points for which [str.isspace] holds *)
Definition whitespace : list N :=
  [ 9; 10; 11; 12; 13; 28; 29; 30; 31; 32; 133; 160; 5760; 8192; 8193; 8194;
    8195; 8196; 8197; 8198; 8199; 8200; 8201; 8202; 8232; 8233; 8239; 8287;
    12288 ]%N.

Definition isspace (c : string) : bool :=
  match code_point c with
  | Some cp => existsb (N.eqb cp) whitespace
  | None => false
  end.

Fixpoint drop_while (p : string -> bool) (l : list string) : list string :=
  match l with
  | [] => []
  | c :: l' => if p c then drop_while p l' else l
  end.

(** [s.strip()] *)
Definition strip (s : string) : string :=
  join (rev (drop_while isspace (rev (drop_while isspace (chars s))))).

Definition all_digits (l : list string) : bool := forallb isdecimal l.

(** the longest prefix of [l] made of digits: what a greedy [\d*] takes *)
Fixpoint take_digits (l : list string) : list string :=
  match l with
  | [] => []
  | c :: l' => if isdecimal c then c :: take_digits l' else []
  end.

(** the search for [\d{n,}] over the characters [l]: the leftmost position
    at which at least [n] digits follow, with the greedy match taken
    there *)
Fixpoint search_digits (n : nat) (l : list string) : option (list string) :=
  let run := take_digits l in
  if (n <=? length run)%nat then Some run
  else match l with
       | [] => None
       | _ :: l' => search_digits n l'
       end.

(** [re.search(r'(\d{n,})', s)]; the result is [group(1)] *)
Definition re_search_digits (n : nat) (s : string) : option string :=
  option_map join (search_digits n (chars s)).

(** the integer a sequence of decimal digits denotes *)
Definition digits_value (l : list string) : N :=
  fold_left (fun acc c => acc * 10 + match decimal c with Some d => d | None => 0 end)%N
    l 0%N.

End PyStr.

(** ** Python floats *)

Module PyFloat.

Definition float := spec_float.

Definition prec : Z := 53.
Definition emax : Z := 1024.

(** the binary64 value nearest to an integer *)
Definition of_Z (z : Z) : float := binary_normalize prec emax z 0 false.

(** [float(s)] for a string of decimal digits *)
Definition of_digits (s : string) : float :=
  of_Z (Z.of_N (PyStr.digits_value (PyStr.chars s))).

Definition zero : float := S754_zero false.

Definition leb (x y : float) : bool := SFleb x y.

End PyFloat.

(** ** [_extract_rating] *)

Definition _extract_rating (text : string) : PyFloat.float :=
  match PyStr.re_search_digits 1 text with
  | Some g => PyFloat.of_digits g
  | None => PyFloat.zero
  end.

(** ** Python dictionaries *)

Module PyDict.

Section Dict.
Context {V : Type}.

Definition dict := list (string * V).

(** [d.get(k)] *)
Fixpoint get (k : string) (d : dict) : option V :=
  match d with
  | [] => None
  | (k', v) :: d' => if String.eqb k k' then Some v else get k d'
  end.

(** [d[k] = v]: a key already present keeps its position *)
Fixpoint set (k : string) (v : V) (d : dict) : dict :=
  match d with
  | [] => [(k, v)]
  | (k', v') :: d' =>
      if String.eqb k k' then (k', v) :: d' else (k', v') :: set k v d'
  end.

(** [d.update(d2)], the entries of [d2] assigned in their order *)
Definition update (d d2 : dict) : dict :=
  fold_left (fun acc kv => set (fst kv) (snd kv) acc) d2 d.

(** the display [{**a, **b}] *)
Definition unpack2 (a b : dict) : dict := update (update [] a) b.

Definition keys (d : dict) : list string := map fst d.
Definition values (d : dict) : list V := map snd d.

(** the comprehension [{key(x): x for x in l}] *)
Definition comprehension (key : V -> string) (l : list V) : dict :=
  fold_left (fun acc x => set (key x) x acc) l [].

End Dict.

Arguments dict V : clear implicits.

End PyDict.

(** [d.get(k, default)] on a field that may be absent *)
Definition get_or {A : Type} (field : option A) (default : A) : A :=
  match field with
  | Some x => x
  | None => default
  end.

(** ** Data model *)

(** values a [basicInfo] field can hold: strings from the markup, and
    whatever scalar the structured data of the page carries *)
Inductive pyval : Type :=
| PyNone
| PyBool (b : bool)
| PyInt (z : Z)
| PyFloatV (f : PyFloat.float)
| PyStr (s : string).

Module MenuItem.
Record t := { name : string; price : string }.
End MenuItem.

Module Review.
Record t := { rating : PyFloat.float; text : string; date : string }.
End Review.

(** a candidate set: a dict in which each key may be absent *)
Record CandidateSet := {
  cs_basicInfo : option (PyDict.dict pyval);
  cs_menuItems : option (list MenuItem.t);
  cs_reviews : option (list Review.t);
  cs_images : option (list string)
}.

Record Statistics := { st_rating : pyval; st_reviewCount : pyval }.

Record ExtractionRecord := {
  basicInfo : PyDict.dict pyval;
  menuItems : list MenuItem.t;
  reviews : list Review.t;
  images : list string;
  statistics : Statistics
}.

Definition set_menuItems (r : ExtractionRecord) (l : list MenuItem.t) :=
  {| basicInfo := basicInfo r; menuItems := l; reviews := reviews r;
     images := images r; statistics := statistics r |}.

Definition set_reviews (r : ExtractionRecord) (l : list Review.t) :=
  {| basicInfo := basicInfo r; menuItems := menuItems r; reviews := l;
     images := images r; statistics := statistics r |}.

(** ** [_merge_data] *)

Definition _merge_data (eval_data soup_data : CandidateSet) : ExtractionRecord :=
  let merged :=
    {| basicInfo :=
         PyDict.unpack2 (get_or (cs_basicInfo soup_data) [])
                        (get_or (cs_basicInfo eval_data) []);
       menuItems :=
         (get_or (cs_menuItems eval_data) [] ++ get_or (cs_menuItems soup_data) [])%list;
       reviews :=
         (get_or (cs_reviews eval_data) [] ++ get_or (cs_reviews soup_data) [])%list;
       images := firstn 10 (get_or (cs_images eval_data) []);
       statistics :=
         {| st_rating :=
              get_or (PyDict.get "rating" (get_or (cs_basicInfo eval_data) [])) (PyInt 0);
            st_reviewCount :=
              get_or (PyDict.get "reviewCount" (get_or (cs_basicInfo eval_data) []))
                     (PyInt 0) |} |} in
  let merged :=
    set_menuItems merged
      (firstn 20 (PyDict.values (PyDict.comprehension MenuItem.name (menuItems merged)))) in
  let merged := set_reviews merged (firstn 10 (reviews merged)) in
  merged.

(** ** Parsed markup and selectors

    The markup handed to [BeautifulSoup(html, 'html.parser')] is represented
    by the forest of nodes the parser builds from it.  A [Tag] carries the
    chain of its ancestors, nearest first, as the library's tags carry their
    parent links.  Selectors have the forms the scraper uses: compounds
    [tag] or [tag.class], chained by the descendant combinator. *)

Module Soup.

#[warnings="-register-all"]
Inductive node : Type :=
| Text (s : string)
| Elem (name : string) (classes : list string) (children : list node).

Definition html := list node.

Definition label : Type := string * list string.

Record Tag := {
  tag_ancestors : list label;
  tag_name : string;
  tag_classes : list string;
  tag_children : list node
}.

Definition tag_label (t : Tag) : label := (tag_name t, tag_classes t).

Definition BeautifulSoup (h : html) : Tag :=
  {| tag_ancestors := []; tag_name := "[document]"; tag_classes := [];
     tag_children := h |}.

Record compound := { c_tag : string; c_class : option string }.

(** the text before the first [sep], and the text after it if any *)
Fixpoint cut (sep : ascii) (s : string) : string * option string :=
  match s with
  | EmptyString => (EmptyString, None)
  | String c s' =>
      if Ascii.eqb c sep then (EmptyString, Some s')
      else let (a, b) := cut sep s' in (String c a, b)
  end.

Fixpoint split_fuel (fuel : nat) (sep : ascii) (s : string) : list string :=
  match fuel with
  | O => [s]
  | S fuel' =>
      match cut sep s with
      | (a, None) => [a]
      | (a, Some rest) => a :: split_fuel fuel' sep rest
      end
  end.

Definition split (sep : ascii) (s : string) : list string :=
  split_fuel (String.length s) sep s.

Definition parse_compound (s : string) : compound :=
  let (t, c) := cut "." s in {| c_tag := t; c_class := c |}.

Definition parse_selector (s : string) : list compound :=
  map parse_compound (split " " s).

Definition compound_matches (c : compound) (l : label) : bool :=
  String.eqb (c_tag c) (fst l) &&
  match c_class c with
  | None => true
  | Some cls => existsb (String.eqb cls) (snd l)
  end.

(** the compounds left of the subject, innermost first, each matched by
    some ancestor above the previous one *)
Fixpoint match_ancestors (rsel : list compound) (anc : list label) : bool :=
  match rsel with
  | [] => true
  | c :: rsel' =>
      (fix up (anc : list label) : bool :=
         match anc with
         | [] => false
         | a :: anc' =>
             if compound_matches c a then match_ancestors rsel' anc' else up anc'
         end) anc
  end.

Definition matches (sel : list compound) (t : Tag) : bool :=
  match rev sel with
  | [] => false
  | subject :: rsel =>
      compound_matches subject (tag_label t) && match_ancestors rsel (tag_ancestors t)
  end.

(** the element [n] and the elements below it, in document order *)
Fixpoint elements (anc : list label) (n : node) : list Tag :=
  match n with
  | Text _ => []
  | Elem name classes children =>
      {| tag_ancestors := anc; tag_name := name; tag_classes := classes;
         tag_children := children |}
      :: flat_map (elements ((name, classes) :: anc)) children
  end.

Definition descendants (t : Tag) : list Tag :=
  flat_map (elements (tag_label t :: tag_ancestors t)) (tag_children t).

(** [t.select(selector)] *)
Definition select (selector : string) (t : Tag) : list Tag :=
  filter (matches (parse_selector selector)) (descendants t).

(** [t.select_one(selector)] *)
Definition select_one (selector : string) (t : Tag) : option Tag :=
  hd_error (select selector t).

Fixpoint strings (n : node) : list string :=
  match n with
  | Text s => [s]
  | Elem _ _ children => flat_map strings children
  end.

(** [t.get_text()] *)
Definition get_text (t : Tag) : string :=
  String.concat "" (flat_map strings (tag_children t)).

(** [t.get_text(strip=True)] *)
Definition get_text_strip (t : Tag) : string :=
  String.concat ""
    (filter (fun s => negb (String.eqb s ""))
            (map PyStr.strip (flat_map strings (tag_children t)))).

End Soup.

(** ** [_extract_with_soup] *)

Definition patterns : list (string * list string) :=
  [ ("name", ["span.GHAhO"; "span.Fc1rA"; "h2.place_title"]);
    ("category", ["span.lnJFt"; "span.DJJvD"]);
    ("address", ["span.IH7VW"; "span.LDgIH"]);
    ("phone", ["span.xlx7Q"]) ].

(** the inner loop over the selectors of one field: the text of the first
    selector that finds an element *)
Fixpoint first_hit (soup : Soup.Tag) (selectors : list string) : option string :=
  match selectors with
  | [] => None
  | selector :: rest =>
      match Soup.select_one selector soup with
      | Some element => Some (Soup.get_text_strip element)
      | None => first_hit soup rest
      end
  end.

Definition extract_basicInfo (soup : Soup.Tag) : PyDict.dict pyval :=
  fold_left
    (fun data kv =>
       match first_hit soup (snd kv) with
       | Some t => PyDict.set (fst kv) (PyStr t) data
       | None => data
       end)
    patterns [].

Definition extract_menu_item (item : Soup.Tag) : list MenuItem.t :=
  let name_elem := Soup.select_one "span.lPzHi" item in
  let price_elem := Soup.select_one "div._3qFuX" item in
  match name_elem with
  | Some n =>
      [ {| MenuItem.name := Soup.get_text_strip n;
           MenuItem.price :=
             match price_elem with
             | Some p => Soup.get_text_strip p
             | None => ""
             end |} ]
  | None => []
  end.

Definition extract_review (review : Soup.Tag) : list Review.t :=
  let rating_elem := Soup.select_one "span.pui__bMWJiy" review in
  let text_elem := Soup.select_one "a.pui__xtsQN-" review in
  let date_elem := Soup.select_one "time span" review in
  match text_elem with
  | Some t =>
      [ {| Review.rating :=
             _extract_rating
               match rating_elem with
               | Some r => Soup.get_text r
               | None => ""
               end;
           Review.text := Soup.get_text_strip t;
           Review.date :=
             match date_elem with
             | Some d => Soup.get_text_strip d
             | None => ""
             end |} ]
  | None => []
  end.

Definition _extract_with_soup (html : Soup.html) : CandidateSet :=
  let soup := Soup.BeautifulSoup html in
  {| cs_basicInfo := Some (extract_basicInfo soup);
     cs_menuItems :=
       Some (flat_map extract_menu_item (firstn 20 (Soup.select "li.E2jtL" soup)));
     cs_reviews :=
       Some (flat_map extract_review (firstn 10 (Soup.select "li.pui__X35jYm" soup)));
     cs_images := None |}.

(** ** Exceptions and awaited calls *)

(** a raised exception: an instance of [Exception], which [except Exception]
    catches, or of [BaseException] outside it (a cancellation, an
    interrupt), which it lets through; each with its [str()] *)
Inductive exn : Type :=
| PyException (msg : string)
| PyBaseException (msg : string).

Definition str (e : exn) : string :=
  match e with
  | PyException msg => msg
  | PyBaseException msg => msg
  end.

Inductive outcome (A : Type) : Type :=
| Return (a : A)
| Raise (e : exn).

Arguments Return {A} a.
Arguments Raise {A} e.

(** the calls made on the rendering engine, in order *)
Inductive event : Type :=
| EvStart
| EvLaunch
| EvNewContext
| EvNewPage
| EvGoto (url wait_until : string)
| EvWaitForTimeout (ms : Z)
| EvEvaluate
| EvContent
| EvContextClose
| EvBrowserClose
| EvStop.

(** the rendering engine and the clock: how each call answers, given the
    calls made before it *)
Record Engine := {
  on_start : list event -> outcome unit;
  on_launch : list event -> outcome unit;
  on_new_context : list event -> outcome unit;
  on_new_page : list event -> outcome unit;
  on_goto : list event -> string -> string -> outcome string;
  on_wait_for_timeout : list event -> Z -> outcome unit;
  on_evaluate : list event -> outcome CandidateSet;
  on_content : list event -> outcome Soup.html;
  on_context_close : list event -> outcome unit;
  on_browser_close : list event -> outcome unit;
  on_stop : list event -> outcome unit;
  now_isoformat : list event -> string
}.

(** the scraper object ([self.browser], [self.playwright]), the page's
    current URL, the resources held, and the calls made so far *)
Record State := {
  self_browser : bool;
  self_playwright : bool;
  page_url : string;
  open_contexts : nat;
  browser_open : bool;
  playwright_running : bool;
  trace : list event
}.

Definition init_state : State :=
  {| self_browser := false; self_playwright := false; page_url := "";
     open_contexts := 0; browser_open := false; playwright_running := false;
     trace := [] |}.

Definition M (A : Type) : Type := State -> outcome A * State.

Definition ret {A : Type} (a : A) : M A := fun s => (Return a, s).

Definition raise {A : Type} (e : exn) : M A := fun s => (Raise e, s).

Definition bind {A B : Type} (m : M A) (f : A -> M B) : M B :=
  fun s =>
    match m s with
    | (Return a, s') => f a s'
    | (Raise e, s') => (Raise e, s')
    end.

Notation "x <- m ;; k" := (bind m (fun x => k))
  (at level 61, m at next level, right associativity).
Notation "m ;;; k" := (bind m (fun _ => k))
  (at level 61, right associativity).

(** [try: body / except Exception as e: handler e / finally: final]: the
    handler takes the instances of [Exception] only; the [finally] clause
    runs on every path, and an exception it raises replaces the pending
    result *)
Definition try_except_finally {A : Type}
    (body : M A) (handler : exn -> M A) (final : M unit) : M A :=
  fun s =>
    let (r, s1) := body s in
    let (r', s2) :=
      match r with
      | Raise (PyException msg) => handler (PyException msg) s1
      | _ => (r, s1)
      end in
    match final s2 with
    | (Return _, s3) => (r', s3)
    | (Raise e, s3) => (Raise e, s3)
    end.

(** [async with cm: body], for a context manager whose [__aexit__]
    returns [None]: no exit when the entry raises, the exit on every path
    out of the body, the body's result or exception kept unless the exit
    raises *)
Definition async_with {A : Type} (aenter : M unit) (body : M A) (aexit : M unit) : M A :=
  fun s =>
    match aenter s with
    | (Raise e, s1) => (Raise e, s1)
    | (Return _, s1) =>
        let (r, s2) := body s1 in
        match aexit s2 with
        | (Return _, s3) => (r, s3)
        | (Raise e, s3) => (Raise e, s3)
        end
    end.

Definition log (ev : event) (s : State) : State :=
  {| self_browser := self_browser s; self_playwright := self_playwright s;
     page_url := page_url s; open_contexts := open_contexts s;
     browser_open := browser_open s; playwright_running := playwright_running s;
     trace := (trace s ++ [ev])%list |}.

(** a call on the engine: it is recorded, the engine answers from the
    calls before it, and [effect] is applied when the call returns *)
Definition call {A : Type} (ev : event) (answer : list event -> outcome A)
    (effect : A -> State -> State) : M A :=
  fun s =>
    match answer (trace s) with
    | Return a => (Return a, effect a (log ev s))
    | Raise e => (Raise e, log ev s)
    end.

Definition with_self (b p : bool) (s : State) : State :=
  {| self_browser := b; self_playwright := p; page_url := page_url s;
     open_contexts := open_contexts s; browser_open := browser_open s;
     playwright_running := playwright_running s; trace := trace s |}.

Definition with_page_url (u : string) (s : State) : State :=
  {| self_browser := self_browser s; self_playwright := self_playwright s;
     page_url := u; open_contexts := open_contexts s;
     browser_open := browser_open s; playwright_running := playwright_running s;
     trace := trace s |}.

Definition with_resources (contexts : nat) (browser playwright : bool) (s : State) : State :=
  {| self_browser := self_browser s; self_playwright := self_playwright s;
     page_url := page_url s; open_contexts := contexts;
     browser_open := browser; playwright_running := playwright;
     trace := trace s |}.

(** ** The envelope *)

Inductive envval : Type :=
| EnvBool (b : bool)
| EnvStr (s : string)
| EnvData (d : ExtractionRecord).

Definition Envelope := PyDict.dict envval.

(** lines 136-139 of [_navigate_to_store]: the mobile or map URL turned
    into the desktop one *)
Definition to_pc_url (url : string) : string :=
  if PyStr.str_in "m.place.naver.com" url || PyStr.str_in "map.naver.com" url then
    match PyStr.re_search_digits 8 url with
    | Some place_id => "https://pcmap.place.naver.com/restaurant/" ++ place_id ++ "/home"
    | None => url
    end
  else url.

(** ** The scraper

    The [print] calls of the source are left out. *)

Section Scraper.

Variable engine : Engine.

Definition playwright_start : M unit :=
  call EvStart (on_start engine)
    (fun _ s => with_self (self_browser s) true
                  (with_resources (open_contexts s) (browser_open s) true s)).

Definition chromium_launch : M unit :=
  call EvLaunch (on_launch engine)
    (fun _ s => with_self true (self_playwright s)
                  (with_resources (open_contexts s) true (playwright_running s) s)).

(** [self.browser.new_context(...)]; [self.browser] is [None] until
    [initialize] has run *)
Definition new_context : M unit :=
  fun s =>
    if self_browser s then
      call EvNewContext (on_new_context engine)
        (fun _ s => with_resources (S (open_contexts s)) (browser_open s)
                      (playwright_running s) s) s
    else raise (PyException "'NoneType' object has no attribute 'new_context'") s.

Definition new_page : M unit :=
  call EvNewPage (on_new_page engine) (fun _ s => s).

(** [page.goto(url, wait_until=...)]: the engine answers with the URL
    the page ends on *)
Definition goto (url wait_until : string) : M unit :=
  _ <- call (EvGoto url wait_until)
         (fun tr => on_goto engine tr url wait_until)
         (fun u s => with_page_url u s) ;;
  ret tt.

Definition wait_for_timeout (ms : Z) : M unit :=
  call (EvWaitForTimeout ms) (fun tr => on_wait_for_timeout engine tr ms) (fun _ s => s).

Definition get_page_url : M string := fun s => (Return (page_url s), s).

Definition context_close : M unit :=
  call EvContextClose (on_context_close engine)
    (fun _ s => with_resources (pred (open_contexts s)) (browser_open s)
                  (playwright_running s) s).

(** closing the browser closes the contexts that belong to it *)
Definition browser_close : M unit :=
  call EvBrowserClose (on_browser_close engine)
    (fun _ s => with_resources 0 false (playwright_running s) s).

Definition playwright_stop : M unit :=
  call EvStop (on_stop engine)
    (fun _ s => with_resources (open_contexts s) (browser_open s) false s).

Definition datetime_now_isoformat : M string :=
  fun s => (Return (now_isoformat engine (trace s)), s).

Definition initialize : M unit :=
  playwright_start ;;; chromium_launch.

Definition close : M unit :=
  (fun s => if self_browser s then browser_close s else ret tt s) ;;;
  (fun s => if self_playwright s then playwright_stop s else ret tt s).

Definition __aenter__ : M unit := initialize.

Definition __aexit__ : M unit := close.

Definition _navigate_to_store (url : string) : M string :=
  url <- (if PyStr.str_in "naver.me" url then
            goto url "domcontentloaded" ;;;
            wait_for_timeout 2000 ;;;
            get_page_url
          else ret url) ;;
  let url := to_pc_url url in
  goto url "networkidle" ;;;
  get_page_url.

Definition _extract_with_evaluate : M CandidateSet :=
  call EvEvaluate (on_evaluate engine) (fun _ s => s).

Definition page_content : M Soup.html :=
  call EvContent (on_content engine) (fun _ s => s).

(** the body of the [try] of [scrape] *)
Definition scrape_body (url : string) : M Envelope :=
  final_url <- _navigate_to_store url ;;
  wait_for_timeout 3000 ;;;
  extracted_data <- _extract_with_evaluate ;;
  html_content <- page_content ;;
  let soup_data := _extract_with_soup html_content in
  let merged_data := _merge_data extracted_data soup_data in
  timestamp <- datetime_now_isoformat ;;
  ret [ ("success", EnvBool true);
        ("data", EnvData merged_data);
        ("url", EnvStr final_url);
        ("timestamp", EnvStr timestamp) ].

(** the [except Exception as e] clause of [scrape] *)
Definition scrape_handler (url : string) (e : exn) : M Envelope :=
  timestamp <- datetime_now_isoformat ;;
  ret [ ("success", EnvBool false);
        ("error", EnvStr (str e));
        ("url", EnvStr url);
        ("timestamp", EnvStr timestamp) ].

Definition scrape (url : string) : M Envelope :=
  new_context ;;;
  new_page ;;;
  try_except_finally (scrape_body url) (scrape_handler url) context_close.

(** [async with SmartPlaceScraper(headless=True) as scraper]: a fresh
    scraper object, whose [browser] and [playwright] are [None] *)
Definition scrape_store (url : string) : M Envelope :=
  fun s =>
    async_with __aenter__ (scrape url) __aexit__ (with_self false false s).

End Scraper.

(** ** Notions the properties are stated with *)

(** the names of a list in the order of their first occurrence: the head
    stays, its later copies go *)
Fixpoint first_occurrences (l : list string) : list string :=
  match l with
  | [] => []
  | x :: l' => x :: filter (fun y => negb (String.eqb y x)) (first_occurrences l')
  end.

(** the last entry of [l] filed under the key [k] *)
Fixpoint last_with {V : Type} (key : V -> string) (k : string) (l : list V) : option V :=
  match l with
  | [] => None
  | x :: l' =>
      match last_with key k l' with
      | Some y => Some y
      | None => if String.eqb k (key x) then Some x else None
      end
  end.

(** the first entry of [l] filed under the key [k] *)
Definition first_with {V : Type} (key : V -> string) (k : string) (l : list V) : option V :=
  find (fun x => String.eqb k (key x)) l.

(** the lists and the dict a candidate set holds, empty when absent *)
Definition menu_of (c : CandidateSet) : list MenuItem.t := get_or (cs_menuItems c) [].
Definition reviews_of (c : CandidateSet) : list Review.t := get_or (cs_reviews c) [].
Definition images_of (c : CandidateSet) : list string := get_or (cs_images c) [].
Definition basic_of (c : CandidateSet) : PyDict.dict pyval := get_or (cs_basicInfo c) [].

(** a key joins a list of keys at its end, unless it is there *)
Definition add_new (ks : list string) (k : string) : list string :=
  if existsb (String.eqb k) ks then ks else (ks ++ [k])%list.

(** a dict as Python builds them: no key twice *)
Definition wf_dict {V : Type} (d : PyDict.dict V) : Prop := NoDup (PyDict.keys d).

(** the characters [l] hold [n] digits or more in a row *)
Definition has_digit_run (n : nat) (l : list string) : Prop :=
  exists a r b, l = (a ++ r ++ b)%list /\ PyStr.all_digits r = true /\ n <= length r.

(** [run] is the leftmost run of at least [n] digits of the characters
    [l], taken to its end: it starts after [pre], no run of [n] digits
    starts earlier, and no digit follows it *)
Definition leftmost_digit_run (n : nat) (l pre run post : list string) : Prop :=
  l = (pre ++ run ++ post)%list /\
  PyStr.all_digits run = true /\
  n <= length run /\
  PyStr.take_digits post = [] /\
  forall a r b, l = (a ++ r ++ b)%list -> PyStr.all_digits r = true ->
                n <= length r -> length pre <= length a.

(** the text the rating of a review item is read from: that of its
    rating element, the empty string when it has none *)
Definition rating_text (review : Soup.Tag) : string :=
  match Soup.select_one "span.pui__bMWJiy" review with
  | Some rating_elem => Soup.get_text rating_elem
  | None => ""
  end.

(** the review item has a text link *)
Definition has_text_link (review : Soup.Tag) : bool :=
  match Soup.select_one "a.pui__xtsQN-" review with
  | Some _ => true
  | None => false
  end.

(** the review items the markup extractor visits *)
Definition review_items (html : Soup.html) : list Soup.Tag :=
  firstn 10 (Soup.select "li.pui__X35jYm" (Soup.BeautifulSoup html)).

Definition has_key (k : string) (e : Envelope) : bool :=
  match PyDict.get k e with
  | Some _ => true
  | None => false
  end.

(** [success] is a boolean that gates which of [data] and [error] is there *)
Definition envelope_consistent (e : Envelope) : Prop :=
  (PyDict.get "success" e = Some (EnvBool true) /\
   (exists d, PyDict.get "data" e = Some (EnvData d)) /\ has_key "error" e = false)
  \/
  (PyDict.get "success" e = Some (EnvBool false) /\
   (exists msg, PyDict.get "error" e = Some (EnvStr msg)) /\ has_key "data" e = false).

Definition failure_envelope (msg url timestamp : string) : Envelope :=
  [ ("success", EnvBool false); ("error", EnvStr msg); ("url", EnvStr url);
    ("timestamp", EnvStr timestamp) ].

(** ** Sample pages and engines *)

Module Sample.

Definition kimchi_eval : MenuItem.t :=
  {| MenuItem.name := "Kimchi Stew"; MenuItem.price := "9000" |}.

Definition kimchi_markup : MenuItem.t :=
  {| MenuItem.name := "Kimchi Stew"; MenuItem.price := "8500" |}.

Definition bibimbap : MenuItem.t :=
  {| MenuItem.name := "Bibimbap"; MenuItem.price := "8000" |}.

Definition with_menu (l : list MenuItem.t) : CandidateSet :=
  {| cs_basicInfo := None; cs_menuItems := Some l; cs_reviews := None;
     cs_images := None |}.

Definition store_a : PyDict.dict pyval :=
  [ ("name", PyStr "Store A"); ("phone", PyStr "02-123-4567") ].

Definition store_b : PyDict.dict pyval :=
  [ ("name", PyStr "Store B"); ("rating", PyFloatV (PyFloat.of_Z 4)) ].

Definition with_basic (d : PyDict.dict pyval) : CandidateSet :=
  {| cs_basicInfo := Some d; cs_menuItems := None; cs_reviews := None;
     cs_images := None |}.

(** what the in-page script returns on a page with nothing to find *)
Definition empty_eval : CandidateSet :=
  {| cs_basicInfo := Some []; cs_menuItems := Some []; cs_reviews := Some [];
     cs_images := Some [] |}.

(** [<li class="E2jtL"><span class="lPzHi"></span></li>] *)
Definition nameless_menu : Soup.html :=
  [ Soup.Elem "li" ["E2jtL"] [ Soup.Elem "span" ["lPzHi"] [] ] ].

(** a menu with a priced item, an item without price and an item
    without name element *)
Definition menu_page : Soup.html :=
  [ Soup.Elem "ul" []
      [ Soup.Elem "li" ["E2jtL"]
          [ Soup.Elem "span" ["lPzHi"] [Soup.Text " Kimchi Stew "];
            Soup.Elem "div" ["_3qFuX"] [Soup.Text "8500"] ];
        Soup.Elem "li" ["E2jtL"]
          [ Soup.Elem "span" ["lPzHi"] [Soup.Text "Bibimbap"] ];
        Soup.Elem "li" ["E2jtL"]
          [ Soup.Elem "div" ["_3qFuX"] [Soup.Text "1000"] ] ] ].

Definition review_item (rating_text : string) : Soup.node :=
  Soup.Elem "li" ["pui__X35jYm"]
    [ Soup.Elem "span" ["pui__bMWJiy"] [Soup.Text rating_text];
      Soup.Elem "a" ["pui__xtsQN-"] [Soup.Text "good"];
      Soup.Elem "time" [] [ Soup.Elem "span" [] [Soup.Text "24.1.2"] ] ].

Definition review_page (rating_text : string) : Soup.html :=
  [ Soup.Elem "ul" [] [ review_item rating_text ] ].

(** an engine on which every call returns: the page ends on the URL it
    is sent to, except for the short link, which redirects to the mobile
    site *)
Definition engine_ok : Engine :=
  {| on_start := fun _ => Return tt;
     on_launch := fun _ => Return tt;
     on_new_context := fun _ => Return tt;
     on_new_page := fun _ => Return tt;
     on_goto := fun _ url _ =>
       if PyStr.str_in "naver.me" url
       then Return "https://m.place.naver.com/restaurant/12345678/home"
       else Return url;
     on_wait_for_timeout := fun _ _ => Return tt;
     on_evaluate := fun _ => Return empty_eval;
     on_content := fun _ => Return menu_page;
     on_context_close := fun _ => Return tt;
     on_browser_close := fun _ => Return tt;
     on_stop := fun _ => Return tt;
     now_isoformat := fun _ => "2024-01-02T03:04:05.000006" |}.

(** the engine fails the navigation that waits for the network to be
    idle, with [goto_error] *)
Definition failing_goto (goto_error : exn) (e : Engine) : Engine :=
  {| on_start := on_start e;
     on_launch := on_launch e;
     on_new_context := on_new_context e;
     on_new_page := on_new_page e;
     on_goto := fun tr url wait_until =>
       if String.eqb wait_until "networkidle" then Raise goto_error
       else on_goto e tr url wait_until;
     on_wait_for_timeout := on_wait_for_timeout e;
     on_evaluate := on_evaluate e;
     on_content := on_content e;
     on_context_close := on_context_close e;
     on_browser_close := on_browser_close e;
     on_stop := on_stop e;
     now_isoformat := now_isoformat e |}.

(** closing the context fails *)
Definition failing_context_close (close_error : exn) (e : Engine) : Engine :=
  {| on_start := on_start e;
     on_launch := on_launch e;
     on_new_context := on_new_context e;
     on_new_page := on_new_page e;
     on_goto := on_goto e;
     on_wait_for_timeout := on_wait_for_timeout e;
     on_evaluate := on_evaluate e;
     on_content := on_content e;
     on_context_close := fun _ => Raise close_error;
     on_browser_close := on_browser_close e;
     on_stop := on_stop e;
     now_isoformat := now_isoformat e |}.

(** opening the page fails *)
Definition failing_new_page (page_error : exn) (e : Engine) : Engine :=
  {| on_start := on_start e;
     on_launch := on_launch e;
     on_new_context := on_new_context e;
     on_new_page := fun _ => Raise page_error;
     on_goto := on_goto e;
     on_wait_for_timeout := on_wait_for_timeout e;
     on_evaluate := on_evaluate e;
     on_content := on_content e;
     on_context_close := on_context_close e;
     on_browser_close := on_browser_close e;
     on_stop := on_stop e;
     now_isoformat := now_isoformat e |}.

(** a scraper whose [initialize] has run *)
Definition ready : State :=
  {| self_browser := true; self_playwright := true; page_url := "about:blank";
     open_contexts := 0; browser_open := true; playwright_running := true;
     trace := [EvStart; EvLaunch] |}.

Definition short_link : string := "https://naver.me/xAbCdEfG".
Definition mobile_url : string := "https://m.place.naver.com/restaurant/12345678/home".
Definition pc_url : string := "https://pcmap.place.naver.com/restaurant/12345678/home".

(** the name of the host does not resolve *)
Definition engine_goto_fails : Engine :=
  failing_goto (PyException "net::ERR_NAME_NOT_RESOLVED") engine_ok.

(** the browser is gone: the navigation fails, and so does the closing
    of the context *)
Definition engine_crashed : Engine :=
  failing_context_close (PyException "Target closed")
    (failing_goto (PyException "Target closed") engine_ok).

(** the task is cancelled while it waits for the navigation; the [str()]
    of a cancellation is empty *)
Definition engine_cancelled : Engine :=
  failing_goto (PyBaseException "") engine_ok.

(** the context opens, the page does not *)
Definition engine_no_page : Engine :=
  failing_new_page (PyException "Target closed") engine_ok.

(** [ready] with a context and a page *)
Definition in_session : State :=
  {| self_browser := true; self_playwright := true; page_url := "about:blank";
     open_contexts := 1; browser_open := true; playwright_running := true;
     trace := [EvStart; EvLaunch; EvNewContext; EvNewPage] |}.

End Sample.

(** ** The Lambda handler and the command line *)

(** the response of the handler; [body] is the dict that [json.dumps]
    writes out *)
Record Response := { statusCode : Z; body : Envelope }.

(** what an event holds under a key, as the JSON of an invocation gives
    it: a string, or one of the values that count as false in a test:
    null, false, the numbers 0 and 0.0, the empty list and the empty
    object.  The values that count as true and are no strings are left
    out: the handler hands them to [scrape_store], which is written for
    strings. *)
Inductive event_value : Type :=
| EvtNull
| EvtFalse
| EvtIntZero
| EvtFloatZero
| EvtEmptyList
| EvtEmptyDict
| EvtStr (s : string).

Definition Event := PyDict.dict event_value.

(** [event.get('url')]: [None] for a key that is absent *)
Definition event_get_url (event : Event) : event_value :=
  match PyDict.get "url" event with
  | Some v => v
  | None => EvtNull
  end.

(** [not url] *)
Definition not_url (url : event_value) : bool :=
  match url with
  | EvtNull | EvtFalse | EvtIntZero | EvtFloatZero | EvtEmptyList | EvtEmptyDict => true
  | EvtStr u => String.eqb u ""
  end.

(** the string handed on once [not url] is false *)
Definition url_string (url : event_value) : string :=
  match url with
  | EvtStr u => u
  | _ => ""
  end.

(** the ways in which an event is without a usable [url]: the key is
    absent, or its value counts as false *)
Definition without_url : list (option event_value) :=
  [ None; Some EvtNull; Some EvtFalse; Some EvtIntZero; Some EvtFloatZero;
    Some EvtEmptyList; Some EvtEmptyDict; Some (EvtStr "") ].

(** the truth value of an entry of the envelope *)
Definition truthy (v : envval) : bool :=
  match v with
  | EnvBool b => b
  | EnvStr s => negb (String.eqb s "")
  | EnvData _ => true
  end.

(** [result[k]] *)
Definition getitem (k : string) (result : Envelope) : M envval :=
  match PyDict.get k result with
  | Some v => ret v
  | None => raise (PyException ("'" ++ k ++ "'"))
  end.

Definition bad_request : Response :=
  {| statusCode := 400; body := [ ("error", EnvStr "URL is required") ] |}.

Section Handler.

Variable engine : Engine.

(** the event loop made for the call and closed in the [finally] clause
    has no part in what is observed here *)
Definition lambda_handler (event : Event) : M Response :=
  let url := event_get_url event in
  if not_url url then ret bad_request
  else
    result <- scrape_store engine (url_string url) ;;
    success <- getitem "success" result ;;
    ret {| statusCode := if truthy success then 200 else 500; body := result |}.

(** the command line: the exit status and the envelope printed last; an
    exception that escapes ends the process with a traceback *)
Definition main (argv : list string) : M (Z * option Envelope) :=
  if (length argv <? 2)%nat then ret (1%Z, None)
  else
    let url := nth 1 argv "" in
    result <- scrape_store engine url ;;
    ret (0%Z, Some result).

End Handler.

(** ** More notions for the properties *)

(** what [f] gives on the last element of [l] on which it gives something *)
Fixpoint last_some {A B : Type} (f : A -> option B) (l : list A) : option B :=
  match l with
  | [] => None
  | x :: l' =>
      match last_some f l' with
      | Some y => Some y
      | None => f x
      end
  end.

Definition some_list {A : Type} (o : option A) : list A :=
  match o with
  | Some x => [x]
  | None => []
  end.

(** the candidate set [{}] *)
Definition no_candidates : CandidateSet :=
  {| cs_basicInfo := None; cs_menuItems := None; cs_reviews := None;
     cs_images := None |}.

(** a merged record handed to the merge again *)
Definition as_candidates (r : ExtractionRecord) : CandidateSet :=
  {| cs_basicInfo := Some (basicInfo r); cs_menuItems := Some (menuItems r);
     cs_reviews := Some (reviews r); cs_images := Some (images r) |}.

(** no digit among the characters [l] *)
Definition digit_free (l : list string) : Prop :=
  forall c, In c l -> PyStr.isdecimal c = false.

(** the review the markup extractor builds from the three elements *)
Definition review_of (rating_elem : option Soup.Tag) (text_elem : Soup.Tag)
    (date_elem : option Soup.Tag) : Review.t :=
  {| Review.rating :=
       _extract_rating
         match rating_elem with
         | Some r => Soup.get_text r
         | None => ""
         end;
     Review.text := Soup.get_text_strip text_elem;
     Review.date :=
       match date_elem with
       | Some d => Soup.get_text_strip d
       | None => ""
       end |}.

(** the calls of [tr] that are navigations *)
Definition gotos (tr : list event) : list event :=
  filter (fun ev => match ev with EvGoto _ _ => true | _ => false end) tr.

(** the scraper object and the resources held are the same in [s'] as in [s] *)
Definition same_resources (s s' : State) : Prop :=
  self_browser s' = self_browser s /\ self_playwright s' = self_playwright s /\
  open_contexts s' = open_contexts s /\ browser_open s' = browser_open s /\
  playwright_running s' = playwright_running s.

(** a computation that leaves them so on every path *)
Definition keeps_resources {A : Type} (m : M A) : Prop :=
  forall s r s', m s = (r, s') -> same_resources s s'.


(** ** More sample pages and engines *)

Module Scenario.

(** the launch of the browser fails *)
Definition failing_launch (launch_error : exn) (e : Engine) : Engine :=
  {| on_start := on_start e;
     on_launch := fun _ => Raise launch_error;
     on_new_context := on_new_context e;
     on_new_page := on_new_page e;
     on_goto := on_goto e;
     on_wait_for_timeout := on_wait_for_timeout e;
     on_evaluate := on_evaluate e;
     on_content := on_content e;
     on_context_close := on_context_close e;
     on_browser_close := on_browser_close e;
     on_stop := on_stop e;
     now_isoformat := now_isoformat e |}.

(** closing the browser fails *)
Definition failing_browser_close (close_error : exn) (e : Engine) : Engine :=
  {| on_start := on_start e;
     on_launch := on_launch e;
     on_new_context := on_new_context e;
     on_new_page := on_new_page e;
     on_goto := on_goto e;
     on_wait_for_timeout := on_wait_for_timeout e;
     on_evaluate := on_evaluate e;
     on_content := on_content e;
     on_context_close := on_context_close e;
     on_browser_close := fun _ => Raise close_error;
     on_stop := on_stop e;
     now_isoformat := now_isoformat e |}.

(** the short link does not resolve *)
Definition failing_short_link (goto_error : exn) (e : Engine) : Engine :=
  {| on_start := on_start e;
     on_launch := on_launch e;
     on_new_context := on_new_context e;
     on_new_page := on_new_page e;
     on_goto := fun tr url wait_until =>
       if String.eqb wait_until "domcontentloaded" then Raise goto_error
       else on_goto e tr url wait_until;
     on_wait_for_timeout := on_wait_for_timeout e;
     on_evaluate := on_evaluate e;
     on_content := on_content e;
     on_context_close := on_context_close e;
     on_browser_close := on_browser_close e;
     on_stop := on_stop e;
     now_isoformat := now_isoformat e |}.

Definition engine_no_launch : Engine :=
  failing_launch (PyException "Executable doesn't exist") Sample.engine_ok.

Definition engine_stuck_browser : Engine :=
  failing_browser_close (PyException "Connection closed") Sample.engine_ok.

Definition engine_dead_link : Engine :=
  failing_short_link (PyException "net::ERR_NAME_NOT_RESOLVED") Sample.engine_ok.

Definition two_reviews : list Review.t :=
  [ {| Review.rating := PyFloat.of_Z 5; Review.text := "great"; Review.date := "24.1.2" |};
    {| Review.rating := PyFloat.of_Z 5; Review.text := "great"; Review.date := "24.1.2" |} ].

Definition with_reviews (l : list Review.t) : CandidateSet :=
  {| cs_basicInfo := None; cs_menuItems := None; cs_reviews := Some l;
     cs_images := None |}.

(** a page with a place title and a category; the second name pattern
    matches too *)
Definition info_page : Soup.html :=
  [ Soup.Elem "div" []
      [ Soup.Elem "span" ["Fc1rA"] [Soup.Text "Second"];
        Soup.Elem "span" ["GHAhO"] [Soup.Text " First "];
        Soup.Elem "span" ["DJJvD"] [Soup.Text "Korean"] ] ].

(** the element of [info_page] that the first name pattern finds *)
Definition info_name_elem : Soup.Tag :=
  {| Soup.tag_ancestors := [("div", []); ("[document]", [])];
     Soup.tag_name := "span"; Soup.tag_classes := ["GHAhO"];
     Soup.tag_children := [Soup.Text " First "] |}.

(** a review with neither rating nor date, and a list item without text
    link *)
Definition bare_reviews : Soup.html :=
  [ Soup.Elem "ul" []
      [ Soup.Elem "li" ["pui__X35jYm"]
          [ Soup.Elem "a" ["pui__xtsQN-"] [Soup.Text "tasty"] ];
        Soup.Elem "li" ["pui__X35jYm"]
          [ Soup.Elem "span" ["pui__bMWJiy"] [Soup.Text "5"] ] ] ].


(** the response to an event whose short link resolves and whose desktop
    page fails to load *)
Definition failed_response : Response :=
  {| statusCode := 500;
     body := failure_envelope "net::ERR_NAME_NOT_RESOLVED" Sample.short_link
               "2024-01-02T03:04:05.000006" |}.

End Scenario.

(** ** The script evaluated in the page

    The function handed to [page.evaluate] by [_extract_with_evaluate],
    over what it reads of the page: the globals, the [meta] elements, the
    structured-data scripts with what [JSON.parse] makes of their text, the
    first match of a selector, and the [img] elements.  Objects are dicts
    in insertion order.  No step throws outside the [try] of the
    structured-data loop, so [error] is never set and is left out. *)

Module Js.

#[warnings="-register-all"]
Inductive value : Type :=
| Undefined
| Null
| Bool (b : bool)
| Num (x : PyFloat.float)
| Str (s : string)
| Arr (items : list value)
| Obj (fields : list (string * value)).

(** the truth value of [v] in a condition *)
Definition truthy (v : value) : bool :=
  match v with
  | Undefined | Null => false
  | Bool b => b
  | Num (S754_zero _) | Num S754_nan => false
  | Num _ => true
  | Str s => negb (String.eqb s "")
  | Arr _ | Obj _ => true
  end.

(** the code points of white space and of line ends in the script *)
Definition whitespace : list N :=
  [ 9; 10; 11; 12; 13; 32; 160; 5760; 8192; 8193; 8194; 8195; 8196; 8197; 8198;
    8199; 8200; 8201; 8202; 8232; 8233; 8239; 8287; 12288; 65279 ]%N.

Definition isspace (c : string) : bool :=
  match PyStr.code_point c with
  | Some cp => existsb (N.eqb cp) whitespace
  | None => false
  end.

(** [s.trim()] *)
Definition trim (s : string) : string :=
  PyStr.join
    (rev (PyStr.drop_while isspace (rev (PyStr.drop_while isspace (PyStr.chars s))))).

(** [v[k]] for a key that is no index and no built-in property; [None]
    when it throws a [TypeError] *)
Definition member (v : value) (k : string) : option value :=
  match v with
  | Undefined | Null => None
  | Obj fields => Some (get_or (PyDict.get k fields) Undefined)
  | Bool _ | Num _ | Str _ | Arr _ => Some Undefined
  end.

(** [v.k] where [v] is known to be an object *)
Definition field (v : value) (k : string) : value :=
  get_or (member v k) Undefined.

(** [v?.k] *)
Definition opt_field (v : value) (k : string) : value :=
  match v with
  | Undefined | Null => Undefined
  | _ => field v k
  end.

(** [t === 'Restaurant'] *)
Definition strict_eq_Restaurant (t : value) : bool :=
  match t with
  | Str s => String.eqb s "Restaurant"
  | _ => false
  end.

(** [t?.includes('Restaurant')]; [None] when [includes] is no function *)
Definition includes_Restaurant (t : value) : option value :=
  match t with
  | Undefined | Null => Some Undefined
  | Str s => Some (Bool (PyStr.str_in "Restaurant" s))
  | Arr items => Some (Bool (existsb strict_eq_Restaurant items))
  | Bool _ | Num _ | Obj _ => None
  end.

(** the condition of the structured-data branch; [None] when it throws *)
Definition is_restaurant (data : value) : option bool :=
  match member data "@type" with
  | None => None
  | Some t =>
      if strict_eq_Restaurant t then Some true
      else option_map truthy (includes_Restaurant t)
  end.

(** [getAttribute] gives null for an attribute that is not there *)
Record Meta := {
  attr_property : option string;
  attr_name : option string;
  attr_content : option string
}.

(** [img.src] is the empty string without the attribute, [img.dataset.src]
    is undefined without it *)
Record Img := { src : string; dataset_src : option string }.

Record Page := {
  window : string -> value;
  metas : list Meta;
  ld_json : list (option value);
  query_text : string -> option string;
  imgs : list Img
}.

Record Result := {
  basicInfo : PyDict.dict value;
  menuItems : list value;
  reviews : list value;
  images : list string;
  raw : PyDict.dict value
}.

Definition with_basicInfo (r : Result) (d : PyDict.dict value) : Result :=
  {| basicInfo := d; menuItems := menuItems r; reviews := reviews r;
     images := images r; raw := raw r |}.

Definition with_images (r : Result) (l : list string) : Result :=
  {| basicInfo := basicInfo r; menuItems := menuItems r; reviews := reviews r;
     images := l; raw := raw r |}.

Definition with_raw (r : Result) (d : PyDict.dict value) : Result :=
  {| basicInfo := basicInfo r; menuItems := menuItems r; reviews := reviews r;
     images := images r; raw := d |}.

(** a string that is neither null nor empty *)
Definition present (a : option string) : option string :=
  match a with
  | Some s => if String.eqb s "" then None else Some s
  | None => None
  end.

Definition possibleDataKeys : list string :=
  [ "__PLACE_STATE__"; "__APOLLO_STATE__"; "PLACE_STATE"; "__NEXT_DATA__" ].

(** 1. the globals *)
Definition window_step (page : Page) (r : Result) (key : string) : Result :=
  if truthy (window page key) then with_raw r (PyDict.set key (window page key) (raw r))
  else r.

(** [meta.getAttribute('property') || meta.getAttribute('name')] *)
Definition meta_property (meta : Meta) : option string :=
  match present (attr_property meta) with
  | Some p => Some p
  | None => attr_name meta
  end.

(** 2. one [meta] element *)
Definition meta_step (r : Result) (meta : Meta) : Result :=
  match present (meta_property meta), present (attr_content meta) with
  | Some property, Some content =>
      let r := if PyStr.str_in "title" property
               then with_basicInfo r (PyDict.set "name" (Str content) (basicInfo r))
               else r in
      let r := if PyStr.str_in "description" property
               then with_basicInfo r (PyDict.set "description" (Str content) (basicInfo r))
               else r in
      if PyStr.str_in "image" property
      then with_images r (images r ++ [content])%list
      else r
  | _, _ => r
  end.

(** the object handed to [Object.assign] *)
Definition restaurant_fields (data : value) : PyDict.dict value :=
  [ ("name", field data "name");
    ("address", opt_field (field data "address") "streetAddress");
    ("telephone", field data "telephone");
    ("priceRange", field data "priceRange");
    ("rating", opt_field (field data "aggregateRating") "ratingValue");
    ("reviewCount", opt_field (field data "aggregateRating") "reviewCount") ].

(** 3. one structured-data script; what it throws is caught and dropped *)
Definition ld_step (r : Result) (parsed : option value) : Result :=
  match parsed with
  | None => r
  | Some data =>
      match is_restaurant data with
      | None => r
      | Some restaurant =>
          let r := if restaurant
                   then with_basicInfo r (PyDict.update (basicInfo r) (restaurant_fields data))
                   else r in
          with_raw r (PyDict.set "jsonLd" data (raw r))
      end
  end.

Definition dq : string := String "034"%char EmptyString.

Definition class_has (word : string) : string := "[class*=" ++ dq ++ word ++ dq ++ "]".

Definition selectors : list (string * list string) :=
  [ ("name", ["h1"; "h2"; class_has "name"; class_has "title"]);
    ("category", [class_has "category"; class_has "type"]);
    ("address", [class_has "address"; class_has "location"]);
    ("phone", [class_has "phone"; class_has "tel"]) ].

(** the value of [info[key]] *)
Definition lookup (info : PyDict.dict value) (key : string) : value :=
  get_or (PyDict.get key info) Undefined.

(** 4. the selectors of one field, until one is used *)
Fixpoint selector_loop (page : Page) (key : string) (selectorList : list string)
    (info : PyDict.dict value) : PyDict.dict value :=
  match selectorList with
  | [] => info
  | selector :: rest =>
      if negb (truthy (lookup info key)) then
        match query_text page selector with
        | Some text => PyDict.set key (Str (trim text)) info
        | None => selector_loop page key rest info
        end
      else selector_loop page key rest info
  end.

Definition selector_step (page : Page) (r : Result) (entry : string * list string) : Result :=
  with_basicInfo r (selector_loop page (fst entry) (snd entry) (basicInfo r)).

(** [img.src || img.dataset.src] *)
Definition img_source (img : Img) : option string :=
  if String.eqb (src img) "" then dataset_src img else Some (src img).

(** 5. one [img] element *)
Definition img_step (r : Result) (img : Img) : Result :=
  match present (img_source img) with
  | Some u =>
      if PyStr.str_in "pstatic" u && negb (PyStr.str_in "icon" u)
      then with_images r (images r ++ [u])%list
      else r
  | None => r
  end.

Definition empty_result : Result :=
  {| basicInfo := []; menuItems := []; reviews := []; images := []; raw := [] |}.

(** the function evaluated in the page *)
Definition locate (page : Page) : Result :=
  let result := empty_result in
  let result := fold_left (window_step page) possibleDataKeys result in
  let result := fold_left meta_step (metas page) result in
  let result := fold_left ld_step (ld_json page) result in
  let result := fold_left (selector_step page) selectors result in
  let result := fold_left img_step (imgs page) result in
  result.

(** the trimmed text of the first selector of the list that matches *)
Fixpoint first_query (page : Page) (selectorList : list string) : option string :=
  match selectorList with
  | [] => None
  | selector :: rest =>
      match query_text page selector with
      | Some text => Some (trim text)
      | None => first_query page rest
      end
  end.

(** a [meta] element that counts for [word]: its property, or else its
    name, holds the word, and it has a content *)
Definition meta_for (word : string) (meta : Meta) : option string :=
  match present (meta_property meta), present (attr_content meta) with
  | Some property, Some content =>
      if PyStr.str_in word property then Some content else None
  | _, _ => None
  end.

(** an [img] element that counts: its source holds "pstatic" and not
    "icon" *)
Definition img_kept (img : Img) : option string :=
  match present (img_source img) with
  | Some u =>
      if PyStr.str_in "pstatic" u && negb (PyStr.str_in "icon" u) then Some u else None
  | None => None
  end.

(** a structured-data script that parses to a restaurant *)
Definition restaurant_block (parsed : option value) : bool :=
  match parsed with
  | Some data =>
      match is_restaurant data with
      | Some true => true
      | _ => false
      end
  | None => false
  end.

End Js.

(** ** Sample pages for the script *)

Module JsScenario.

Definition og_title : Js.Meta :=
  {| Js.attr_property := Some "og:title"; Js.attr_name := None;
     Js.attr_content := Some "First title" |}.

Definition twitter_title : Js.Meta :=
  {| Js.attr_property := None; Js.attr_name := Some "twitter:title";
     Js.attr_content := Some "Second title" |}.

Definition og_image : Js.Meta :=
  {| Js.attr_property := Some "og:image"; Js.attr_name := None;
     Js.attr_content := Some "https://example.com/logo-icon.png" |}.

Definition organization : Js.value :=
  Js.Obj [ ("@type", Js.Str "Organization"); ("name", Js.Str "Owner") ].

(** a restaurant without name, with a telephone and a rating *)
Definition restaurant : Js.value :=
  Js.Obj [ ("@type", Js.Arr [Js.Str "LocalBusiness"; Js.Str "Restaurant"]);
           ("telephone", Js.Str "02-123-4567");
           ("aggregateRating", Js.Obj [ ("ratingValue", Js.Num (PyFloat.of_Z 4)) ]) ].

Definition queries (selector : string) : option string :=
  if String.eqb selector "h1" then Some "  Heading  "
  else if String.eqb selector (Js.class_has "type") then Some " Korean "
  else None.

Definition pictures : list Js.Img :=
  [ {| Js.src := "https://ldb-phinf.pstatic.net/a.jpg"; Js.dataset_src := None |};
    {| Js.src := "https://ssl.pstatic.net/icon.png"; Js.dataset_src := None |};
    {| Js.src := ""; Js.dataset_src := Some "https://ldb-phinf.pstatic.net/lazy.jpg" |} ].

(** two titles, no restaurant block *)
Definition plain_page : Js.Page :=
  {| Js.window := fun _ => Js.Undefined;
     Js.metas := [og_title; twitter_title; og_image];
     Js.ld_json := [None; Some organization];
     Js.query_text := queries;
     Js.imgs := pictures |}.

(** the same with a restaurant block after the other scripts *)
Definition restaurant_page : Js.Page :=
  {| Js.window := fun _ => Js.Undefined;
     Js.metas := [og_title; twitter_title; og_image];
     Js.ld_json := [None; Some organization; Some restaurant];
     Js.query_text := queries;
     Js.imgs := pictures |}.

End JsScenario.

(** * Properties *)

(** ** Dictionaries *)

Section DictFacts.

Context {V : Type}.
Implicit Types (d : PyDict.dict V) (k : string) (v : V).

Lemma get_set_same k v d : PyDict.get k (PyDict.set k v d) = Some v.
Proof.
  induction d as [|[k' v'] d IH]; simpl.
  - now rewrite String.eqb_refl.
  - destruct (String.eqb k k') eqn:E; simpl; rewrite E; auto.
Qed.

Lemma get_set_other k k' v d :
  k <> k' -> PyDict.get k (PyDict.set k' v d) = PyDict.get k d.
Proof.
  intros Hne. induction d as [|[k0 v0] d IH]; simpl.
  - apply String.eqb_neq in Hne. now rewrite Hne.
  - destruct (String.eqb k' k0) eqn:E; simpl.
    + apply String.eqb_eq in E. subst k0.
      apply String.eqb_neq in Hne. now rewrite Hne.
    + now rewrite IH.
Qed.

Lemma get_set k k' v d :
  PyDict.get k (PyDict.set k' v d) =
  if String.eqb k k' then Some v else PyDict.get k d.
Proof.
  destruct (String.eqb_spec k k') as [->|Hne].
  - apply get_set_same.
  - now apply get_set_other.
Qed.

(** assigning a key leaves the keys where they are and puts a new key
    last *)
Lemma keys_set k v d :
  PyDict.keys (PyDict.set k v d) =
  if existsb (String.eqb k) (PyDict.keys d) then PyDict.keys d
  else (PyDict.keys d ++ [k])%list.
Proof.
  induction d as [|[k' v'] d IH]; simpl; [reflexivity|].
  destruct (String.eqb k k') eqn:E; simpl; [reflexivity|].
  rewrite IH. now destruct (existsb _ _).
Qed.

Lemma existsb_eqb_In k (l : list string) :
  existsb (String.eqb k) l = true <-> In k l.
Proof.
  rewrite existsb_exists. split.
  - intros [x [Hin Heq]]. apply String.eqb_eq in Heq. now subst.
  - intros Hin. exists k. split; [assumption|apply String.eqb_refl].
Qed.

Lemma wf_set k v d : wf_dict d -> wf_dict (PyDict.set k v d).
Proof.
  unfold wf_dict. intros Hnd. rewrite keys_set.
  destruct (existsb (String.eqb k) (PyDict.keys d)) eqn:E; [assumption|].
  apply NoDup_app; auto.
  - repeat constructor. intros [].
  - intros x Hx [<-|[]].
    apply existsb_eqb_In in Hx. congruence.
Qed.

Lemma get_In k v d : wf_dict d -> In (k, v) d -> PyDict.get k d = Some v.
Proof.
  unfold wf_dict. induction d as [|[k' v'] d IH]; simpl; [tauto|].
  intros Hnd [Heq|Hin].
  - injection Heq as -> ->. now rewrite String.eqb_refl.
  - inversion Hnd as [|? ? Hnotin Hnd']; subst.
    destruct (String.eqb_spec k k') as [->|Hne]; [|auto].
    exfalso. apply Hnotin. change k' with (fst (k', v)). now apply in_map.
Qed.

Lemma get_None_not_In k d : PyDict.get k d = None <-> ~ In k (PyDict.keys d).
Proof.
  induction d as [|[k' v'] d IH]; simpl; [tauto|].
  destruct (String.eqb_spec k k') as [->|Hne].
  - split; [discriminate|]. intros H. exfalso. apply H. now left.
  - rewrite IH. split.
    + intros H [Heq|Hin]; [congruence|contradiction].
    + intros H Hin. apply H. now right.
Qed.

(** [d.update(d2)] read at a key: the last entry of [d2] under the key,
    or else what [d] holds *)
Lemma get_update k d2 : forall d,
  PyDict.get k (PyDict.update d d2) =
  match last_with fst k d2 with
  | Some kv => Some (snd kv)
  | None => PyDict.get k d
  end.
Proof.
  unfold PyDict.update.
  induction d2 as [|[k' v'] d2 IH]; intros d; simpl; [reflexivity|].
  rewrite IH. destruct (last_with fst k d2); [reflexivity|].
  rewrite get_set. now destruct (String.eqb k k').
Qed.

Lemma last_with_fst_wf k d :
  wf_dict d ->
  match last_with fst k d with
  | Some kv => Some (snd kv)
  | None => None
  end = PyDict.get k d.
Proof.
  unfold wf_dict. induction d as [|[k' v'] d IH]; simpl; [reflexivity|].
  intros Hnd. inversion Hnd as [|? ? Hnotin Hnd']; subst.
  specialize (IH Hnd').
  destruct (String.eqb_spec k k') as [->|Hne].
  - apply get_None_not_In in Hnotin. rewrite Hnotin in IH.
    destruct (last_with fst k' d); [discriminate|reflexivity].
  - destruct (last_with fst k d); assumption.
Qed.

Lemma wf_update d2 : forall d, wf_dict d -> wf_dict (PyDict.update d d2).
Proof.
  unfold PyDict.update.
  induction d2 as [|[k' v'] d2 IH]; intros d Hd; simpl; [assumption|].
  apply IH. now apply wf_set.
Qed.

(** the merge display read at a key: the right-hand dict wins *)
Lemma get_unpack2 k (a b : PyDict.dict V) :
  wf_dict a -> wf_dict b ->
  PyDict.get k (PyDict.unpack2 a b) =
  match PyDict.get k b with
  | Some v => Some v
  | None => PyDict.get k a
  end.
Proof.
  intros Ha Hb. unfold PyDict.unpack2.
  rewrite !get_update. simpl.
  rewrite <- (last_with_fst_wf k b Hb), <- (last_with_fst_wf k a Ha).
  destruct (last_with fst k b); [reflexivity|].
  destruct (last_with fst k a); reflexivity.
Qed.

End DictFacts.

(** ** Lists *)

Lemma filter_filter_and {A : Type} (p q r : A -> bool) (l : list A) :
  (forall y, r y = q y && p y) -> filter p (filter q l) = filter r l.
Proof.
  intros H. induction l as [|a l IH]; simpl; [reflexivity|].
  rewrite H. destruct (q a); simpl; [|assumption].
  destruct (p a); now rewrite IH.
Qed.

Lemma filter_all {A : Type} (p : A -> bool) (l : list A) :
  (forall y, p y = true) -> filter p l = l.
Proof.
  intros H. induction l as [|a l IH]; simpl; [reflexivity|].
  now rewrite H, IH.
Qed.

Lemma firstn_subset {A : Type} (n : nat) (l : list A) (x : A) :
  In x (firstn n l) -> In x l.
Proof.
  revert l. induction n as [|n IH]; intros [|a l]; simpl; try tauto.
  intros [->|Hin]; [now left|right; now apply IH].
Qed.

Lemma NoDup_firstn_keep {A : Type} (n : nat) (l : list A) :
  NoDup l -> NoDup (firstn n l).
Proof.
  revert l. induction n as [|n IH]; intros [|a l] Hnd; simpl; try constructor.
  - inversion Hnd; subst. intros Hin. now apply firstn_subset in Hin.
  - inversion Hnd; subst. now apply IH.
Qed.

Lemma last_with_app {V : Type} (key : V -> string) (k : string) (a b : list V) :
  last_with key k (a ++ b)%list =
  match last_with key k b with
  | Some y => Some y
  | None => last_with key k a
  end.
Proof.
  induction a as [|x a IH]; simpl.
  - now destruct (last_with key k b).
  - rewrite IH. now destruct (last_with key k b).
Qed.

Lemma last_with_key {V : Type} (key : V -> string) (k : string) (l : list V) (y : V) :
  last_with key k l = Some y -> key y = k /\ In y l.
Proof.
  induction l as [|x l IH]; simpl; [discriminate|].
  destruct (last_with key k l) as [z|].
  - intros [= ->]. destruct (IH eq_refl). auto.
  - destruct (String.eqb_spec k (key x)) as [->|]; [|discriminate].
    intros [= ->]. auto.
Qed.

Lemma last_with_None {V : Type} (key : V -> string) (k : string) (l : list V) :
  last_with key k l = None -> forall y, In y l -> key y <> k.
Proof.
  induction l as [|x l IH]; simpl; [tauto|].
  destruct (last_with key k l) as [z|]; [discriminate|].
  destruct (String.eqb_spec k (key x)) as [->|Hne]; [discriminate|].
  intros _ y [<-|Hin]; [congruence|now apply IH].
Qed.

(** ** The comprehension that removes duplicates *)

Section ComprehensionFacts.

Context {V : Type} (key : V -> string).

Lemma fold_add_new (l : list string) : forall ks,
  fold_left add_new l ks =
  (ks ++ filter (fun y => negb (existsb (String.eqb y) ks)) (first_occurrences l))%list.
Proof.
  induction l as [|x l IH]; intros ks; simpl.
  - now rewrite app_nil_r.
  - rewrite IH. unfold add_new.
    destruct (existsb (String.eqb x) ks) eqn:E; simpl.
    + f_equal. symmetry. apply filter_filter_and. intros y.
      destruct (String.eqb_spec y x) as [->|]; simpl; [now rewrite E|reflexivity].
    + rewrite <- app_assoc. simpl. do 2 f_equal. symmetry.
      apply filter_filter_and. intros y.
      rewrite existsb_app. simpl. rewrite orb_false_r.
      destruct (String.eqb y x), (existsb (String.eqb y) ks); reflexivity.
Qed.

Lemma keys_fold_step (l : list V) : forall d,
  PyDict.keys (fold_left (fun acc x => PyDict.set (key x) x acc) l d) =
  fold_left add_new (map key l) (PyDict.keys d).
Proof.
  induction l as [|x l IH]; intros d; simpl; [reflexivity|].
  now rewrite IH, keys_set.
Qed.

(** the keys of the comprehension are the keys of the list, each at the
    place of its first occurrence *)
Lemma keys_comprehension (l : list V) :
  PyDict.keys (PyDict.comprehension key l) = first_occurrences (map key l).
Proof.
  unfold PyDict.comprehension.
  rewrite keys_fold_step, fold_add_new. simpl.
  now apply filter_all.
Qed.

Lemma get_fold_step (k : string) (l : list V) : forall d,
  PyDict.get k (fold_left (fun acc x => PyDict.set (key x) x acc) l d) =
  match last_with key k l with
  | Some y => Some y
  | None => PyDict.get k d
  end.
Proof.
  induction l as [|x l IH]; intros d; simpl; [reflexivity|].
  rewrite IH. destruct (last_with key k l); [reflexivity|].
  rewrite get_set. now destruct (String.eqb k (key x)).
Qed.

(** the value kept under a key is the last entry of the list with it *)
Lemma get_comprehension (k : string) (l : list V) :
  PyDict.get k (PyDict.comprehension key l) = last_with key k l.
Proof.
  unfold PyDict.comprehension. rewrite get_fold_step.
  now destruct (last_with key k l).
Qed.

Lemma wf_comprehension (l : list V) : wf_dict (PyDict.comprehension key l).
Proof.
  unfold PyDict.comprehension.
  assert (H : forall d, wf_dict d ->
              wf_dict (fold_left (fun acc x => PyDict.set (key x) x acc) l d)).
  { induction l as [|x l IH]; intros d Hd; simpl; [assumption|].
    apply IH. now apply wf_set. }
  apply H. constructor.
Qed.

Lemma values_comprehension (l : list V) (v : V) :
  In v (PyDict.values (PyDict.comprehension key l)) ->
  last_with key (key v) l = Some v.
Proof.
  intros Hin. unfold PyDict.values in Hin.
  apply in_map_iff in Hin. destruct Hin as [[k v'] [Hv Hin]].
  simpl in Hv. subst v'.
  apply get_In in Hin; [|apply wf_comprehension].
  rewrite get_comprehension in Hin.
  destruct (last_with_key _ _ _ _ Hin) as [Hk _]. now rewrite Hk.
Qed.

Lemma map_key_values_comprehension (l : list V) :
  map key (PyDict.values (PyDict.comprehension key l)) =
  PyDict.keys (PyDict.comprehension key l).
Proof.
  pose proof (wf_comprehension l) as Hwf.
  assert (H : forall kv, In kv (PyDict.comprehension key l) -> key (snd kv) = fst kv).
  { intros [k v] Hin. simpl.
    apply get_In in Hin; [|assumption].
    rewrite get_comprehension in Hin.
    now destruct (last_with_key _ _ _ _ Hin). }
  unfold PyDict.values, PyDict.keys. rewrite map_map.
  apply map_ext_in. exact H.
Qed.

End ComprehensionFacts.

(** ** The merge *)

Lemma menuItems_merge (eval_data soup_data : CandidateSet) :
  menuItems (_merge_data eval_data soup_data) =
  firstn 20 (PyDict.values
               (PyDict.comprehension MenuItem.name
                  (menu_of eval_data ++ menu_of soup_data)%list)).
Proof. reflexivity. Qed.

Lemma reviews_merge (eval_data soup_data : CandidateSet) :
  reviews (_merge_data eval_data soup_data) =
  firstn 10 (reviews_of eval_data ++ reviews_of soup_data)%list.
Proof. reflexivity. Qed.

Lemma images_merge (eval_data soup_data : CandidateSet) :
  images (_merge_data eval_data soup_data) = firstn 10 (images_of eval_data).
Proof. reflexivity. Qed.

Lemma basicInfo_merge (eval_data soup_data : CandidateSet) :
  basicInfo (_merge_data eval_data soup_data) =
  PyDict.unpack2 (basic_of soup_data) (basic_of eval_data).
Proof. reflexivity. Qed.

(** C1, as the code has it: the merged [menuItems] hold at most one entry
    per name; their names are the names of eval's list followed by
    markup's list, each at the place of its first occurrence, cut after
    20; and the entry kept for a name is the last one with that name in
    eval's list followed by markup's list; so when a name occurs in
    markup's list, the entry kept is markup's last one of that name, not
    eval's. *)
Theorem merge_menu_one_per_name_last_kept (eval_data soup_data : CandidateSet) :
  let merged := menuItems (_merge_data eval_data soup_data) in
  NoDup (map MenuItem.name merged) /\
  map MenuItem.name merged =
    firstn 20
      (first_occurrences
         (map MenuItem.name (menu_of eval_data ++ menu_of soup_data)%list)) /\
  (forall item, In item merged ->
     last_with MenuItem.name (MenuItem.name item)
       (menu_of eval_data ++ menu_of soup_data)%list = Some item) /\
  (forall item other, In item merged ->
     In other (menu_of soup_data) -> MenuItem.name other = MenuItem.name item ->
     last_with MenuItem.name (MenuItem.name item) (menu_of soup_data) = Some item).
Proof.
  cbv zeta. rewrite menuItems_merge.
  set (l := (menu_of eval_data ++ menu_of soup_data)%list).
  assert (Hlast : forall item,
            In item (firstn 20 (PyDict.values (PyDict.comprehension MenuItem.name l))) ->
            last_with MenuItem.name (MenuItem.name item) l = Some item).
  { intros item Hin. apply values_comprehension. eapply firstn_subset, Hin. }
  split; [|split; [|split]].
  - rewrite <- firstn_map. apply NoDup_firstn_keep.
    rewrite map_key_values_comprehension. apply wf_comprehension.
  - rewrite <- firstn_map, map_key_values_comprehension.
    now rewrite keys_comprehension.
  - exact Hlast.
  - intros item other Hin Hother Hname.
    specialize (Hlast item Hin). unfold l in Hlast.
    rewrite last_with_app in Hlast.
    destruct (last_with MenuItem.name (MenuItem.name item) (menu_of soup_data)) eqn:E;
      [assumption|].
    exfalso. exact (last_with_None _ _ _ E other Hother Hname).
Qed.

(** C1 at the entries of the specification: markup's price is the one kept *)
Lemma merge_menu_one_per_name_last_kept_witness :
  last_with MenuItem.name "Kimchi Stew" [Sample.kimchi_markup] = Some Sample.kimchi_markup.
Proof.
  apply (proj2 (proj2 (proj2 (merge_menu_one_per_name_last_kept
                                (Sample.with_menu [Sample.kimchi_eval])
                                (Sample.with_menu [Sample.kimchi_markup]))))
           Sample.kimchi_markup Sample.kimchi_markup).
  - simpl. left. reflexivity.
  - simpl. left. reflexivity.
  - reflexivity.
Defined.

(** C1 as stated fails: with "Kimchi Stew" at 9000 from eval and at 8500
    from markup, the one entry of the merged list carries 8500. *)
Lemma merge_menu_eval_entry_overwritten :
  menuItems (_merge_data (Sample.with_menu [Sample.kimchi_eval])
                         (Sample.with_menu [Sample.kimchi_markup]))
  = [ {| MenuItem.name := "Kimchi Stew"; MenuItem.price := "8500" |} ]
  /\ ~ In Sample.kimchi_eval
         (menuItems (_merge_data (Sample.with_menu [Sample.kimchi_eval])
                                 (Sample.with_menu [Sample.kimchi_markup]))).
Proof.
  split; [reflexivity|].
  simpl. intros [H|[]]. discriminate H.
Qed.

(** C4: the merged record holds at most 20 menu items, 10 reviews and 10
    images. *)
Theorem merge_caps (eval_data soup_data : CandidateSet) :
  length (menuItems (_merge_data eval_data soup_data)) <= 20 /\
  length (reviews (_merge_data eval_data soup_data)) <= 10 /\
  length (images (_merge_data eval_data soup_data)) <= 10.
Proof.
  rewrite menuItems_merge, reviews_merge, images_merge.
  repeat split; apply firstn_le_length.
Qed.

(** C6: the merged [basicInfo], read at any field, gives eval's value when
    eval has the field and markup's value otherwise. *)
Theorem merge_basicInfo_eval_wins (eval_data soup_data : CandidateSet) (field : string) :
  wf_dict (basic_of eval_data) -> wf_dict (basic_of soup_data) ->
  PyDict.get field (basicInfo (_merge_data eval_data soup_data)) =
  match PyDict.get field (basic_of eval_data) with
  | Some v => Some v
  | None => PyDict.get field (basic_of soup_data)
  end.
Proof.
  intros He Hs. rewrite basicInfo_merge. now apply get_unpack2.
Qed.

(** C6 at the stores of the specification: markup says "Store A", eval says
    "Store B", the merged name is "Store B". *)
Lemma merge_basicInfo_eval_wins_witness :
  PyDict.get "name"
    (basicInfo (_merge_data (Sample.with_basic Sample.store_b)
                            (Sample.with_basic Sample.store_a)))
  = Some (PyStr "Store B").
Proof.
  rewrite (merge_basicInfo_eval_wins (Sample.with_basic Sample.store_b)
             (Sample.with_basic Sample.store_a) "name").
  - reflexivity.
  - unfold wf_dict. simpl. repeat constructor; simpl; intuition discriminate.
  - unfold wf_dict. simpl. repeat constructor; simpl; intuition discriminate.
Defined.

(** C10: the names of the merged [menuItems] are the names of eval's list
    followed by markup's list, each at the place of its first occurrence,
    cut after 20. *)
Theorem merge_menu_order (eval_data soup_data : CandidateSet) :
  map MenuItem.name (menuItems (_merge_data eval_data soup_data)) =
  firstn 20
    (first_occurrences (map MenuItem.name (menu_of eval_data ++ menu_of soup_data)%list)).
Proof.
  rewrite menuItems_merge, <- firstn_map, map_key_values_comprehension.
  now rewrite keys_comprehension.
Qed.

(** ** Strings and the digit search *)

Lemma str_append_assoc (a b c : string) : (a ++ b) ++ c = a ++ (b ++ c).
Proof. induction a as [|x a IH]; simpl; [reflexivity|now rewrite IH]. Qed.

(** *** Characters of digits *)

Lemma chars_from_emit (current s : string) :
  PyStr.chars_from 0 current s = PyStr.emit current (PyStr.chars s).
Proof.
  destruct s as [|b s]; [now destruct current|reflexivity].
Qed.

Lemma chars_cons (b : ascii) (s : string) :
  PyStr.chars (String b s) = PyStr.chars_from (PyStr.followers b) (String b "") s.
Proof. reflexivity. Qed.

Lemma chars_from_continuation (k : nat) (current : string) (b : ascii) (s : string) :
  PyStr.is_continuation b = true ->
  PyStr.chars_from (S k) current (String b s) =
  PyStr.chars_from k (current ++ String b "") s.
Proof. intros H. simpl. now rewrite H. Qed.

Lemma followers_lead (b : ascii) (lo hi : N) (k : nat) :
  (lo <=? N_of_ascii b)%N = true -> (N_of_ascii b <? hi)%N = true ->
  (lo = 194%N /\ hi = 224%N /\ k = 1) \/ (lo = 224%N /\ hi = 240%N /\ k = 2) \/
  (lo = 240%N /\ hi = 248%N /\ k = 3) ->
  PyStr.followers b = k.
Proof.
  intros Hlo Hhi Hk. apply N.leb_le in Hlo. apply N.ltb_lt in Hhi.
  unfold PyStr.followers.
  destruct (N.ltb_spec (N_of_ascii b) 192); [lia|].
  destruct (N.ltb_spec (N_of_ascii b) 224); [lia|].
  destruct (N.ltb_spec (N_of_ascii b) 240); [lia|].
  destruct (N.ltb_spec (N_of_ascii b) 248); lia.
Qed.

(** a digit at the head of a string is its first character *)
Lemma chars_digit (c rest : string) :
  PyStr.isdecimal c = true -> PyStr.chars (c ++ rest) = c :: PyStr.chars rest.
Proof.
  unfold PyStr.isdecimal, PyStr.decimal, PyStr.code_point.
  destruct c as [|b0 [|b1 [|b2 [|b3 [|b4 c]]]]]; try discriminate.
  - destruct (N.ltb_spec (N_of_ascii b0) 128) as [H0|]; [|discriminate].
    intros _. simpl append. rewrite chars_cons.
    replace (PyStr.followers b0) with 0.
    + now rewrite chars_from_emit.
    + unfold PyStr.followers. destruct (N.ltb_spec (N_of_ascii b0) 192); [reflexivity|lia].
  - destruct (194 <=? N_of_ascii b0)%N eqn:E0; [|discriminate].
    destruct (N_of_ascii b0 <? 224)%N eqn:E0'; [|discriminate].
    destruct (PyStr.is_continuation b1) eqn:E1; [|discriminate].
    intros _. simpl append. rewrite chars_cons.
    rewrite (followers_lead b0 194 224 1 E0 E0') by tauto.
    rewrite chars_from_continuation by assumption.
    now rewrite chars_from_emit.
  - destruct (224 <=? N_of_ascii b0)%N eqn:E0; [|discriminate].
    destruct (N_of_ascii b0 <? 240)%N eqn:E0'; [|discriminate].
    destruct (PyStr.is_continuation b1) eqn:E1; [|discriminate].
    destruct (PyStr.is_continuation b2) eqn:E2; [|discriminate].
    intros _. simpl append. rewrite chars_cons.
    rewrite (followers_lead b0 224 240 2 E0 E0') by tauto.
    rewrite !chars_from_continuation by assumption.
    now rewrite chars_from_emit.
  - destruct (240 <=? N_of_ascii b0)%N eqn:E0; [|discriminate].
    destruct (N_of_ascii b0 <? 248)%N eqn:E0'; [|discriminate].
    destruct (PyStr.is_continuation b1) eqn:E1; [|discriminate].
    destruct (PyStr.is_continuation b2) eqn:E2; [|discriminate].
    destruct (PyStr.is_continuation b3) eqn:E3; [|discriminate].
    intros _. simpl append. rewrite chars_cons.
    rewrite (followers_lead b0 240 248 3 E0 E0') by tauto.
    rewrite !chars_from_continuation by assumption.
    now rewrite chars_from_emit.
Qed.

(** the characters of a string made of digits are these digits *)
Lemma chars_join_digits (l : list string) :
  PyStr.all_digits l = true -> PyStr.chars (PyStr.join l) = l.
Proof.
  induction l as [|c l IH]; [reflexivity|].
  intros H. simpl in H. apply andb_true_iff in H. destruct H as [Hc Hl].
  cbn [PyStr.join]. now rewrite chars_digit, IH.
Qed.

(** the float of a string of digits is the float of the number they
    denote *)
Lemma of_digits_join (run : list string) :
  PyStr.all_digits run = true ->
  PyFloat.of_digits (PyStr.join run) = PyFloat.of_Z (Z.of_N (PyStr.digits_value run)).
Proof.
  intros H. unfold PyFloat.of_digits. now rewrite chars_join_digits.
Qed.

Lemma take_digits_all_digits (l : list string) :
  PyStr.all_digits (PyStr.take_digits l) = true.
Proof.
  induction l as [|c l IH]; simpl; [reflexivity|].
  destruct (PyStr.isdecimal c) eqn:E; simpl; [now rewrite E|reflexivity].
Qed.

(** a string splits into its leading digits and a rest that starts with
    none *)
Lemma take_digits_split (l : list string) :
  exists rest, l = (PyStr.take_digits l ++ rest)%list /\ PyStr.take_digits rest = [].
Proof.
  induction l as [|c l [rest [Hl Hrest]]]; simpl.
  - exists []. auto.
  - destruct (PyStr.isdecimal c) eqn:E.
    + exists rest. simpl. split; [now rewrite <- Hl|assumption].
    + exists (c :: l). simpl. now rewrite E.
Qed.

Lemma digits_prefix_le (r b : list string) :
  PyStr.all_digits r = true ->
  length r <= length (PyStr.take_digits (r ++ b)%list).
Proof.
  induction r as [|c r IH]; simpl; [lia|].
  intros H. apply andb_true_iff in H. destruct H as [Hc Hr].
  rewrite Hc. simpl. specialize (IH Hr). lia.
Qed.

Lemma search_digits_unfold (n : nat) (l : list string) :
  PyStr.search_digits n l =
  if (n <=? length (PyStr.take_digits l))%nat then Some (PyStr.take_digits l)
  else match l with
       | [] => None
       | _ :: l' => PyStr.search_digits n l'
       end.
Proof. destruct l; reflexivity. Qed.

Lemma no_run_from_head (n : nat) (c : string) (l a r b : list string) :
  length (PyStr.take_digits (c :: l)) < n ->
  c :: l = (a ++ r ++ b)%list -> PyStr.all_digits r = true -> n <= length r ->
  exists a', a = c :: a' /\ l = (a' ++ r ++ b)%list.
Proof.
  intros Hshort Heq Hr Hn. destruct a as [|c' a'].
  - simpl in Heq. pose proof (digits_prefix_le r b Hr) as Hle.
    rewrite <- Heq in Hle. lia.
  - simpl in Heq. injection Heq as -> ->. now exists a'.
Qed.

(** what the search returns: the leftmost run of [n] digits or more, whole;
    nothing when there is no such run *)
Lemma search_digits_spec (n : nat) (l : list string) :
  0 < n ->
  match PyStr.search_digits n l with
  | Some run => exists pre post, leftmost_digit_run n l pre run post
  | None => ~ has_digit_run n l
  end.
Proof.
  intros Hn. induction l as [|c l IH]; rewrite search_digits_unfold.
  - simpl. destruct (Nat.leb_spec n 0) as [H0|_]; [lia|].
    intros [a [r [b [Heq [_ Hlen]]]]].
    assert (length (a ++ r ++ b)%list = 0) as Hl by now rewrite <- Heq.
    rewrite !length_app in Hl. lia.
  - destruct (Nat.leb_spec n (length (PyStr.take_digits (c :: l))))
      as [Hlong|Hshort].
    + destruct (take_digits_split (c :: l)) as [rest [Hs Hrest]].
      exists [], rest. unfold leftmost_digit_run.
      split; [exact Hs|]. split; [apply take_digits_all_digits|].
      split; [exact Hlong|]. split; [exact Hrest|]. intros. simpl. lia.
    + destruct (PyStr.search_digits n l) as [run|].
      * destruct IH as [pre [post [Hs [Hd [Hl [Hp Hleft]]]]]].
        exists (c :: pre), post. unfold leftmost_digit_run.
        repeat split; auto.
        -- simpl. now rewrite <- Hs.
        -- intros a r b Heq Hr Hnr.
           destruct (no_run_from_head n c l a r b Hshort Heq Hr Hnr) as [a' [-> Hs']].
           simpl. apply le_n_S. now apply (Hleft a' r b).
      * intros [a [r [b [Heq [Hr Hnr]]]]].
        destruct (no_run_from_head n c l a r b Hshort Heq Hr Hnr) as [a' [-> Hs']].
        apply IH. now exists a', r, b.
Qed.

Lemma leftmost_run_has_run (n : nat) (l pre run post : list string) :
  leftmost_digit_run n l pre run post -> has_digit_run n l.
Proof.
  intros [Hs [Hd [Hl _]]]. now exists pre, run, post.
Qed.

Lemma re_search_digits_found (n : nat) (s : string) :
  0 < n -> has_digit_run n (PyStr.chars s) ->
  exists pre run post,
    leftmost_digit_run n (PyStr.chars s) pre run post /\
    PyStr.re_search_digits n s = Some (PyStr.join run).
Proof.
  intros Hn Hrun. pose proof (search_digits_spec n (PyStr.chars s) Hn) as H.
  unfold PyStr.re_search_digits.
  destruct (PyStr.search_digits n (PyStr.chars s)) as [run|]; [|contradiction].
  destruct H as [pre [post H]]. now exists pre, run, post.
Qed.

Lemma re_search_digits_none (n : nat) (s : string) :
  0 < n -> ~ has_digit_run n (PyStr.chars s) -> PyStr.re_search_digits n s = None.
Proof.
  intros Hn Hno. pose proof (search_digits_spec n (PyStr.chars s) Hn) as H.
  unfold PyStr.re_search_digits.
  destruct (PyStr.search_digits n (PyStr.chars s)) as [run|]; [|reflexivity].
  destruct H as [pre [post H]]. exfalso. eauto using leftmost_run_has_run.
Qed.

(** ** The URL sent to the page *)

Lemma to_pc_url_rewrites (url : string) :
  PyStr.str_in "m.place.naver.com" url = true \/ PyStr.str_in "map.naver.com" url = true ->
  has_digit_run 8 (PyStr.chars url) ->
  exists pre place_id post,
    leftmost_digit_run 8 (PyStr.chars url) pre place_id post /\
    to_pc_url url =
      "https://pcmap.place.naver.com/restaurant/" ++ PyStr.join place_id ++ "/home".
Proof.
  intros Hpat Hrun.
  destruct (re_search_digits_found 8 url) as [pre [run [post [Hleft Hsearch]]]];
    [lia|assumption|].
  exists pre, run, post. split; [assumption|].
  unfold to_pc_url. rewrite Hsearch.
  destruct Hpat as [-> | ->]; [reflexivity|].
  now rewrite orb_true_r.
Qed.

Lemma to_pc_url_other (url : string) :
  PyStr.str_in "m.place.naver.com" url = false ->
  PyStr.str_in "map.naver.com" url = false ->
  to_pc_url url = url.
Proof.
  intros H1 H2. unfold to_pc_url. now rewrite H1, H2.
Qed.

Lemma navigate_direct_trace (engine : Engine) (url : string) (s : State) :
  PyStr.str_in "naver.me" url = false ->
  trace (snd (_navigate_to_store engine url s)) =
  (trace s ++ [EvGoto (to_pc_url url) "networkidle"])%list.
Proof.
  intros Hshort. unfold _navigate_to_store. rewrite Hshort.
  unfold bind, ret, goto, bind, call, get_page_url.
  destruct (on_goto engine (trace s) (to_pc_url url) "networkidle"); reflexivity.
Qed.

Lemma navigate_short_link_trace (engine : Engine) (url resolved : string) (s : State) :
  PyStr.str_in "naver.me" url = true ->
  on_goto engine (trace s) url "domcontentloaded" = Return resolved ->
  on_wait_for_timeout engine (trace s ++ [EvGoto url "domcontentloaded"])%list 2000
    = Return tt ->
  trace (snd (_navigate_to_store engine url s)) =
  (trace s ++ [ EvGoto url "domcontentloaded"; EvWaitForTimeout 2000;
                EvGoto (to_pc_url resolved) "networkidle" ])%list.
Proof.
  intros Hshort Hgoto Hwait. unfold _navigate_to_store. rewrite Hshort.
  unfold bind, ret, goto, bind, wait_for_timeout, call, get_page_url.
  rewrite Hgoto. simpl. rewrite Hwait. simpl.
  destruct (on_goto engine _ (to_pc_url resolved) "networkidle");
    simpl; rewrite <- !app_assoc; reflexivity.
Qed.

(** C7: a URL of the mobile site or of the map site that holds 8 decimal
    digits or more in a row becomes the desktop URL built on the leftmost
    such run of its characters, taken whole; the mobile URL of place
    12345678 becomes the desktop URL of that place; a URL of neither site
    stays as it is; and the navigation that waits for the network goes to
    the URL so obtained, from the input or from where the short link led. *)
Theorem navigate_rewrites_to_pc_url :
  (forall url,
     PyStr.str_in "m.place.naver.com" url = true \/
     PyStr.str_in "map.naver.com" url = true ->
     has_digit_run 8 (PyStr.chars url) ->
     exists pre place_id post,
       leftmost_digit_run 8 (PyStr.chars url) pre place_id post /\
       to_pc_url url =
         "https://pcmap.place.naver.com/restaurant/" ++ PyStr.join place_id ++ "/home") /\
  to_pc_url "https://m.place.naver.com/restaurant/12345678/home"
    = "https://pcmap.place.naver.com/restaurant/12345678/home" /\
  (forall url,
     PyStr.str_in "m.place.naver.com" url = false ->
     PyStr.str_in "map.naver.com" url = false ->
     to_pc_url url = url) /\
  (forall engine url s,
     PyStr.str_in "naver.me" url = false ->
     trace (snd (_navigate_to_store engine url s)) =
     (trace s ++ [EvGoto (to_pc_url url) "networkidle"])%list) /\
  (forall engine url resolved s,
     PyStr.str_in "naver.me" url = true ->
     on_goto engine (trace s) url "domcontentloaded" = Return resolved ->
     on_wait_for_timeout engine (trace s ++ [EvGoto url "domcontentloaded"])%list 2000
       = Return tt ->
     trace (snd (_navigate_to_store engine url s)) =
     (trace s ++ [ EvGoto url "domcontentloaded"; EvWaitForTimeout 2000;
                   EvGoto (to_pc_url resolved) "networkidle" ])%list).
Proof.
  split; [exact to_pc_url_rewrites|].
  split; [vm_compute; reflexivity|].
  split; [exact to_pc_url_other|].
  split; [exact navigate_direct_trace|exact navigate_short_link_trace].
Qed.

(** C7 on the mobile URL of the specification and on a short link that
    leads to it: the page is sent to the desktop URL. *)
Lemma navigate_rewrites_to_pc_url_witness :
  (exists pre place_id post,
     leftmost_digit_run 8 (PyStr.chars Sample.mobile_url) pre place_id post /\
     to_pc_url Sample.mobile_url
       = "https://pcmap.place.naver.com/restaurant/" ++ PyStr.join place_id ++ "/home") /\
  trace (snd (_navigate_to_store Sample.engine_ok Sample.mobile_url Sample.ready)) =
    [EvStart; EvLaunch; EvGoto Sample.pc_url "networkidle"] /\
  trace (snd (_navigate_to_store Sample.engine_ok Sample.short_link Sample.ready)) =
    [EvStart; EvLaunch; EvGoto Sample.short_link "domcontentloaded";
     EvWaitForTimeout 2000; EvGoto Sample.pc_url "networkidle"].
Proof.
  destruct navigate_rewrites_to_pc_url as [Hrun [_ [_ [Hdirect Hshort]]]].
  split; [|split].
  - apply Hrun.
    + left. reflexivity.
    + exists (PyStr.chars "https://m.place.naver.com/restaurant/"),
             (PyStr.chars "12345678"), (PyStr.chars "/home").
      split; [reflexivity|]. split; [reflexivity|]. simpl. lia.
  - rewrite (Hdirect Sample.engine_ok Sample.mobile_url Sample.ready);
      vm_compute; reflexivity.
  - rewrite (Hshort Sample.engine_ok Sample.short_link Sample.mobile_url Sample.ready);
      vm_compute; reflexivity.
Defined.

(** the digits of other scripts count: a full-width place id is taken as
    it is written, and an Arabic-Indic digit after ASCII ones belongs to
    the run *)
Example to_pc_url_full_width_digits :
  to_pc_url "https://m.place.naver.com/restaurant/１２３４５６７８/home"
  = "https://pcmap.place.naver.com/restaurant/１２３４５６７８/home" /\
  to_pc_url "https://m.place.naver.com/restaurant/12345678٣/home"
  = "https://pcmap.place.naver.com/restaurant/12345678٣/home".
Proof. split; vm_compute; reflexivity. Qed.

(** ** Floats of natural numbers *)

Lemma shr_1_nonneg (mrs : shr_record) :
  (0 <= shr_m mrs)%Z -> (0 <= shr_m (shr_1 mrs))%Z.
Proof.
  destruct mrs as [m r s]. simpl.
  destruct m as [|[p|p|]|p]; simpl; lia.
Qed.

Lemma iter_pos_preserves {A : Type} (P : A -> Prop) (f : A -> A) :
  (forall x, P x -> P (f x)) -> forall p x, P x -> P (iter_pos f p x).
Proof.
  intros Hf. induction p as [p IH|p IH|]; simpl; auto.
Qed.

Lemma shr_nonneg (mrs : shr_record) (e n : Z) :
  (0 <= shr_m mrs)%Z -> (0 <= shr_m (fst (shr mrs e n)))%Z.
Proof.
  intros H. unfold shr. destruct n as [|p|p]; simpl; auto.
  apply (iter_pos_preserves (fun x => (0 <= shr_m x)%Z)); auto using shr_1_nonneg.
Qed.

Lemma shr_fexp_nonneg (prec emax m e : Z) (l : location) :
  (0 <= m)%Z -> (0 <= shr_m (fst (shr_fexp prec emax m e l)))%Z.
Proof.
  intros H. unfold shr_fexp. apply shr_nonneg.
  destruct l as [|[| |]]; exact H.
Qed.

Lemma round_nearest_even_nonneg (m : Z) (l : location) :
  (0 <= m)%Z -> (0 <= round_nearest_even m l)%Z.
Proof.
  intros H. unfold round_nearest_even.
  destruct l as [|[| |]]; try destruct (Z.even m); lia.
Qed.

Lemma binary_round_aux_nonneg (prec emax m e : Z) (l : location) :
  (0 <= m)%Z ->
  SFleb (S754_zero false) (binary_round_aux prec emax false m e l) = true.
Proof.
  intros H. unfold binary_round_aux.
  pose proof (shr_fexp_nonneg prec emax m e l H) as H1.
  destruct (shr_fexp prec emax m e l) as [mrs' e']. simpl in H1.
  pose proof (shr_fexp_nonneg prec emax
                (round_nearest_even (shr_m mrs') (loc_of_shr_record mrs')) e' loc_Exact
                (round_nearest_even_nonneg _ _ H1)) as H2.
  destruct (shr_fexp prec emax _ e' loc_Exact) as [mrs'' e'']. simpl in H2.
  destruct (shr_m mrs'') as [|p|p]; [reflexivity| |lia].
  destruct (Z.leb e'' (emax - prec)); reflexivity.
Qed.

(** the float of a natural number is a number, and not below zero *)
Lemma of_Z_nonneg (z : Z) :
  (0 <= z)%Z -> PyFloat.leb PyFloat.zero (PyFloat.of_Z z) = true.
Proof.
  intros H. unfold PyFloat.leb, PyFloat.of_Z, binary_normalize.
  destruct z as [|p|p]; [reflexivity| |lia].
  unfold binary_round.
  destruct (shl_align p 0 _) as [mz ez].
  apply binary_round_aux_nonneg. lia.
Qed.

Lemma extract_rating_nonneg (text : string) :
  PyFloat.leb PyFloat.zero (_extract_rating text) = true.
Proof.
  unfold _extract_rating.
  destruct (PyStr.re_search_digits 1 text); [|reflexivity].
  apply of_Z_nonneg. lia.
Qed.

Lemma extract_rating_digits (text : string) :
  has_digit_run 1 (PyStr.chars text) ->
  exists pre run post,
    leftmost_digit_run 1 (PyStr.chars text) pre run post /\
    _extract_rating text = PyFloat.of_digits (PyStr.join run) /\
    _extract_rating text = PyFloat.of_Z (Z.of_N (PyStr.digits_value run)).
Proof.
  intros Hrun.
  destruct (re_search_digits_found 1 text) as [pre [run [post [Hleft Hsearch]]]];
    [lia|assumption|].
  exists pre, run, post. split; [assumption|].
  unfold _extract_rating. rewrite Hsearch. split; [reflexivity|].
  apply of_digits_join, Hleft.
Qed.

Lemma extract_rating_no_digit (text : string) :
  ~ has_digit_run 1 (PyStr.chars text) -> _extract_rating text = PyFloat.zero.
Proof.
  intros Hno. unfold _extract_rating.
  rewrite re_search_digits_none; [reflexivity|lia|assumption].
Qed.

(** ** What the markup contributes *)

Lemma extract_review_ratings (review : Soup.Tag) :
  map Review.rating (extract_review review) =
  if has_text_link review then [_extract_rating (rating_text review)] else [].
Proof.
  unfold extract_review, has_text_link, rating_text.
  now destruct (Soup.select_one "a.pui__xtsQN-" review).
Qed.

Lemma soup_review_ratings (html : Soup.html) :
  map Review.rating (reviews_of (_extract_with_soup html)) =
  map (fun review => _extract_rating (rating_text review))
      (filter has_text_link (review_items html)).
Proof.
  unfold reviews_of, _extract_with_soup, review_items. cbn [cs_reviews get_or].
  induction (firstn 10 (Soup.select "li.pui__X35jYm" (Soup.BeautifulSoup html)))
    as [|review items IH]; [reflexivity|].
  cbn [flat_map filter]. rewrite map_app, IH, extract_review_ratings.
  now destruct (has_text_link review).
Qed.

Lemma soup_review_rating (html : Soup.html) (r : Review.t) :
  In r (reviews_of (_extract_with_soup html)) ->
  exists review,
    In review (review_items html) /\ has_text_link review = true /\
    Review.rating r = _extract_rating (rating_text review).
Proof.
  intros Hin. apply (in_map Review.rating) in Hin.
  rewrite soup_review_ratings in Hin. apply in_map_iff in Hin.
  destruct Hin as [review [Hr Hin]]. apply filter_In in Hin.
  destruct Hin as [Hin Hlink]. now exists review.
Qed.

(** C8, as the code has it: the ratings of the reviews taken from the
    markup are, in order, those read from the rating texts of the first 10
    review items that have a text link; such a rating is a number that is
    not below 0, namely the float of the leftmost run of decimal digits
    among the characters of the rating text, which is the float nearest to
    the number these digits denote, and 0.0 when the text holds no digit; the reviews of the merged record are eval's or such reviews;
    "별점 4점" gives 4.0.  No upper bound holds. *)
Theorem review_rating_is_first_number :
  (forall html,
     map Review.rating (reviews_of (_extract_with_soup html)) =
     map (fun review => _extract_rating (rating_text review))
         (filter has_text_link (review_items html))) /\
  (forall html r,
     In r (reviews_of (_extract_with_soup html)) ->
     PyFloat.leb PyFloat.zero (Review.rating r) = true) /\
  (forall eval_data html r,
     In r (reviews (_merge_data eval_data (_extract_with_soup html))) ->
     In r (reviews_of eval_data) \/
     PyFloat.leb PyFloat.zero (Review.rating r) = true /\
     exists review,
       In review (review_items html) /\ has_text_link review = true /\
       Review.rating r = _extract_rating (rating_text review)) /\
  (forall text,
     has_digit_run 1 (PyStr.chars text) ->
     exists pre run post,
       leftmost_digit_run 1 (PyStr.chars text) pre run post /\
       _extract_rating text = PyFloat.of_digits (PyStr.join run) /\
       _extract_rating text = PyFloat.of_Z (Z.of_N (PyStr.digits_value run))) /\
  (forall text,
     ~ has_digit_run 1 (PyStr.chars text) -> _extract_rating text = PyFloat.zero) /\
  _extract_rating "별점 4점" = PyFloat.of_Z 4 /\
  PyFloat.of_Z 4 = S754_finite false 4503599627370496 (-50).
Proof.
  assert (Hsoup : forall html r,
            In r (reviews_of (_extract_with_soup html)) ->
            PyFloat.leb PyFloat.zero (Review.rating r) = true).
  { intros html r Hin.
    destruct (soup_review_rating html r Hin) as [review [_ [_ ->]]].
    apply extract_rating_nonneg. }
  split; [exact soup_review_ratings|].
  split; [exact Hsoup|].
  split.
  { intros eval_data html r Hin. rewrite reviews_merge in Hin.
    apply firstn_subset in Hin. apply in_app_or in Hin.
    destruct Hin as [Hin|Hin]; [now left|right].
    split; [eauto|]. now apply soup_review_rating. }
  split; [exact extract_rating_digits|].
  split; [exact extract_rating_no_digit|].
  split; vm_compute; reflexivity.
Qed.

(** C8 on a review whose rating text is "별점 4점" *)
Lemma review_rating_is_first_number_witness :
  PyFloat.leb PyFloat.zero
    (Review.rating
       {| Review.rating := PyFloat.of_Z 4; Review.text := "good";
          Review.date := "24.1.2" |}) = true.
Proof.
  apply (proj1 (proj2 review_rating_is_first_number) (Sample.review_page "별점 4점")).
  vm_compute. left. reflexivity.
Defined.

(** the digits of other scripts count: a full-width 4 is read as 4.0, and a
    run that mixes scripts is read as one number *)
Example extract_rating_full_width :
  _extract_rating "４" = PyFloat.of_Z 4 /\
  _extract_rating "4٣" = PyFloat.of_Z 43.
Proof. split; vm_compute; reflexivity. Qed.

(** C8 as stated fails: the rating text "별점 10점" gives the review the
    rating 10.0, above 5. *)
Lemma review_rating_above_five :
  map Review.rating
    (reviews (_merge_data Sample.empty_eval
                (_extract_with_soup (Sample.review_page "별점 10점"))))
  = [PyFloat.of_Z 10] /\
  PyFloat.leb (PyFloat.of_Z 10) (PyFloat.of_Z 5) = false.
Proof.
  split; vm_compute; reflexivity.
Qed.

Lemma extract_menu_item_spec (item : Soup.Tag) (mi : MenuItem.t) :
  In mi (extract_menu_item item) <->
  exists name_elem,
    Soup.select_one "span.lPzHi" item = Some name_elem /\
    mi = {| MenuItem.name := Soup.get_text_strip name_elem;
            MenuItem.price :=
              match Soup.select_one "div._3qFuX" item with
              | Some price_elem => Soup.get_text_strip price_elem
              | None => ""
              end |}.
Proof.
  unfold extract_menu_item.
  destruct (Soup.select_one "span.lPzHi" item) as [n|]; simpl.
  - split.
    + intros [<-|[]]. now exists n.
    + intros [n' [[= <-] ->]]. now left.
  - split; [intros []|intros [n' [[=] _]]].
Qed.

(** C9, as the code has it: the menu entries taken from the markup are, for
    each of the first 20 list items that has a name element, the text of
    that element (which can be empty) with the text of the price element,
    or the empty string when there is no price element; a list item
    without name element gives no entry; the entries of the merged record
    are eval's or such entries. *)
Theorem soup_menu_entries (html : Soup.html) :
  let items := firstn 20 (Soup.select "li.E2jtL" (Soup.BeautifulSoup html)) in
  let from_markup (mi : MenuItem.t) :=
    exists item name_elem,
      In item items /\
      Soup.select_one "span.lPzHi" item = Some name_elem /\
      mi = {| MenuItem.name := Soup.get_text_strip name_elem;
              MenuItem.price :=
                match Soup.select_one "div._3qFuX" item with
                | Some price_elem => Soup.get_text_strip price_elem
                | None => ""
                end |} in
  (forall mi, In mi (menu_of (_extract_with_soup html)) <-> from_markup mi) /\
  (forall item, In item items -> Soup.select_one "span.lPzHi" item = None ->
                extract_menu_item item = []) /\
  (forall eval_data mi,
     In mi (menuItems (_merge_data eval_data (_extract_with_soup html))) ->
     In mi (menu_of eval_data) \/ from_markup mi).
Proof.
  cbv zeta.
  assert (Hsoup : forall mi,
            In mi (menu_of (_extract_with_soup html)) <->
            exists item name_elem,
              In item (firstn 20 (Soup.select "li.E2jtL" (Soup.BeautifulSoup html))) /\
              Soup.select_one "span.lPzHi" item = Some name_elem /\
              mi = {| MenuItem.name := Soup.get_text_strip name_elem;
                      MenuItem.price :=
                        match Soup.select_one "div._3qFuX" item with
                        | Some price_elem => Soup.get_text_strip price_elem
                        | None => ""
                        end |}).
  { intros mi. unfold menu_of, _extract_with_soup. simpl get_or.
    rewrite in_flat_map. split.
    - intros [item [Hitem Hin]]. apply extract_menu_item_spec in Hin.
      destruct Hin as [n [Hn Hmi]]. now exists item, n.
    - intros [item [n [Hitem [Hn Hmi]]]]. exists item. split; [assumption|].
      apply extract_menu_item_spec. now exists n. }
  split; [exact Hsoup|]. split.
  - intros item _ Hnone. unfold extract_menu_item. now rewrite Hnone.
  - intros eval_data mi Hin. rewrite menuItems_merge in Hin.
    apply firstn_subset in Hin.
    apply values_comprehension, last_with_key in Hin.
    destruct Hin as [_ Hin]. apply in_app_or in Hin.
    destruct Hin as [Hin|Hin]; [now left|right; now apply Hsoup].
Qed.

(** C9 on a menu with a priced item, an item without price and an item
    without name element *)
Lemma soup_menu_entries_witness :
  exists item name_elem,
    In item (firstn 20 (Soup.select "li.E2jtL" (Soup.BeautifulSoup Sample.menu_page))) /\
    Soup.select_one "span.lPzHi" item = Some name_elem /\
    {| MenuItem.name := "Bibimbap"; MenuItem.price := "" |} =
    {| MenuItem.name := Soup.get_text_strip name_elem;
       MenuItem.price :=
         match Soup.select_one "div._3qFuX" item with
         | Some price_elem => Soup.get_text_strip price_elem
         | None => ""
         end |}.
Proof.
  apply (proj1 (soup_menu_entries Sample.menu_page)).
  simpl. right. left. reflexivity.
Defined.

(** C9 as stated fails: a list item whose name element has no text gives
    an entry whose name is the empty string. *)
Lemma soup_menu_entry_empty_name :
  menuItems (_merge_data Sample.empty_eval (_extract_with_soup Sample.nameless_menu))
  = [ {| MenuItem.name := ""; MenuItem.price := "" |} ].
Proof. reflexivity. Qed.

(** ** The session *)

Ltac run_call c :=
  let r := fresh "r" in
  let s := fresh "s" in
  let e := fresh "e" in
  destruct c as [[r|e] s]; [|discriminate].

Lemma scrape_body_success (engine : Engine) (url : string) (s s' : State) (env : Envelope) :
  scrape_body engine url s = (Return env, s') ->
  exists data final_url timestamp,
    env = [ ("success", EnvBool true); ("data", EnvData data);
            ("url", EnvStr final_url); ("timestamp", EnvStr timestamp) ].
Proof.
  unfold scrape_body, bind.
  run_call (_navigate_to_store engine url s).
  run_call (wait_for_timeout engine 3000 s0).
  run_call (_extract_with_evaluate engine s1).
  run_call (page_content engine s2).
  unfold datetime_now_isoformat, ret. intros [= <- <-]. eauto.
Qed.

Lemma success_envelope_consistent (data : ExtractionRecord) (final_url timestamp : string) :
  envelope_consistent
    [ ("success", EnvBool true); ("data", EnvData data);
      ("url", EnvStr final_url); ("timestamp", EnvStr timestamp) ].
Proof. left. repeat split. now exists data. Qed.

Lemma failure_envelope_consistent (msg url timestamp : string) :
  envelope_consistent (failure_envelope msg url timestamp).
Proof. right. repeat split. now exists msg. Qed.

Lemma scrape_handler_returns (engine : Engine) (url : string) (e : exn) (s : State) :
  scrape_handler engine url e s =
  (Return (failure_envelope (str e) url (now_isoformat engine (trace s))), s).
Proof. reflexivity. Qed.

(** [scrape] once the context and the page are there *)
Lemma scrape_after_setup (engine : Engine) (url : string) (s s1 : State) :
  (new_context engine ;;; new_page engine) s = (Return tt, s1) ->
  scrape engine url s =
  try_except_finally (scrape_body engine url) (scrape_handler engine url)
    (context_close engine) s1.
Proof.
  unfold scrape, bind.
  destruct (new_context engine s) as [[[]|e] s0]; [|discriminate].
  destruct (new_page engine s0) as [[[]|e] s0']; [|discriminate].
  now intros [= ->].
Qed.

(** C2: an envelope that [scrape] returns has a boolean [success] with
    [data] and no [error] when it is true, [error] and no [data] when it is
    false; and [scrape] does return one whenever the context and the page
    open, the steps of the session raise nothing outside [Exception], and
    the context closes. *)
Theorem scrape_envelope_consistent (engine : Engine) (url : string) (s : State) :
  (forall env s', scrape engine url s = (Return env, s') -> envelope_consistent env) /\
  (forall s1 r s2 s3,
     (new_context engine ;;; new_page engine) s = (Return tt, s1) ->
     scrape_body engine url s1 = (r, s2) ->
     (forall msg, r <> Raise (PyBaseException msg)) ->
     context_close engine s2 = (Return tt, s3) ->
     exists env, scrape engine url s = (Return env, s3) /\ envelope_consistent env).
Proof.
  split.
  - intros env s'. unfold scrape, bind.
    run_call (new_context engine s). run_call (new_page engine s0).
    unfold try_except_finally.
    destruct (scrape_body engine url s1) as [[env0|[msg|msg]] s2] eqn:Hbody.
    + run_call (context_close engine s2). intros [= <- <-].
      destruct (scrape_body_success _ _ _ _ _ Hbody) as [d [u [t ->]]].
      apply success_envelope_consistent.
    + rewrite scrape_handler_returns.
      run_call (context_close engine s2). intros [= <- <-].
      apply failure_envelope_consistent.
    + destruct (context_close engine s2) as [[?|?] ?]; discriminate.
  - intros s1 r s2 s3 Hsetup Hbody Hbase Hclose.
    rewrite (scrape_after_setup _ _ _ _ Hsetup). unfold try_except_finally.
    rewrite Hbody. destruct r as [env0|[msg|msg]].
    + rewrite Hclose. exists env0. split; [reflexivity|].
      destruct (scrape_body_success _ _ _ _ _ Hbody) as [d [u [t ->]]].
      apply success_envelope_consistent.
    + rewrite scrape_handler_returns, Hclose. eexists. split; [reflexivity|].
      apply failure_envelope_consistent.
    + exfalso. now apply (Hbase msg).
Qed.

(** C2 on a session that succeeds and on one whose navigation fails *)
Lemma scrape_envelope_consistent_witness :
  envelope_consistent
    (failure_envelope "net::ERR_NAME_NOT_RESOLVED" Sample.short_link
       "2024-01-02T03:04:05.000006") /\
  exists env,
    fst (scrape Sample.engine_ok Sample.short_link Sample.ready) = Return env /\
    envelope_consistent env.
Proof.
  split.
  - apply (proj1 (scrape_envelope_consistent
                    (Sample.failing_goto (PyException "net::ERR_NAME_NOT_RESOLVED")
                       Sample.engine_ok)
                    Sample.short_link Sample.ready)
             _ (snd (scrape (Sample.failing_goto (PyException "net::ERR_NAME_NOT_RESOLVED")
                               Sample.engine_ok)
                       Sample.short_link Sample.ready))).
    reflexivity.
  - eexists. split; [reflexivity|].
    apply (proj1 (scrape_envelope_consistent Sample.engine_ok Sample.short_link Sample.ready)
             _ (snd (scrape Sample.engine_ok Sample.short_link Sample.ready))).
    reflexivity.
Defined.

Lemma scrape_body_raises_navigation (engine : Engine) (url : string) (s s' : State) (e : exn) :
  _navigate_to_store engine url s = (Raise e, s') ->
  scrape_body engine url s = (Raise e, s').
Proof. intros H. unfold scrape_body, bind. now rewrite H. Qed.

Lemma scrape_body_raises_settling (engine : Engine) (url final_url : string)
    (s s1 s' : State) (e : exn) :
  _navigate_to_store engine url s = (Return final_url, s1) ->
  wait_for_timeout engine 3000 s1 = (Raise e, s') ->
  scrape_body engine url s = (Raise e, s').
Proof. intros H1 H2. unfold scrape_body, bind. now rewrite H1, H2. Qed.

Lemma scrape_body_raises_extraction (engine : Engine) (url final_url : string)
    (s s1 s2 s' : State) (e : exn) :
  _navigate_to_store engine url s = (Return final_url, s1) ->
  wait_for_timeout engine 3000 s1 = (Return tt, s2) ->
  _extract_with_evaluate engine s2 = (Raise e, s') ->
  scrape_body engine url s = (Raise e, s').
Proof. intros H1 H2 H3. unfold scrape_body, bind. now rewrite H1, H2, H3. Qed.

Lemma scrape_body_raises_content (engine : Engine) (url final_url : string)
    (s s1 s2 s3 s' : State) (c : CandidateSet) (e : exn) :
  _navigate_to_store engine url s = (Return final_url, s1) ->
  wait_for_timeout engine 3000 s1 = (Return tt, s2) ->
  _extract_with_evaluate engine s2 = (Return c, s3) ->
  page_content engine s3 = (Raise e, s') ->
  scrape_body engine url s = (Raise e, s').
Proof. intros H1 H2 H3 H4. unfold scrape_body, bind. now rewrite H1, H2, H3, H4. Qed.

(** C5, as the code has it: when a step of the session (navigation, settle
    wait, evaluation, reading the markup) raises an instance of
    [Exception] and the closing of the context then returns, [scrape]
    returns the envelope with [success] false, the [str()] of the exception
    as [error] and the URL it was called with as [url]. *)
Theorem scrape_failure_envelope (engine : Engine) (url msg : string) (s s1 s2 s3 : State) :
  (new_context engine ;;; new_page engine) s = (Return tt, s1) ->
  scrape_body engine url s1 = (Raise (PyException msg), s2) ->
  context_close engine s2 = (Return tt, s3) ->
  scrape engine url s =
  (Return [ ("success", EnvBool false); ("error", EnvStr msg); ("url", EnvStr url);
            ("timestamp", EnvStr (now_isoformat engine (trace s2))) ], s3).
Proof.
  intros Hsetup Hbody Hclose.
  rewrite (scrape_after_setup _ _ _ _ Hsetup). unfold try_except_finally.
  now rewrite Hbody, scrape_handler_returns, Hclose.
Qed.

(** C5 on a short link that resolves to the mobile site, whose desktop
    page then fails to load: the envelope carries the short link. *)
Lemma scrape_failure_envelope_witness :
  scrape Sample.engine_goto_fails Sample.short_link Sample.ready =
  (Return [ ("success", EnvBool false);
            ("error", EnvStr "net::ERR_NAME_NOT_RESOLVED");
            ("url", EnvStr "https://naver.me/xAbCdEfG");
            ("timestamp", EnvStr "2024-01-02T03:04:05.000006") ],
   snd (scrape Sample.engine_goto_fails Sample.short_link Sample.ready)).
Proof.
  apply (scrape_failure_envelope Sample.engine_goto_fails Sample.short_link
           "net::ERR_NAME_NOT_RESOLVED" Sample.ready Sample.in_session
           (snd (scrape_body Sample.engine_goto_fails Sample.short_link Sample.in_session))).
  - reflexivity.
  - apply scrape_body_raises_navigation. reflexivity.
  - reflexivity.
Defined.

(** C5 as stated fails: the navigation raises, and [scrape] raises too,
    when the closing of the context fails after it, and when what the
    navigation raises is a cancellation. *)
Lemma scrape_failure_without_envelope :
  (fst (_navigate_to_store Sample.engine_crashed Sample.mobile_url Sample.in_session)
     = Raise (PyException "Target closed") /\
   fst (scrape Sample.engine_crashed Sample.mobile_url Sample.ready)
     = Raise (PyException "Target closed")) /\
  (fst (_navigate_to_store Sample.engine_cancelled Sample.mobile_url Sample.in_session)
     = Raise (PyBaseException "") /\
   fst (scrape Sample.engine_cancelled Sample.mobile_url Sample.ready)
     = Raise (PyBaseException "")).
Proof. repeat split. Qed.

(** ** Resources *)

(** once the context and the page are there, the last call of [scrape] is
    the closing of the context *)
Lemma scrape_closes_context (engine : Engine) (url : string) (s s1 : State) :
  (new_context engine ;;; new_page engine) s = (Return tt, s1) ->
  exists tr, trace (snd (scrape engine url s)) = (tr ++ [EvContextClose])%list.
Proof.
  intros Hsetup. rewrite (scrape_after_setup _ _ _ _ Hsetup).
  unfold try_except_finally.
  destruct (scrape_body engine url s1) as [[env|[msg|msg]] s2];
    try rewrite scrape_handler_returns;
    unfold context_close, call;
    destruct (on_context_close engine (trace s2)); simpl; eauto.
Qed.

(** when the page does not open, [scrape] raises with the context open *)
Lemma scrape_new_page_raises (engine : Engine) (url : string) (s : State) (e : exn) :
  self_browser s = true ->
  on_new_context engine (trace s) = Return tt ->
  on_new_page engine (trace s ++ [EvNewContext])%list = Raise e ->
  fst (scrape engine url s) = Raise e /\
  open_contexts (snd (scrape engine url s)) = S (open_contexts s) /\
  trace (snd (scrape engine url s)) = (trace s ++ [EvNewContext; EvNewPage])%list.
Proof.
  intros Hself Hctx Hpage.
  unfold scrape, bind, new_context, new_page, call. rewrite Hself, Hctx. simpl.
  rewrite Hpage. simpl. rewrite <- app_assoc. auto.
Qed.

(** the exit of the context manager, when both closings return *)
Lemma aexit_releases (engine : Engine) (s : State) :
  self_browser s = true -> self_playwright s = true ->
  on_browser_close engine (trace s) = Return tt ->
  on_stop engine (trace s ++ [EvBrowserClose])%list = Return tt ->
  let s' := snd (__aexit__ engine s) in
  open_contexts s' = 0 /\ browser_open s' = false /\ playwright_running s' = false.
Proof.
  intros Hb Hp Hclose Hstop.
  unfold __aexit__, close, bind, browser_close, playwright_stop, call, ret.
  rewrite Hb, Hclose. simpl. rewrite Hp, Hstop. simpl. auto.
Qed.

(** C3 at the failing input: the context opens, the page does not;
    [scrape] raises, no closing of the context has been called, and the
    context is still open. *)
Theorem scrape_leaks_context_without_page :
  fst (scrape Sample.engine_no_page Sample.mobile_url Sample.ready)
    = Raise (PyException "Target closed") /\
  trace (snd (scrape Sample.engine_no_page Sample.mobile_url Sample.ready))
    = [EvStart; EvLaunch; EvNewContext; EvNewPage] /\
  open_contexts (snd (scrape Sample.engine_no_page Sample.mobile_url Sample.ready)) = 1.
Proof. repeat split. Qed.

(** * Further properties *)

(** ** More on dictionaries and the merge *)

Lemma set_fresh {V : Type} (k : string) (v : V) (d : PyDict.dict V) :
  ~ In k (PyDict.keys d) -> PyDict.set k v d = (d ++ [(k, v)])%list.
Proof.
  induction d as [|[k' v'] d IH]; simpl; [reflexivity|].
  intros Hnotin. destruct (String.eqb_spec k k') as [->|Hne].
  - exfalso. apply Hnotin. now left.
  - rewrite IH; [reflexivity|]. intros Hin. apply Hnotin. now right.
Qed.

Lemma NoDup_app_head_fresh {A : Type} (l : list A) (x : A) (l' : list A) :
  NoDup (l ++ x :: l')%list -> ~ In x l /\ NoDup ((l ++ [x]) ++ l')%list.
Proof.
  intros Hnd. split.
  - apply NoDup_remove_2 in Hnd. intros Hin. apply Hnd, in_or_app. now left.
  - now rewrite <- app_assoc.
Qed.

(** assigning fresh keys in turn appends the entries *)
Lemma fold_set_fresh {V : Type} (key : V -> string) (l : list V) :
  forall acc : PyDict.dict V,
    NoDup (PyDict.keys acc ++ map key l)%list ->
    fold_left (fun a x => PyDict.set (key x) x a) l acc =
    (acc ++ map (fun x => (key x, x)) l)%list.
Proof.
  induction l as [|x l IH]; intros acc Hnd; simpl.
  - now rewrite app_nil_r.
  - simpl in Hnd. destruct (NoDup_app_head_fresh _ _ _ Hnd) as [Hfresh Hnd'].
    rewrite set_fresh by assumption.
    rewrite IH.
    + now rewrite <- app_assoc.
    + unfold PyDict.keys in *. now rewrite map_app.
Qed.

Lemma values_comprehension_NoDup {V : Type} (key : V -> string) (l : list V) :
  NoDup (map key l) -> PyDict.values (PyDict.comprehension key l) = l.
Proof.
  intros Hnd. unfold PyDict.comprehension.
  rewrite fold_set_fresh by exact Hnd. simpl.
  unfold PyDict.values. rewrite map_map. simpl. apply map_id.
Qed.

Lemma update_fresh {V : Type} (d2 : PyDict.dict V) :
  forall d : PyDict.dict V,
    NoDup (PyDict.keys d ++ PyDict.keys d2)%list -> PyDict.update d d2 = (d ++ d2)%list.
Proof.
  unfold PyDict.update.
  induction d2 as [|[k v] d2 IH]; intros d Hnd; simpl.
  - now rewrite app_nil_r.
  - simpl in Hnd. destruct (NoDup_app_head_fresh _ _ _ Hnd) as [Hfresh Hnd'].
    rewrite set_fresh by assumption.
    rewrite IH.
    + now rewrite <- app_assoc.
    + unfold PyDict.keys in *. now rewrite map_app.
Qed.

Lemma In_first_occurrences (x : string) (l : list string) :
  In x (first_occurrences l) <-> In x l.
Proof.
  induction l as [|y l IH]; simpl; [tauto|].
  rewrite filter_In, IH.
  destruct (String.eqb_spec x y) as [->|Hne]; simpl.
  - tauto.
  - split.
    + intros [H|[H _]]; auto.
    + intros [H|H]; [now left|right; auto].
Qed.

Lemma merged_menu_names_NoDup (eval_data soup_data : CandidateSet) :
  NoDup (map MenuItem.name (menuItems (_merge_data eval_data soup_data))).
Proof.
  rewrite menuItems_merge, <- firstn_map. apply NoDup_firstn_keep.
  rewrite map_key_values_comprehension. apply wf_comprehension.
Qed.

Lemma merged_menu_names (eval_data soup_data : CandidateSet) :
  map MenuItem.name (menuItems (_merge_data eval_data soup_data)) =
  firstn 20
    (first_occurrences (map MenuItem.name (menu_of eval_data ++ menu_of soup_data)%list)).
Proof.
  rewrite menuItems_merge, <- firstn_map, map_key_values_comprehension.
  now rewrite keys_comprehension.
Qed.

Lemma merged_basicInfo_wf (eval_data soup_data : CandidateSet) :
  wf_dict (basicInfo (_merge_data eval_data soup_data)).
Proof.
  rewrite basicInfo_merge. unfold PyDict.unpack2.
  apply wf_update, wf_update. constructor.
Qed.

(** X1: an entry of the merged menu is an entry of eval's list or of
    markup's list, and while the two lists hold at most 20 different names,
    every name of theirs has its entry in the merged menu. *)
Theorem merge_menu_sound_and_complete (eval_data soup_data : CandidateSet) :
  (forall item, In item (menuItems (_merge_data eval_data soup_data)) ->
                In item (menu_of eval_data) \/ In item (menu_of soup_data)) /\
  (length (first_occurrences
             (map MenuItem.name (menu_of eval_data ++ menu_of soup_data)%list)) <= 20 ->
   forall item, In item (menu_of eval_data) \/ In item (menu_of soup_data) ->
     exists kept, In kept (menuItems (_merge_data eval_data soup_data)) /\
                  MenuItem.name kept = MenuItem.name item).
Proof.
  split.
  - intros item Hin. rewrite menuItems_merge in Hin.
    apply firstn_subset, values_comprehension, last_with_key in Hin.
    destruct Hin as [_ Hin]. now apply in_app_or.
  - intros Hlen item Hin.
    assert (Hname : In (MenuItem.name item)
                      (map MenuItem.name (menuItems (_merge_data eval_data soup_data)))).
    { rewrite merged_menu_names, firstn_all2 by exact Hlen.
      apply In_first_occurrences, in_map, in_or_app. exact Hin. }
    apply in_map_iff in Hname. destruct Hname as [kept [Hk Hin']]. now exists kept.
Qed.

Lemma merge_menu_sound_and_complete_witness :
  exists kept,
    In kept (menuItems (_merge_data (Sample.with_menu [Sample.kimchi_eval; Sample.bibimbap])
                                    (Sample.with_menu [Sample.kimchi_markup]))) /\
    MenuItem.name kept = "Bibimbap".
Proof.
  refine (proj2 (merge_menu_sound_and_complete
                   (Sample.with_menu [Sample.kimchi_eval; Sample.bibimbap])
                   (Sample.with_menu [Sample.kimchi_markup])) _ Sample.bibimbap _).
  - simpl. lia.
  - left. simpl. right. left. reflexivity.
Defined.

(** X2: when no name occurs twice in eval's list followed by markup's list,
    the merged menu is that list, in that order, cut after 20. *)
Theorem merge_menu_without_duplicates (eval_data soup_data : CandidateSet) :
  NoDup (map MenuItem.name (menu_of eval_data ++ menu_of soup_data)%list) ->
  menuItems (_merge_data eval_data soup_data) =
  firstn 20 (menu_of eval_data ++ menu_of soup_data)%list.
Proof.
  intros Hnd. rewrite menuItems_merge. now rewrite values_comprehension_NoDup.
Qed.

Lemma merge_menu_without_duplicates_witness :
  menuItems (_merge_data (Sample.with_menu [Sample.bibimbap])
                         (Sample.with_menu [Sample.kimchi_markup]))
  = firstn 20 [Sample.bibimbap; Sample.kimchi_markup].
Proof.
  apply (merge_menu_without_duplicates (Sample.with_menu [Sample.bibimbap])
                                       (Sample.with_menu [Sample.kimchi_markup])).
  simpl. repeat constructor; simpl; intuition discriminate.
Defined.

(** X3: merging a merged record again, with nothing beside it, gives back
    its [basicInfo], its menu, its reviews and its images. *)
Theorem merge_idempotent (eval_data soup_data : CandidateSet) :
  let r := _merge_data eval_data soup_data in
  let r' := _merge_data (as_candidates r) no_candidates in
  basicInfo r' = basicInfo r /\ menuItems r' = menuItems r /\
  reviews r' = reviews r /\ images r' = images r.
Proof.
  cbv zeta. set (r := _merge_data eval_data soup_data).
  split; [|split; [|split]].
  - rewrite basicInfo_merge. unfold basic_of, as_candidates, no_candidates. simpl get_or.
    unfold PyDict.unpack2. simpl PyDict.update at 2.
    apply (update_fresh (basicInfo r) []). simpl. apply merged_basicInfo_wf.
  - rewrite menuItems_merge. unfold menu_of, as_candidates, no_candidates. simpl get_or.
    rewrite app_nil_r.
    rewrite values_comprehension_NoDup by apply merged_menu_names_NoDup.
    apply firstn_all2. unfold r. rewrite menuItems_merge. apply firstn_le_length.
  - rewrite reviews_merge. unfold reviews_of, as_candidates, no_candidates. simpl get_or.
    rewrite app_nil_r. apply firstn_all2.
    unfold r. rewrite reviews_merge. apply firstn_le_length.
  - rewrite images_merge. unfold images_of, as_candidates. simpl get_or.
    apply firstn_all2. unfold r. rewrite images_merge. apply firstn_le_length.
Qed.

(** X4: eval's reviews take the 10 places first and markup's reviews fill
    what is left; nothing is removed as a duplicate, so two lists of 10
    reviews or fewer in all are kept whole. *)
Theorem merge_reviews_places (eval_data soup_data : CandidateSet) :
  reviews (_merge_data eval_data soup_data) =
    (firstn 10 (reviews_of eval_data) ++
     firstn (10 - length (reviews_of eval_data)) (reviews_of soup_data))%list /\
  (length (reviews_of eval_data) + length (reviews_of soup_data) <= 10 ->
   reviews (_merge_data eval_data soup_data) =
     (reviews_of eval_data ++ reviews_of soup_data)%list).
Proof.
  rewrite reviews_merge. split.
  - apply firstn_app.
  - intros Hlen. apply firstn_all2. rewrite length_app. exact Hlen.
Qed.

Lemma merge_reviews_places_witness :
  reviews (_merge_data (Scenario.with_reviews Scenario.two_reviews)
                       (Scenario.with_reviews Scenario.two_reviews))
  = (Scenario.two_reviews ++ Scenario.two_reviews)%list.
Proof.
  apply (proj2 (merge_reviews_places (Scenario.with_reviews Scenario.two_reviews)
                                     (Scenario.with_reviews Scenario.two_reviews))).
  simpl. lia.
Defined.

(** X5: the merged [basicInfo] is a dict with no key twice, whatever lists
    of pairs come in, and its keys are those of markup's and of eval's. *)
Theorem merge_basicInfo_keys (eval_data soup_data : CandidateSet) (field : string) :
  wf_dict (basicInfo (_merge_data eval_data soup_data)) /\
  (In field (PyDict.keys (basicInfo (_merge_data eval_data soup_data))) <->
   In field (PyDict.keys (basic_of soup_data)) \/
   In field (PyDict.keys (basic_of eval_data))).
Proof.
  split; [apply merged_basicInfo_wf|].
  assert (Hget : forall (V : Type) (d : PyDict.dict V) k,
            In k (PyDict.keys d) <-> PyDict.get k d <> None).
  { intros V d k. pose proof (get_None_not_In k d) as H.
    destruct (PyDict.get k d) eqn:E; split; intros H'; try congruence.
    - destruct (in_dec string_dec k (PyDict.keys d)) as [Hin|Hnin]; [assumption|].
      apply H in Hnin. discriminate.
    - exfalso. apply (proj1 H eq_refl H').
  }
  assert (Hlast : forall (V : Type) (d : PyDict.dict V) k,
            In k (PyDict.keys d) <-> last_with fst k d <> None).
  { intros V d k. induction d as [|[k' v'] d IH]; simpl.
    - split; [tauto|congruence].
    - destruct (last_with fst k d) eqn:E.
      + split; [congruence|]. intros _. right. apply IH. congruence.
      + destruct (String.eqb_spec k k') as [->|Hne].
        * split; [congruence|]. intros _. now left.
        * split; [|congruence]. intros [Heq|Hin]; [congruence|]. now apply IH in Hin. }
  rewrite basicInfo_merge, Hget. unfold PyDict.unpack2. rewrite !get_update. simpl.
  rewrite !Hlast.
  destruct (last_with fst field (basic_of eval_data)),
           (last_with fst field (basic_of soup_data));
    split; intros H; try congruence; try tauto; try (now left); try (now right).
Qed.

(** ** More on the markup extractor *)

Lemma length_flat_map_le {A B : Type} (f : A -> list B) (l : list A) :
  (forall x, length (f x) <= 1) -> length (flat_map f l) <= length l.
Proof.
  intros Hf. induction l as [|x l IH]; simpl; [lia|].
  rewrite length_app. specialize (Hf x). lia.
Qed.

Lemma extract_menu_item_length (item : Soup.Tag) : length (extract_menu_item item) <= 1.
Proof.
  unfold extract_menu_item.
  destruct (Soup.select_one "span.lPzHi" item); simpl; lia.
Qed.

Lemma extract_review_length (review : Soup.Tag) : length (extract_review review) <= 1.
Proof.
  unfold extract_review.
  destruct (Soup.select_one "a.pui__xtsQN-" review); simpl; lia.
Qed.

Lemma soup_menu (html : Soup.html) :
  menu_of (_extract_with_soup html) =
  flat_map extract_menu_item
    (firstn 20 (Soup.select "li.E2jtL" (Soup.BeautifulSoup html))).
Proof. reflexivity. Qed.

Lemma soup_reviews (html : Soup.html) :
  reviews_of (_extract_with_soup html) =
  flat_map extract_review
    (firstn 10 (Soup.select "li.pui__X35jYm" (Soup.BeautifulSoup html))).
Proof. reflexivity. Qed.

Lemma soup_basic (html : Soup.html) :
  basic_of (_extract_with_soup html) = extract_basicInfo (Soup.BeautifulSoup html).
Proof. reflexivity. Qed.

(** X6: the markup extractor gives at most 20 menu items and at most 10
    reviews, however many list items the page holds. *)
Theorem soup_caps (html : Soup.html) :
  length (menu_of (_extract_with_soup html)) <= 20 /\
  length (reviews_of (_extract_with_soup html)) <= 10.
Proof.
  rewrite soup_menu, soup_reviews. split.
  - etransitivity; [apply length_flat_map_le, extract_menu_item_length|].
    apply firstn_le_length.
  - etransitivity; [apply length_flat_map_le, extract_review_length|].
    apply firstn_le_length.
Qed.

Lemma extract_basicInfo_shape (soup : Soup.Tag) :
  extract_basicInfo soup =
  let add (field : string) (hit : option string) (data : PyDict.dict pyval) :=
    match hit with
    | Some t => PyDict.set field (PyStr t) data
    | None => data
    end in
  add "phone" (first_hit soup ["span.xlx7Q"])
    (add "address" (first_hit soup ["span.IH7VW"; "span.LDgIH"])
       (add "category" (first_hit soup ["span.lnJFt"; "span.DJJvD"])
          (add "name" (first_hit soup ["span.GHAhO"; "span.Fc1rA"; "h2.place_title"]) []))).
Proof. reflexivity. Qed.

Lemma soup_basicInfo_facts (soup : Soup.Tag) :
  wf_dict (extract_basicInfo soup) /\
  (forall field selectors, In (field, selectors) patterns ->
     PyDict.get field (extract_basicInfo soup) = option_map PyStr (first_hit soup selectors)) /\
  (forall field, ~ In field ["name"; "category"; "address"; "phone"] ->
     PyDict.get field (extract_basicInfo soup) = None).
Proof.
  rewrite extract_basicInfo_shape. cbv zeta.
  remember (first_hit soup ["span.xlx7Q"]) as phone eqn:Hphone.
  remember (first_hit soup ["span.IH7VW"; "span.LDgIH"]) as address eqn:Haddress.
  remember (first_hit soup ["span.lnJFt"; "span.DJJvD"]) as category eqn:Hcategory.
  remember (first_hit soup ["span.GHAhO"; "span.Fc1rA"; "h2.place_title"]) as name
    eqn:Hname.
  split; [|split].
  - clear Hphone Haddress Hcategory Hname.
    repeat match goal with
           | |- wf_dict (match ?o with Some _ => _ | None => _ end) =>
               destruct o; [apply wf_set|]
           end; constructor.
  - intros field selectors Hin. unfold patterns in Hin. simpl in Hin.
    destruct Hin as [H|[H|[H|[H|[]]]]]; injection H as <- <-;
      rewrite <- ?Hname, <- ?Hcategory, <- ?Haddress, <- ?Hphone;
      clear Hphone Haddress Hcategory Hname;
      destruct name, category, address, phone; reflexivity.
  - intros field Hnot.
    assert (Hn : String.eqb field "name" = false)
      by (apply String.eqb_neq; intros ->; apply Hnot; simpl; tauto).
    assert (Hc : String.eqb field "category" = false)
      by (apply String.eqb_neq; intros ->; apply Hnot; simpl; tauto).
    assert (Ha : String.eqb field "address" = false)
      by (apply String.eqb_neq; intros ->; apply Hnot; simpl; tauto).
    assert (Hp : String.eqb field "phone" = false)
      by (apply String.eqb_neq; intros ->; apply Hnot; simpl; tauto).
    clear Hphone Haddress Hcategory Hname.
    destruct name, category, address, phone;
      repeat (rewrite get_set; rewrite ?Hn, ?Hc, ?Ha, ?Hp); reflexivity.
Qed.

(** X7: the [basicInfo] of the markup extractor is a dict with no key
    twice; each of its four fields holds, as a string, the text found by
    the selectors of the field, and is absent when they find nothing; there
    is no other field. *)
Theorem soup_basicInfo_fields (html : Soup.html) :
  let soup := Soup.BeautifulSoup html in
  let info := basic_of (_extract_with_soup html) in
  wf_dict info /\
  (forall field selectors, In (field, selectors) patterns ->
     PyDict.get field info = option_map PyStr (first_hit soup selectors)) /\
  (forall field, ~ In field ["name"; "category"; "address"; "phone"] ->
     PyDict.get field info = None).
Proof.
  cbv zeta. rewrite soup_basic. apply soup_basicInfo_facts.
Qed.

Lemma soup_basicInfo_fields_witness :
  PyDict.get "name" (basic_of (_extract_with_soup Scenario.info_page)) = Some (PyStr "First") /\
  PyDict.get "rating" (basic_of (_extract_with_soup Scenario.info_page)) = None.
Proof.
  destruct (soup_basicInfo_fields Scenario.info_page) as [_ [Hfield Hother]].
  split.
  - rewrite (Hfield "name" ["span.GHAhO"; "span.Fc1rA"; "h2.place_title"]).
    + reflexivity.
    + simpl. left. reflexivity.
  - apply Hother. simpl. intuition discriminate.
Defined.

(** X8: among the selectors of a field the first one, in the order of the
    list, that finds an element gives the text, whatever the later ones
    find; and the search gives nothing exactly when no selector finds an
    element. *)
Theorem first_hit_first_selector_wins (soup : Soup.Tag) :
  (forall before selector after element,
     (forall s, In s before -> Soup.select_one s soup = None) ->
     Soup.select_one selector soup = Some element ->
     first_hit soup (before ++ selector :: after)%list = Some (Soup.get_text_strip element)) /\
  (forall selectors,
     first_hit soup selectors = None <->
     forall s, In s selectors -> Soup.select_one s soup = None).
Proof.
  split.
  - intros before selector after element Hbefore Hsel.
    induction before as [|b before IH]; simpl.
    + now rewrite Hsel.
    + rewrite (Hbefore b (or_introl eq_refl)). apply IH.
      intros s Hs. apply Hbefore. now right.
  - induction selectors as [|sel selectors IH]; simpl.
    + split; [intros _ s []|reflexivity].
    + destruct (Soup.select_one sel soup) as [el|] eqn:E.
      * split; [discriminate|]. intros H.
        specialize (H sel (or_introl eq_refl)). congruence.
      * rewrite IH. split.
        -- intros H s [<-|Hs]; auto.
        -- intros H s Hs. apply H. now right.
Qed.

Lemma first_hit_first_selector_wins_witness :
  first_hit (Soup.BeautifulSoup Scenario.info_page)
    ([] ++ "span.GHAhO" :: ["span.Fc1rA"; "h2.place_title"])%list = Some "First".
Proof.
  apply (proj1 (first_hit_first_selector_wins (Soup.BeautifulSoup Scenario.info_page))
           [] "span.GHAhO" ["span.Fc1rA"; "h2.place_title"] Scenario.info_name_elem).
  - intros s [].
  - reflexivity.
Defined.

Lemma extract_review_spec (item : Soup.Tag) (r : Review.t) :
  In r (extract_review item) <->
  exists text_elem,
    Soup.select_one "a.pui__xtsQN-" item = Some text_elem /\
    r = review_of (Soup.select_one "span.pui__bMWJiy" item) text_elem
          (Soup.select_one "time span" item).
Proof.
  unfold extract_review, review_of.
  destruct (Soup.select_one "a.pui__xtsQN-" item) as [t|]; simpl.
  - split.
    + intros [<-|[]]. now exists t.
    + intros [t' [[= <-] ->]]. now left.
  - split; [intros []|intros [t' [[=] _]]].
Qed.

(** X9: the reviews of the markup extractor are those built from the first
    10 review items that have a text link; an item without it gives none;
    without rating element the rating is 0.0, without date element the
    date is the empty string. *)
Theorem soup_review_entries (html : Soup.html) :
  let items := firstn 10 (Soup.select "li.pui__X35jYm" (Soup.BeautifulSoup html)) in
  (forall r, In r (reviews_of (_extract_with_soup html)) <->
     exists item text_elem,
       In item items /\
       Soup.select_one "a.pui__xtsQN-" item = Some text_elem /\
       r = review_of (Soup.select_one "span.pui__bMWJiy" item) text_elem
             (Soup.select_one "time span" item)) /\
  (forall text_elem date_elem,
     Review.rating (review_of None text_elem date_elem) = PyFloat.zero) /\
  (forall rating_elem text_elem,
     Review.date (review_of rating_elem text_elem None) = "").
Proof.
  cbv zeta. split; [|split; reflexivity].
  intros r. rewrite soup_reviews, in_flat_map. split.
  - intros [item [Hitem Hin]]. apply extract_review_spec in Hin.
    destruct Hin as [t [Ht Hr]]. now exists item, t.
  - intros [item [t [Hitem [Ht Hr]]]]. exists item. split; [assumption|].
    apply extract_review_spec. now exists t.
Qed.

Lemma soup_review_entries_witness :
  exists item text_elem,
    In item (firstn 10 (Soup.select "li.pui__X35jYm"
                          (Soup.BeautifulSoup Scenario.bare_reviews))) /\
    Soup.select_one "a.pui__xtsQN-" item = Some text_elem /\
    {| Review.rating := PyFloat.zero; Review.text := "tasty"; Review.date := "" |} =
    review_of (Soup.select_one "span.pui__bMWJiy" item) text_elem
      (Soup.select_one "time span" item).
Proof.
  apply (proj1 (soup_review_entries Scenario.bare_reviews)).
  simpl. left. reflexivity.
Defined.

(** X10: with the markup extractor beside it, the [rating] and the
    [reviewCount] of the merged [basicInfo] are eval's, and those of the
    [statistics] are the same values, or 0 where eval has none: the markup
    gives neither. *)
Theorem merge_statistics_follow_eval (eval_data : CandidateSet) (html : Soup.html) :
  wf_dict (basic_of eval_data) ->
  let r := _merge_data eval_data (_extract_with_soup html) in
  PyDict.get "rating" (basicInfo r) = PyDict.get "rating" (basic_of eval_data) /\
  PyDict.get "reviewCount" (basicInfo r) = PyDict.get "reviewCount" (basic_of eval_data) /\
  st_rating (statistics r) = get_or (PyDict.get "rating" (basicInfo r)) (PyInt 0) /\
  st_reviewCount (statistics r) = get_or (PyDict.get "reviewCount" (basicInfo r)) (PyInt 0).
Proof.
  intros Hwf. cbv zeta.
  destruct (soup_basicInfo_facts (Soup.BeautifulSoup html)) as [Hsoupwf [_ Hother]].
  rewrite <- soup_basic in Hsoupwf, Hother.
  assert (Hget : forall field, ~ In field ["name"; "category"; "address"; "phone"] ->
            PyDict.get field (basicInfo (_merge_data eval_data (_extract_with_soup html))) =
            PyDict.get field (basic_of eval_data)).
  { intros field Hnot. rewrite basicInfo_merge, get_unpack2 by assumption.
    rewrite (Hother field Hnot). now destruct (PyDict.get field (basic_of eval_data)). }
  assert (Hr : ~ In "rating" ["name"; "category"; "address"; "phone"])
    by (simpl; intuition discriminate).
  assert (Hc : ~ In "reviewCount" ["name"; "category"; "address"; "phone"])
    by (simpl; intuition discriminate).
  rewrite (Hget _ Hr), (Hget _ Hc). repeat split.
Qed.

Lemma merge_statistics_follow_eval_witness :
  st_rating (statistics (_merge_data (Sample.with_basic Sample.store_b)
                                     (_extract_with_soup Scenario.info_page)))
  = get_or (PyDict.get "rating"
              (basicInfo (_merge_data (Sample.with_basic Sample.store_b)
                                      (_extract_with_soup Scenario.info_page))))
           (PyInt 0).
Proof.
  apply (merge_statistics_follow_eval (Sample.with_basic Sample.store_b) Scenario.info_page).
  unfold wf_dict. simpl. repeat constructor; simpl; intuition discriminate.
Defined.

(** ** More on the rating and on the URL *)

Lemma take_digits_app (r p : list string) :
  PyStr.all_digits r = true ->
  PyStr.take_digits (r ++ p)%list = (r ++ PyStr.take_digits p)%list.
Proof.
  induction r as [|c r IH]; simpl; [reflexivity|].
  intros H. apply andb_true_iff in H. destruct H as [Hc Hr].
  now rewrite Hc, IH.
Qed.

Lemma search_after_digit_free (n : nat) (pre rest : list string) :
  0 < n -> digit_free pre ->
  (n <= length (PyStr.take_digits rest)) ->
  PyStr.search_digits n (pre ++ rest)%list = Some (PyStr.take_digits rest).
Proof.
  intros Hn Hfree Hlen. induction pre as [|c pre IH].
  - simpl app. rewrite search_digits_unfold.
    destruct (Nat.leb_spec n (length (PyStr.take_digits rest))); [reflexivity|lia].
  - rewrite search_digits_unfold. simpl.
    rewrite (Hfree c (or_introl eq_refl)). simpl.
    destruct (Nat.leb_spec n 0); [lia|].
    apply IH. intros c' Hc'. apply Hfree. now right.
Qed.

(** X11: the rating is read from the first run of decimal digits alone:
    characters that are no digit before it and whatever follows it, a
    decimal part included, do not count; the rating is the float nearest
    to the number the digits of the run denote. *)
Theorem extract_rating_first_run_only (text : string) (pre run post : list string) :
  PyStr.chars text = (pre ++ run ++ post)%list ->
  digit_free pre ->
  PyStr.all_digits run = true -> 1 <= length run ->
  PyStr.take_digits post = [] ->
  _extract_rating text = PyFloat.of_digits (PyStr.join run) /\
  _extract_rating text = PyFloat.of_Z (Z.of_N (PyStr.digits_value run)).
Proof.
  intros Htext Hfree Hrun Hlen Hpost.
  assert (Htake : PyStr.take_digits (run ++ post)%list = run).
  { rewrite take_digits_app by assumption. rewrite Hpost. apply app_nil_r. }
  rewrite <- (of_digits_join run Hrun).
  assert (_extract_rating text = PyFloat.of_digits (PyStr.join run)); [|now split].
  unfold _extract_rating, PyStr.re_search_digits. rewrite Htext.
  rewrite (search_after_digit_free 1 pre (run ++ post)%list); try assumption; try lia.
  - now rewrite Htake.
  - now rewrite Htake.
Qed.

(** the rating text "4.5" gives 4.0, and so does "٤.5", written with the
    Arabic-Indic digit four *)
Lemma extract_rating_first_run_only_witness :
  (_extract_rating "4.5" = PyFloat.of_digits (PyStr.join ["4"]) /\
   _extract_rating "4.5" = PyFloat.of_Z (Z.of_N (PyStr.digits_value ["4"]))) /\
  PyFloat.of_Z (Z.of_N (PyStr.digits_value ["4"])) = PyFloat.of_Z 4 /\
  _extract_rating "٤.5" = PyFloat.of_Z 4.
Proof.
  split; [|split; vm_compute; reflexivity].
  apply (extract_rating_first_run_only "4.5" [] ["4"] ["."; "5"]).
  - reflexivity.
  - intros c [].
  - reflexivity.
  - simpl. lia.
  - reflexivity.
Defined.

Lemma search_digits_all_digits (n : nat) (l run : list string) :
  PyStr.search_digits n l = Some run -> PyStr.all_digits run = true.
Proof.
  revert run. induction l as [|c l IH]; intros run; rewrite search_digits_unfold.
  - destruct (n <=? length (PyStr.take_digits []))%nat; [|discriminate].
    intros [= <-]. reflexivity.
  - destruct (n <=? length (PyStr.take_digits (c :: l)))%nat; [|apply IH].
    intros [= <-]. exact (take_digits_all_digits (c :: l)).
Qed.

(** a byte of a character outside ASCII is not the letter m *)
Lemma high_byte_not_m (b : ascii) :
  (128 <= N_of_ascii b)%N -> Ascii.eqb "m" b = false.
Proof.
  intros H. destruct (Ascii.eqb_spec "m" b) as [<-|]; [|reflexivity].
  vm_compute in H. now exfalso.
Qed.

Lemma continuation_not_m (b : ascii) :
  PyStr.is_continuation b = true -> Ascii.eqb "m" b = false.
Proof.
  unfold PyStr.is_continuation. intros H. apply andb_true_iff in H.
  destruct H as [H _]. apply high_byte_not_m. now apply N.leb_le.
Qed.

Lemma lead_not_m (k : N) (b : ascii) :
  (128 <= k)%N -> (k <=? N_of_ascii b)%N = true -> Ascii.eqb "m" b = false.
Proof.
  intros Hk H. apply N.leb_le in H. apply high_byte_not_m. lia.
Qed.

Lemma ascii_digit_not_m (b : ascii) :
  PyStr.decimal_of_code_point (N_of_ascii b) <> None -> Ascii.eqb "m" b = false.
Proof.
  intros H. destruct (Ascii.eqb_spec "m" b) as [<-|]; [|reflexivity].
  exfalso. apply H. vm_compute. reflexivity.
Qed.

Lemma str_in_skip (b : ascii) (p rest : string) :
  Ascii.eqb "m" b = false ->
  PyStr.str_in (String "m" p) (String b rest) = PyStr.str_in (String "m" p) rest.
Proof.
  intros H. unfold PyStr.str_in at 1; fold PyStr.str_in.
  unfold PyStr.startswith at 1. now rewrite H.
Qed.

(** a digit holds no letter m: a search for text that starts with m goes
    past it *)
Lemma str_in_skip_digit (c p rest : string) :
  PyStr.isdecimal c = true ->
  PyStr.str_in (String "m" p) (c ++ rest) = PyStr.str_in (String "m" p) rest.
Proof.
  unfold PyStr.isdecimal, PyStr.decimal, PyStr.code_point.
  destruct c as [|b0 [|b1 [|b2 [|b3 [|b4 c]]]]]; try discriminate.
  - destruct (N_of_ascii b0 <? 128)%N; [|discriminate].
    intros H. simpl append. apply str_in_skip, ascii_digit_not_m.
    now destruct (PyStr.decimal_of_code_point (N_of_ascii b0)).
  - destruct (194 <=? N_of_ascii b0)%N eqn:E0; [|discriminate].
    destruct (N_of_ascii b0 <? 224)%N; [|discriminate].
    destruct (PyStr.is_continuation b1) eqn:E1; [|discriminate].
    intros _. simpl append.
    rewrite (str_in_skip b0) by (apply (lead_not_m 194); [lia|assumption]).
    now rewrite (str_in_skip b1) by now apply continuation_not_m.
  - destruct (224 <=? N_of_ascii b0)%N eqn:E0; [|discriminate].
    destruct (N_of_ascii b0 <? 240)%N; [|discriminate].
    destruct (PyStr.is_continuation b1) eqn:E1; [|discriminate].
    destruct (PyStr.is_continuation b2) eqn:E2; [|discriminate].
    intros _. simpl append.
    rewrite (str_in_skip b0) by (apply (lead_not_m 224); [lia|assumption]).
    rewrite (str_in_skip b1) by now apply continuation_not_m.
    now rewrite (str_in_skip b2) by now apply continuation_not_m.
  - destruct (240 <=? N_of_ascii b0)%N eqn:E0; [|discriminate].
    destruct (N_of_ascii b0 <? 248)%N; [|discriminate].
    destruct (PyStr.is_continuation b1) eqn:E1; [|discriminate].
    destruct (PyStr.is_continuation b2) eqn:E2; [|discriminate].
    destruct (PyStr.is_continuation b3) eqn:E3; [|discriminate].
    intros _. simpl append.
    rewrite (str_in_skip b0) by (apply (lead_not_m 240); [lia|assumption]).
    rewrite (str_in_skip b1) by now apply continuation_not_m.
    rewrite (str_in_skip b2) by now apply continuation_not_m.
    now rewrite (str_in_skip b3) by now apply continuation_not_m.
Qed.

Lemma no_site_in_digits (id : list string) :
  PyStr.all_digits id = true ->
  PyStr.str_in "m.place.naver.com" (PyStr.join id ++ "/home") = false /\
  PyStr.str_in "map.naver.com" (PyStr.join id ++ "/home") = false.
Proof.
  induction id as [|c id IH]; intros H.
  - split; reflexivity.
  - simpl in H. apply andb_true_iff in H. destruct H as [Hc Hid].
    destruct (IH Hid) as [H1 H2].
    cbn [PyStr.join]. rewrite str_append_assoc.
    now rewrite !(str_in_skip_digit c) by assumption.
Qed.

Lemma pc_url_is_fixed (id : list string) :
  PyStr.all_digits id = true ->
  to_pc_url ("https://pcmap.place.naver.com/restaurant/" ++ PyStr.join id ++ "/home")
  = "https://pcmap.place.naver.com/restaurant/" ++ PyStr.join id ++ "/home".
Proof.
  intros Hid. destruct (no_site_in_digits id Hid) as [H1 H2].
  apply to_pc_url_other.
  - simpl. exact H1.
  - simpl. exact H2.
Qed.

(** X12: the rewriting is idempotent: the URL it gives is not rewritten
    again. *)
Theorem to_pc_url_idempotent (url : string) :
  to_pc_url (to_pc_url url) = to_pc_url url.
Proof.
  unfold to_pc_url at 2 3.
  destruct (PyStr.str_in "m.place.naver.com" url || PyStr.str_in "map.naver.com" url) eqn:Hsite.
  - unfold PyStr.re_search_digits.
    destruct (PyStr.search_digits 8 (PyStr.chars url)) as [id|] eqn:Hid;
      cbn [option_map].
    + apply pc_url_is_fixed. eapply search_digits_all_digits, Hid.
    + unfold to_pc_url, PyStr.re_search_digits. now rewrite Hsite, Hid.
  - unfold to_pc_url. now rewrite Hsite.
Qed.

(** X13: a URL whose characters hold no 8 decimal digits in a row is left
    as it is, on the mobile site and on the map site too. *)
Theorem to_pc_url_needs_eight_digits (url : string) :
  ~ has_digit_run 8 (PyStr.chars url) -> to_pc_url url = url.
Proof.
  intros Hno. unfold to_pc_url.
  rewrite re_search_digits_none; [|lia|assumption].
  now destruct (_ || _).
Qed.

Lemma to_pc_url_needs_eight_digits_witness :
  to_pc_url "https://m.place.naver.com/a" = "https://m.place.naver.com/a".
Proof.
  apply (to_pc_url_needs_eight_digits "https://m.place.naver.com/a").
  pose proof (search_digits_spec 8 (PyStr.chars "https://m.place.naver.com/a")) as H.
  apply H. lia.
Defined.

(** ** More on the session *)

Lemma same_resources_refl (s : State) : same_resources s s.
Proof. repeat split. Qed.

Lemma same_resources_trans (s1 s2 s3 : State) :
  same_resources s1 s2 -> same_resources s2 s3 -> same_resources s1 s3.
Proof.
  unfold same_resources. intros [? [? [? [? ?]]]] [? [? [? [? ?]]]].
  repeat split; congruence.
Qed.

Lemma keeps_ret {A : Type} (a : A) : keeps_resources (ret a).
Proof. intros s r s' [= <- <-]. apply same_resources_refl. Qed.

Lemma keeps_bind {A B : Type} (m : M A) (f : A -> M B) :
  keeps_resources m -> (forall a, keeps_resources (f a)) -> keeps_resources (bind m f).
Proof.
  intros Hm Hf s r s'. unfold bind.
  destruct (m s) as [[a|e] s1] eqn:E.
  - intros H. eapply same_resources_trans; [eapply Hm, E|eapply Hf, H].
  - intros [= <- <-]. eapply Hm, E.
Qed.

Lemma keeps_call {A : Type} (ev : event) (answer : list event -> outcome A)
    (effect : A -> State -> State) :
  (forall a s, same_resources s (effect a s)) -> keeps_resources (call ev answer effect).
Proof.
  intros Heff s r s'. unfold call.
  destruct (answer (trace s)) as [a|e]; intros [= <- <-].
  - eapply same_resources_trans; [|apply Heff]. repeat split.
  - repeat split.
Qed.

Lemma keeps_goto (engine : Engine) (url wait_until : string) :
  keeps_resources (goto engine url wait_until).
Proof.
  unfold goto. apply keeps_bind; [|intros; apply keeps_ret].
  apply keeps_call. intros; repeat split.
Qed.

Lemma keeps_wait (engine : Engine) (ms : Z) : keeps_resources (wait_for_timeout engine ms).
Proof. apply keeps_call. intros; apply same_resources_refl. Qed.

Lemma keeps_get_page_url : keeps_resources get_page_url.
Proof. intros s r s' [= <- <-]. apply same_resources_refl. Qed.

Lemma keeps_navigate (engine : Engine) (url : string) :
  keeps_resources (_navigate_to_store engine url).
Proof.
  unfold _navigate_to_store.
  apply keeps_bind.
  - destruct (PyStr.str_in "naver.me" url); [|apply keeps_ret].
    apply keeps_bind; [apply keeps_goto|intros _].
    apply keeps_bind; [apply keeps_wait|intros _]. apply keeps_get_page_url.
  - intros u. apply keeps_bind; [apply keeps_goto|intros _]. apply keeps_get_page_url.
Qed.

Lemma keeps_scrape_body (engine : Engine) (url : string) :
  keeps_resources (scrape_body engine url).
Proof.
  unfold scrape_body.
  apply keeps_bind; [apply keeps_navigate|intros final_url].
  apply keeps_bind; [apply keeps_wait|intros _].
  apply keeps_bind; [apply keeps_call; intros; apply same_resources_refl|intros c].
  apply keeps_bind; [apply keeps_call; intros; apply same_resources_refl|intros h].
  apply keeps_bind; [|intros; apply keeps_ret].
  intros s r s' [= <- <-]. apply same_resources_refl.
Qed.

(** the [try] statement of [scrape], by cases on what the body and the
    closing of the context do *)
Lemma scrape_try_cases (engine : Engine) (url : string) (s1 : State)
    (r : outcome Envelope) (s' : State) :
  try_except_finally (scrape_body engine url) (scrape_handler engine url)
    (context_close engine) s1 = (r, s') ->
  exists rb s2 rc,
    scrape_body engine url s1 = (rb, s2) /\
    context_close engine s2 = (rc, s') /\
    match rc with
    | Raise e => r = Raise e
    | Return _ =>
        match rb with
        | Return env => r = Return env
        | Raise (PyException msg) =>
            r = Return (failure_envelope msg url (now_isoformat engine (trace s2)))
        | Raise (PyBaseException msg) => r = Raise (PyBaseException msg)
        end
    end.
Proof.
  unfold try_except_finally.
  destruct (scrape_body engine url s1) as [rb s2] eqn:Hbody.
  destruct rb as [env|[msg|msg]]; try rewrite scrape_handler_returns;
    destruct (context_close engine s2) as [[[]|e] s3] eqn:Hclose;
    intros [= <- <-]; eexists _, s2, _; (split; [reflexivity|]);
    (split; [exact Hclose|]); reflexivity.
Qed.

Lemma context_close_resources (engine : Engine) (s : State) (rc : outcome unit) (s' : State) :
  context_close engine s = (rc, s') ->
  self_browser s' = self_browser s /\ self_playwright s' = self_playwright s /\
  browser_open s' = browser_open s /\ playwright_running s' = playwright_running s /\
  match rc with
  | Return _ => open_contexts s' = pred (open_contexts s)
  | Raise _ => open_contexts s' = open_contexts s
  end.
Proof.
  unfold context_close, call.
  destruct (on_context_close engine (trace s)) as [[]|e]; intros [= <- <-];
    repeat split.
Qed.

(** [scrape] by cases: the scraper is not initialized, the context does not
    open, the page does not open, or the [try] statement runs in a state
    [s1] that has one context more *)
Lemma scrape_cases (engine : Engine) (url : string) (s s' : State) (r : outcome Envelope) :
  scrape engine url s = (r, s') ->
  (self_browser s = false /\ s' = s /\
   r = Raise (PyException "'NoneType' object has no attribute 'new_context'")) \/
  (self_browser s = true /\ same_resources s s' /\
   exists e, on_new_context engine (trace s) = Raise e /\ r = Raise e) \/
  (self_browser s = true /\ on_new_context engine (trace s) = Return tt /\
   self_browser s' = self_browser s /\ self_playwright s' = self_playwright s /\
   browser_open s' = browser_open s /\ playwright_running s' = playwright_running s /\
   open_contexts s' = S (open_contexts s) /\
   exists e, on_new_page engine (trace s ++ [EvNewContext])%list = Raise e /\ r = Raise e) \/
  (exists s1,
     (new_context engine ;;; new_page engine) s = (Return tt, s1) /\
     self_browser s1 = self_browser s /\ self_playwright s1 = self_playwright s /\
     browser_open s1 = browser_open s /\ playwright_running s1 = playwright_running s /\
     open_contexts s1 = S (open_contexts s) /\
     trace s1 = (trace s ++ [EvNewContext; EvNewPage])%list /\
     try_except_finally (scrape_body engine url) (scrape_handler engine url)
       (context_close engine) s1 = (r, s')).
Proof.
  unfold scrape, bind, new_context.
  destruct (self_browser s) eqn:Hself.
  - unfold call at 1.
    destruct (on_new_context engine (trace s)) as [[]|e] eqn:Hctx.
    + unfold new_page, call at 1. simpl trace.
      destruct (on_new_page engine _) as [[]|e] eqn:Hpage.
      * intros H. right. right. right. eexists. split.
        { unfold call at 1. rewrite Hctx.
          unfold new_page, call. simpl trace. rewrite Hpage. reflexivity. }
        simpl. rewrite <- app_assoc. repeat split; auto.
      * intros [= <- <-]. right. right. left. simpl. repeat split; eauto.
    + intros [= <- <-]. right. left. split; [reflexivity|]. split; [|eauto].
      repeat split; simpl; auto.
  - intros [= <- <-]. left. auto.
Qed.

Lemma scrape_frame (engine : Engine) (url : string) (s s' : State)
    (r : outcome Envelope) :
  scrape engine url s = (r, s') ->
  self_browser s' = self_browser s /\ self_playwright s' = self_playwright s /\
  browser_open s' = browser_open s /\ playwright_running s' = playwright_running s /\
  open_contexts s <= open_contexts s' <= S (open_contexts s) /\
  (forall env, r = Return env -> open_contexts s' = open_contexts s).
Proof.
  intros H. apply scrape_cases in H.
  destruct H as [[_ [-> ->]]|[[_ [[K1 [K2 [K3 [K4 K5]]]] [e [_ ->]]]]
                |[[_ [_ [K1 [K2 [K3 [K4 [K5 [e [_ ->]]]]]]]]]
                 |[s1 [_ [K1 [K2 [K3 [K4 [K5 [_ Htry]]]]]]]]]]].
  - repeat split; try lia; try discriminate.
  - repeat split; try congruence; try lia; try discriminate.
  - repeat split; try congruence; try lia; try discriminate.
  - apply scrape_try_cases in Htry.
    destruct Htry as [rb [s2 [rc [Hbody [Hclose Hr]]]]].
    apply keeps_scrape_body in Hbody.
    destruct Hbody as [B1 [B2 [B3 [B4 B5]]]].
    apply context_close_resources in Hclose.
    destruct Hclose as [C1 [C2 [C3 [C4 C5]]]].
    repeat split; try congruence.
    + destruct rc; lia.
    + destruct rc; lia.
    + intros env ->. destruct rc as [[]|e]; [lia|discriminate Hr].
Qed.

(** X14: [scrape] never touches the browser, the playwright instance or
    the fields of the scraper; when it returns an envelope the contexts
    open are as many as before the call, and on any path at most one
    more. *)
Theorem scrape_resources (engine : Engine) (url : string) (s s' : State)
    (r : outcome Envelope) :
  scrape engine url s = (r, s') ->
  self_browser s' = self_browser s /\ self_playwright s' = self_playwright s /\
  browser_open s' = browser_open s /\ playwright_running s' = playwright_running s /\
  open_contexts s <= open_contexts s' <= S (open_contexts s) /\
  (forall env, r = Return env -> open_contexts s' = open_contexts s).
Proof. apply scrape_frame. Qed.

Lemma scrape_resources_witness :
  open_contexts (snd (scrape Sample.engine_goto_fails Sample.short_link Sample.ready))
  = open_contexts Sample.ready.
Proof.
  refine (proj2 (proj2 (proj2 (proj2 (proj2
            (scrape_resources Sample.engine_goto_fails Sample.short_link Sample.ready
               (snd (scrape Sample.engine_goto_fails Sample.short_link Sample.ready))
               (fst (scrape Sample.engine_goto_fails Sample.short_link Sample.ready))
               _))))) _ _).
  - reflexivity.
  - reflexivity.
Defined.

(** X15: the only ways for [scrape] to raise instead of returning an
    envelope: the scraper is not initialized, the context or the page does
    not open, the closing of the context raises, or a step of the session
    raises an exception that is not an [Exception]. *)
Theorem scrape_raises_only_when (engine : Engine) (url : string) (s s' : State) (e : exn) :
  scrape engine url s = (Raise e, s') ->
  self_browser s = false \/
  on_new_context engine (trace s) = Raise e \/
  on_new_page engine (trace s ++ [EvNewContext])%list = Raise e \/
  (exists s2, context_close engine s2 = (Raise e, s')) \/
  (exists msg s1 s2,
     e = PyBaseException msg /\ scrape_body engine url s1 = (Raise e, s2)).
Proof.
  intros H. apply scrape_cases in H.
  destruct H as [[Hs _]|[[_ [_ [e' [Hctx [= ->]]]]]
                |[[_ [_ [_ [_ [_ [_ [_ [e' [Hpage [= ->]]]]]]]]]]
                 |[s1 [_ [_ [_ [_ [_ [_ [_ Htry]]]]]]]]]]].
  - now left.
  - right. now left.
  - right. right. now left.
  - apply scrape_try_cases in Htry.
    destruct Htry as [rb [s2 [rc [Hbody [Hclose Hr]]]]].
    destruct rc as [[]|e'].
    + destruct rb as [env|[msg|msg]]; try discriminate Hr.
      injection Hr as ->. right. right. right. right. now exists msg, s1, s2.
    + injection Hr as ->. right. right. right. left. now exists s2.
Qed.

Lemma scrape_raises_only_when_witness :
  self_browser init_state = false \/
  on_new_context Sample.engine_ok (trace init_state)
    = Raise (PyException "'NoneType' object has no attribute 'new_context'") \/
  on_new_page Sample.engine_ok (trace init_state ++ [EvNewContext])%list
    = Raise (PyException "'NoneType' object has no attribute 'new_context'") \/
  (exists s2, context_close Sample.engine_ok s2
     = (Raise (PyException "'NoneType' object has no attribute 'new_context'"), init_state)) \/
  (exists msg s1 s2,
     PyException "'NoneType' object has no attribute 'new_context'" = PyBaseException msg /\
     scrape_body Sample.engine_ok Sample.mobile_url s1
       = (Raise (PyException "'NoneType' object has no attribute 'new_context'"), s2)).
Proof.
  apply (scrape_raises_only_when Sample.engine_ok Sample.mobile_url init_state init_state).
  reflexivity.
Defined.

Lemma navigate_returns (engine : Engine) (url final : string) (s s1 : State) :
  _navigate_to_store engine url s = (Return final, s1) ->
  page_url s1 = final /\
  exists tr resolved,
    trace s1 = (tr ++ [EvGoto (to_pc_url resolved) "networkidle"])%list /\
    on_goto engine tr (to_pc_url resolved) "networkidle" = Return final /\
    (PyStr.str_in "naver.me" url = false -> resolved = url /\ tr = trace s) /\
    (PyStr.str_in "naver.me" url = true ->
     on_goto engine (trace s) url "domcontentloaded" = Return resolved /\
     tr = (trace s ++ [EvGoto url "domcontentloaded"; EvWaitForTimeout 2000])%list).
Proof.
  unfold _navigate_to_store, bind.
  destruct (PyStr.str_in "naver.me" url) eqn:Hshort.
  - unfold goto at 1, bind, call at 1.
    destruct (on_goto engine (trace s) url "domcontentloaded") as [resolved|e] eqn:Hfirst;
      [|discriminate].
    unfold ret, wait_for_timeout, call at 1. simpl trace.
    destruct (on_wait_for_timeout engine _ 2000) as [[]|e] eqn:Hwait; [|discriminate].
    unfold get_page_url at 1. simpl page_url.
    unfold goto, bind, call. simpl trace.
    destruct (on_goto engine _ (to_pc_url resolved) "networkidle") as [u|e] eqn:Hlast;
      [|discriminate].
    unfold ret, get_page_url. intros [= <- <-]. simpl. split; [reflexivity|].
    exists (trace s ++ [EvGoto url "domcontentloaded"; EvWaitForTimeout 2000])%list, resolved.
    rewrite <- !app_assoc. simpl. rewrite <- !app_assoc in Hlast. simpl in Hlast.
    repeat split; auto; discriminate.
  - unfold ret, goto, bind, call.
    destruct (on_goto engine (trace s) (to_pc_url url) "networkidle") as [u|e] eqn:Hlast;
      [|discriminate].
    unfold ret, get_page_url. intros [= <- <-]. simpl. split; [reflexivity|].
    exists (trace s), url. repeat split; auto; discriminate.
Qed.

(** X16: the URL that [_navigate_to_store] returns is where the page ends
    after the last navigation, as the engine reports it, and not the URL
    asked for; that navigation goes to the rewriting of the input, or of
    where the short link led. *)
Theorem navigate_returns_final_url (engine : Engine) (url final : string) (s s1 : State) :
  _navigate_to_store engine url s = (Return final, s1) ->
  page_url s1 = final /\
  exists tr resolved,
    trace s1 = (tr ++ [EvGoto (to_pc_url resolved) "networkidle"])%list /\
    on_goto engine tr (to_pc_url resolved) "networkidle" = Return final /\
    (PyStr.str_in "naver.me" url = false -> resolved = url /\ tr = trace s) /\
    (PyStr.str_in "naver.me" url = true ->
     on_goto engine (trace s) url "domcontentloaded" = Return resolved /\
     tr = (trace s ++ [EvGoto url "domcontentloaded"; EvWaitForTimeout 2000])%list).
Proof. apply navigate_returns. Qed.

Lemma navigate_returns_final_url_witness :
  page_url (snd (_navigate_to_store Sample.engine_ok Sample.short_link Sample.in_session))
  = Sample.pc_url.
Proof.
  apply (navigate_returns_final_url Sample.engine_ok Sample.short_link Sample.pc_url
           Sample.in_session).
  reflexivity.
Defined.

Lemma scrape_body_steps (engine : Engine) (url : string) (s s' : State) (env : Envelope) :
  scrape_body engine url s = (Return env, s') ->
  exists final s1 c h,
    _navigate_to_store engine url s = (Return final, s1) /\
    on_evaluate engine (trace s1 ++ [EvWaitForTimeout 3000])%list = Return c /\
    on_content engine (trace s1 ++ [EvWaitForTimeout 3000; EvEvaluate])%list = Return h /\
    trace s' = (trace s1 ++ [EvWaitForTimeout 3000; EvEvaluate; EvContent])%list /\
    page_url s' = page_url s1 /\
    env = [ ("success", EnvBool true);
            ("data", EnvData (_merge_data c (_extract_with_soup h)));
            ("url", EnvStr final);
            ("timestamp", EnvStr (now_isoformat engine (trace s'))) ].
Proof.
  unfold scrape_body, bind.
  destruct (_navigate_to_store engine url s) as [[final|e] s1] eqn:Hnav; [|discriminate].
  unfold wait_for_timeout, call at 1.
  destruct (on_wait_for_timeout engine (trace s1) 3000) as [[]|e]; [|discriminate].
  unfold _extract_with_evaluate, call at 1. simpl trace.
  destruct (on_evaluate engine _) as [c|e] eqn:Heval; [|discriminate].
  unfold page_content, call at 1. simpl trace.
  destruct (on_content engine _) as [h|e] eqn:Hcontent; [|discriminate].
  unfold datetime_now_isoformat, ret. intros [= <- <-].
  exists final, s1, c, h. simpl. rewrite <- !app_assoc in *. simpl in *.
  repeat split; auto.
Qed.

(** X17: when [scrape] returns an envelope with [success] true, the
    session has waited 3000 ms, then evaluated in the page, then read the
    markup, then closed the context, and nothing after; [data] is the merge
    of what the evaluation returned with what the markup extractor finds
    in that markup, and [url] is where the page ended. *)
Theorem scrape_success_steps (engine : Engine) (url : string) (s s' : State) (env : Envelope) :
  scrape engine url s = (Return env, s') ->
  PyDict.get "success" env = Some (EnvBool true) ->
  exists tr c h,
    trace s' = (tr ++ [EvWaitForTimeout 3000; EvEvaluate; EvContent; EvContextClose])%list /\
    on_evaluate engine (tr ++ [EvWaitForTimeout 3000])%list = Return c /\
    on_content engine (tr ++ [EvWaitForTimeout 3000; EvEvaluate])%list = Return h /\
    PyDict.get "data" env = Some (EnvData (_merge_data c (_extract_with_soup h))) /\
    PyDict.get "url" env = Some (EnvStr (page_url s')).
Proof.
  intros H Hsuccess. apply scrape_cases in H.
  destruct H as [[_ [_ H]]|[[_ [_ [e [_ H]]]]|[[_ [_ [_ [_ [_ [_ [_ [e [_ H]]]]]]]]]
                |[s1 [_ [_ [_ [_ [_ [_ [_ Htry]]]]]]]]]]]; try discriminate H.
  apply scrape_try_cases in Htry.
  destruct Htry as [rb [s2 [rc [Hbody [Hclose Hr]]]]].
  destruct rc as [[]|e]; [|discriminate Hr].
  destruct rb as [env0|[msg|msg]]; try discriminate Hr.
  - injection Hr as <-.
    destruct (scrape_body_steps _ _ _ _ _ Hbody)
      as [final [s1' [c [h [Hnav [Heval [Hcontent [Htrace [Hpage Henv]]]]]]]]].
    apply navigate_returns in Hnav. destruct Hnav as [Hfinal _].
    unfold context_close, call in Hclose.
    destruct (on_context_close engine (trace s2)) as [[]|?]; [|discriminate Hclose].
    injection Hclose as <-.
    exists (trace s1'), c, h. simpl. rewrite Htrace, <- app_assoc. simpl.
    repeat split; auto.
    + rewrite Henv. reflexivity.
    + rewrite Henv. simpl. now rewrite Hpage, Hfinal.
  - injection Hr as ->. discriminate Hsuccess.
Qed.

Lemma scrape_success_steps_witness :
  exists tr c h,
    trace (snd (scrape Sample.engine_ok Sample.mobile_url Sample.ready)) =
      (tr ++ [EvWaitForTimeout 3000; EvEvaluate; EvContent; EvContextClose])%list /\
    on_evaluate Sample.engine_ok (tr ++ [EvWaitForTimeout 3000])%list = Return c /\
    on_content Sample.engine_ok (tr ++ [EvWaitForTimeout 3000; EvEvaluate])%list = Return h /\
    PyDict.get "data"
      [ ("success", EnvBool true);
        ("data", EnvData (_merge_data Sample.empty_eval (_extract_with_soup Sample.menu_page)));
        ("url", EnvStr Sample.pc_url);
        ("timestamp", EnvStr "2024-01-02T03:04:05.000006") ]
      = Some (EnvData (_merge_data c (_extract_with_soup h))) /\
    PyDict.get "url"
      [ ("success", EnvBool true);
        ("data", EnvData (_merge_data Sample.empty_eval (_extract_with_soup Sample.menu_page)));
        ("url", EnvStr Sample.pc_url);
        ("timestamp", EnvStr "2024-01-02T03:04:05.000006") ]
      = Some (EnvStr (page_url (snd (scrape Sample.engine_ok Sample.mobile_url Sample.ready)))).
Proof.
  apply (scrape_success_steps Sample.engine_ok Sample.mobile_url Sample.ready).
  - reflexivity.
  - reflexivity.
Defined.

(** ** The context manager, the handler and the command line *)

Lemma scrape_returns_shape (engine : Engine) (url : string) (s s' : State) (env : Envelope) :
  scrape engine url s = (Return env, s') ->
  (exists data final_url timestamp,
     env = [ ("success", EnvBool true); ("data", EnvData data);
             ("url", EnvStr final_url); ("timestamp", EnvStr timestamp) ]) \/
  (exists msg timestamp, env = failure_envelope msg url timestamp).
Proof.
  intros H. apply scrape_cases in H.
  destruct H as [[_ [_ H]]|[[_ [_ [e [_ H]]]]|[[_ [_ [_ [_ [_ [_ [_ [e [_ H]]]]]]]]]
                |[s1 [_ [_ [_ [_ [_ [_ [_ Htry]]]]]]]]]]]; try discriminate H.
  apply scrape_try_cases in Htry.
  destruct Htry as [rb [s2 [rc [Hbody [Hclose Hr]]]]].
  destruct rc as [[]|e]; [|discriminate Hr].
  destruct rb as [env0|[msg|msg]]; try discriminate Hr.
  - injection Hr as <-. left. eapply scrape_body_success, Hbody.
  - injection Hr as ->. right. eauto.
Qed.

Lemma initialize_returns (engine : Engine) (s s1 : State) :
  initialize engine s = (Return tt, s1) ->
  on_start engine (trace s) = Return tt /\
  on_launch engine (trace s ++ [EvStart])%list = Return tt /\
  self_browser s1 = true /\ self_playwright s1 = true /\
  browser_open s1 = true /\ playwright_running s1 = true /\
  open_contexts s1 = open_contexts s /\
  trace s1 = (trace s ++ [EvStart; EvLaunch])%list.
Proof.
  unfold initialize, bind, playwright_start, chromium_launch, call.
  destruct (on_start engine (trace s)) as [[]|e] eqn:Hstart; [|discriminate].
  simpl trace.
  destruct (on_launch engine _) as [[]|e] eqn:Hlaunch; [|discriminate].
  intros [= <-]. simpl. rewrite <- app_assoc. repeat split; auto.
Qed.

(** [scrape_store] once the scraper is initialized *)
Lemma scrape_store_after_enter (engine : Engine) (url : string) (s s1 : State) :
  initialize engine (with_self false false s) = (Return tt, s1) ->
  scrape_store engine url s =
  let (r, s2) := scrape engine url s1 in
  match close engine s2 with
  | (Return _, s3) => (r, s3)
  | (Raise e, s3) => (Raise e, s3)
  end.
Proof.
  intros Hinit. unfold scrape_store, async_with, __aenter__, __aexit__.
  now rewrite Hinit.
Qed.

(** X18: once the scraper is initialized, [scrape_store] closes the
    browser and stops playwright after [scrape], whether [scrape] returned
    or raised; when both closings return, [scrape_store] ends as [scrape]
    did and leaves no context, no browser and no playwright instance. *)
Theorem scrape_store_releases (engine : Engine) (url : string) (s s1 s2 : State)
    (r : outcome Envelope) :
  initialize engine (with_self false false s) = (Return tt, s1) ->
  scrape engine url s1 = (r, s2) ->
  on_browser_close engine (trace s2) = Return tt ->
  on_stop engine (trace s2 ++ [EvBrowserClose])%list = Return tt ->
  exists s3,
    scrape_store engine url s = (r, s3) /\
    open_contexts s3 = 0 /\ browser_open s3 = false /\ playwright_running s3 = false /\
    trace s3 = (trace s2 ++ [EvBrowserClose; EvStop])%list.
Proof.
  intros Hinit Hscrape Hclose Hstop.
  rewrite (scrape_store_after_enter _ _ _ _ Hinit), Hscrape.
  destruct (initialize_returns _ _ _ Hinit) as [_ [_ [Hb [Hp _]]]].
  destruct (scrape_frame _ _ _ _ _ Hscrape) as [Kb [Kp _]].
  unfold close, bind. rewrite Kb, Hb.
  unfold browser_close, call at 1. rewrite Hclose. simpl self_playwright.
  rewrite Kp, Hp. unfold playwright_stop, call. simpl trace. rewrite Hstop.
  eexists. split; [reflexivity|]. simpl. rewrite <- app_assoc. auto.
Qed.

(** the page does not open, the context is left open by [scrape], and the
    exit of the context manager releases it with the browser *)
Lemma scrape_store_releases_witness :
  exists s3,
    scrape_store Sample.engine_no_page Sample.mobile_url init_state
      = (Raise (PyException "Target closed"), s3) /\
    open_contexts s3 = 0 /\ browser_open s3 = false /\ playwright_running s3 = false /\
    trace s3 =
      (trace (snd (scrape Sample.engine_no_page Sample.mobile_url
                     (snd (initialize Sample.engine_no_page init_state))))
       ++ [EvBrowserClose; EvStop])%list.
Proof.
  apply (scrape_store_releases Sample.engine_no_page Sample.mobile_url init_state
           (snd (initialize Sample.engine_no_page init_state))).
  - reflexivity.
  - reflexivity.
  - reflexivity.
  - reflexivity.
Defined.

(** X19: when the launch of the browser raises, [scrape_store] raises the
    same exception and playwright, which was started, is never stopped:
    the exit of the context manager does not run. *)
Theorem scrape_store_launch_failure (engine : Engine) (url : string) (s : State) (e : exn) :
  on_start engine (trace s) = Return tt ->
  on_launch engine (trace s ++ [EvStart])%list = Raise e ->
  exists s',
    scrape_store engine url s = (Raise e, s') /\
    playwright_running s' = true /\
    trace s' = (trace s ++ [EvStart; EvLaunch])%list.
Proof.
  intros Hstart Hlaunch.
  unfold scrape_store, async_with, __aenter__, initialize, bind,
    playwright_start, chromium_launch, call.
  simpl trace. rewrite Hstart. simpl trace. rewrite Hlaunch.
  eexists. split; [reflexivity|]. simpl. rewrite <- app_assoc. auto.
Qed.

Lemma scrape_store_launch_failure_witness :
  exists s',
    scrape_store Scenario.engine_no_launch Sample.mobile_url init_state
      = (Raise (PyException "Executable doesn't exist"), s') /\
    playwright_running s' = true /\
    trace s' = (trace init_state ++ [EvStart; EvLaunch])%list.
Proof.
  apply (scrape_store_launch_failure Scenario.engine_no_launch Sample.mobile_url init_state).
  - reflexivity.
  - reflexivity.
Defined.

(** X20: when the closing of the browser raises at the exit of the context
    manager, [scrape_store] raises that exception in place of what
    [scrape] gave, the envelope included, and playwright is not stopped. *)
Theorem scrape_store_close_failure (engine : Engine) (url : string) (s s1 s2 : State)
    (r : outcome Envelope) (e : exn) :
  initialize engine (with_self false false s) = (Return tt, s1) ->
  scrape engine url s1 = (r, s2) ->
  on_browser_close engine (trace s2) = Raise e ->
  exists s3,
    scrape_store engine url s = (Raise e, s3) /\
    playwright_running s3 = true /\
    trace s3 = (trace s2 ++ [EvBrowserClose])%list.
Proof.
  intros Hinit Hscrape Hclose.
  rewrite (scrape_store_after_enter _ _ _ _ Hinit), Hscrape.
  destruct (initialize_returns _ _ _ Hinit) as [_ [_ [Hb [_ [_ [Hrun _]]]]]].
  destruct (scrape_frame _ _ _ _ _ Hscrape) as [Kb [_ [_ [Krun _]]]].
  unfold close, bind. rewrite Kb, Hb.
  unfold browser_close, call. rewrite Hclose.
  eexists. split; [reflexivity|]. simpl. split; [congruence|reflexivity].
Qed.

Lemma scrape_store_close_failure_witness :
  exists s3,
    scrape_store Scenario.engine_stuck_browser Sample.mobile_url init_state
      = (Raise (PyException "Connection closed"), s3) /\
    playwright_running s3 = true /\
    trace s3 =
      (trace (snd (scrape Scenario.engine_stuck_browser Sample.mobile_url
                     (snd (initialize Scenario.engine_stuck_browser init_state))))
       ++ [EvBrowserClose])%list.
Proof.
  apply (scrape_store_close_failure Scenario.engine_stuck_browser Sample.mobile_url
           init_state (snd (initialize Scenario.engine_stuck_browser init_state)) _
           (fst (scrape Scenario.engine_stuck_browser Sample.mobile_url
                   (snd (initialize Scenario.engine_stuck_browser init_state))))).
  - reflexivity.
  - reflexivity.
  - reflexivity.
Defined.

Lemma scrape_store_returns (engine : Engine) (url : string) (s s' : State) (env : Envelope) :
  scrape_store engine url s = (Return env, s') ->
  exists s1 s2, scrape engine url s1 = (Return env, s2).
Proof.
  unfold scrape_store, async_with.
  destruct (__aenter__ engine (with_self false false s)) as [[[]|e] s1]; [|discriminate].
  destruct (scrape engine url s1) as [r s2] eqn:Hscrape.
  destruct (__aexit__ engine s2) as [[[]|e] s3]; [|discriminate].
  intros [= -> _]. now exists s1, s2.
Qed.

Lemma not_url_cases (event : Event) :
  not_url (event_get_url event) = true <-> In (PyDict.get "url" event) without_url.
Proof.
  unfold event_get_url, not_url, without_url.
  destruct (PyDict.get "url" event) as [[| | | | | |u]|];
    try (split; [intros _; simpl; tauto|reflexivity]).
  destruct (String.eqb_spec u "") as [->|Hne].
  - split; [intros _; simpl; tauto|reflexivity].
  - split; [discriminate|]. simpl.
    intros [H|[H|[H|[H|[H|[H|[H|[H|[]]]]]]]]]; congruence.
Qed.

Lemma lambda_handler_with_url (engine : Engine) (event : Event) (url : string) (s : State) :
  PyDict.get "url" event = Some (EvtStr url) -> url <> "" ->
  lambda_handler engine event s =
  (result <- scrape_store engine url ;;
   success <- getitem "success" result ;;
   ret {| statusCode := if truthy success then 200 else 500; body := result |})%Z s.
Proof.
  intros Hget Hne. unfold lambda_handler, event_get_url. rewrite Hget. simpl.
  apply String.eqb_neq in Hne. now rewrite Hne.
Qed.

(** X21: the handler answers 400 with the body "URL is required", without
    a call on the engine, when the event has no [url] or one that counts
    as false: null, false, 0, 0.0, an empty list, an empty object or the
    empty string; and it answers 400 in no other case. *)
Theorem lambda_handler_bad_request (engine : Engine) (event : Event) (s : State) :
  (In (PyDict.get "url" event) without_url ->
   lambda_handler engine event s = (Return bad_request, s)) /\
  (forall resp s',
     lambda_handler engine event s = (Return resp, s') ->
     statusCode resp = 400%Z ->
     In (PyDict.get "url" event) without_url).
Proof.
  split.
  - intros H. apply not_url_cases in H. unfold lambda_handler. now rewrite H.
  - intros resp s' Hrun Hstatus. apply not_url_cases.
    destruct (not_url (event_get_url event)) eqn:Hnot; [reflexivity|exfalso].
    unfold lambda_handler in Hrun. rewrite Hnot in Hrun. unfold bind in Hrun.
    destruct (scrape_store engine _ s) as [[result|e] s1]; [|discriminate Hrun].
    unfold getitem in Hrun.
    destruct (PyDict.get "success" result) as [success|]; [|discriminate Hrun].
    unfold ret in Hrun. injection Hrun as <- _. simpl in Hstatus.
    destruct (truthy success); discriminate Hstatus.
Qed.

(** an event whose [url] is the number 0 is answered with 400 *)
Lemma lambda_handler_bad_request_witness :
  lambda_handler Sample.engine_ok [("url", EvtIntZero)] init_state
  = (Return bad_request, init_state).
Proof.
  apply (proj1 (lambda_handler_bad_request Sample.engine_ok [("url", EvtIntZero)]
                  init_state)).
  simpl. tauto.
Defined.

(** X22: for an event with a URL, a response of the handler has status 200
    with an envelope whose [success] is true and that holds [data], or
    status 500 with an envelope whose [success] is false and that holds
    the error and the URL of the event. *)
Theorem lambda_handler_status (engine : Engine) (event : Event) (url : string)
    (s s' : State) (resp : Response) :
  PyDict.get "url" event = Some (EvtStr url) -> url <> "" ->
  lambda_handler engine event s = (Return resp, s') ->
  scrape_store engine url s = (Return (body resp), s') /\
  ((statusCode resp = 200%Z /\
    PyDict.get "success" (body resp) = Some (EnvBool true) /\
    exists data, PyDict.get "data" (body resp) = Some (EnvData data)) \/
   (statusCode resp = 500%Z /\
    PyDict.get "success" (body resp) = Some (EnvBool false) /\
    (exists msg, PyDict.get "error" (body resp) = Some (EnvStr msg)) /\
    PyDict.get "url" (body resp) = Some (EnvStr url))).
Proof.
  intros Hget Hne. rewrite (lambda_handler_with_url engine event url s Hget Hne).
  unfold bind.
  destruct (scrape_store engine url s) as [[result|e] s1] eqn:Hstore; [|discriminate].
  destruct (scrape_store_returns _ _ _ _ _ Hstore) as [s0 [s2 Hscrape]].
  destruct (scrape_returns_shape _ _ _ _ _ Hscrape)
    as [[data [u [t ->]]]|[msg [t ->]]]; simpl; intros [= <- <-]; simpl.
  - split; [reflexivity|]. left. repeat split. now exists data.
  - split; [reflexivity|]. right. repeat split. now exists msg.
Qed.

Lemma lambda_handler_status_witness :
  scrape_store Sample.engine_goto_fails Sample.short_link init_state
    = (Return (body Scenario.failed_response),
       snd (lambda_handler Sample.engine_goto_fails [("url", EvtStr Sample.short_link)]
              init_state)) /\
  ((statusCode Scenario.failed_response = 200%Z /\
    PyDict.get "success" (body Scenario.failed_response) = Some (EnvBool true) /\
    exists data, PyDict.get "data" (body Scenario.failed_response) = Some (EnvData data)) \/
   (statusCode Scenario.failed_response = 500%Z /\
    PyDict.get "success" (body Scenario.failed_response) = Some (EnvBool false) /\
    (exists msg, PyDict.get "error" (body Scenario.failed_response) = Some (EnvStr msg)) /\
    PyDict.get "url" (body Scenario.failed_response) = Some (EnvStr Sample.short_link))).
Proof.
  apply (lambda_handler_status Sample.engine_goto_fails [("url", EvtStr Sample.short_link)]
           Sample.short_link init_state
           (snd (lambda_handler Sample.engine_goto_fails [("url", EvtStr Sample.short_link)]
                   init_state))
           Scenario.failed_response).
  - reflexivity.
  - discriminate.
  - vm_compute. reflexivity.
Defined.

(** X23: the handler raises only what [scrape_store] raises: the lookup of
    [success] in the result never fails. *)
Theorem lambda_handler_raises (engine : Engine) (event : Event) (s s' : State) (e : exn) :
  lambda_handler engine event s = (Raise e, s') ->
  exists url,
    PyDict.get "url" event = Some (EvtStr url) /\ url <> "" /\
    scrape_store engine url s = (Raise e, s').
Proof.
  intros H. unfold lambda_handler in H.
  destruct (not_url (event_get_url event)) eqn:Hnot; [discriminate H|].
  unfold event_get_url, not_url in *.
  destruct (PyDict.get "url" event) as [[| | | | | |url]|]; try discriminate Hnot.
  simpl url_string in H. exists url. split; [reflexivity|].
  split; [now apply String.eqb_neq|].
  unfold bind in H.
  destruct (scrape_store engine url s) as [[result|e0] s1] eqn:Hstore;
    [|now injection H as -> ->].
  destruct (scrape_store_returns _ _ _ _ _ Hstore) as [s0 [s2 Hscrape]].
  destruct (scrape_returns_shape _ _ _ _ _ Hscrape)
    as [[data [u [t ->]]]|[msg [t ->]]]; discriminate H.
Qed.

Lemma lambda_handler_raises_witness :
  exists url,
    PyDict.get "url" [("url", EvtStr Sample.mobile_url)] = Some (EvtStr url) /\ url <> "" /\
    scrape_store Scenario.engine_no_launch url init_state
      = (Raise (PyException "Executable doesn't exist"),
         snd (scrape_store Scenario.engine_no_launch Sample.mobile_url init_state)).
Proof.
  apply (lambda_handler_raises Scenario.engine_no_launch [("url", EvtStr Sample.mobile_url)]
           init_state
           (snd (scrape_store Scenario.engine_no_launch Sample.mobile_url init_state))
           (PyException "Executable doesn't exist")).
  vm_compute. reflexivity.
Defined.

(** X24: the command line ends with status 1, without a call on the
    engine, when no URL is given; with a URL, when it ends without a
    traceback its status is 0 and it has printed the envelope of
    [scrape_store] for the first argument, whether [success] is true or
    false; further arguments are not read. *)
Theorem main_exit_status (engine : Engine) (argv : list string) (s : State) :
  (length argv < 2 -> main engine argv s = (Return (1%Z, None), s)) /\
  (forall program url rest status printed s',
     argv = program :: url :: rest ->
     main engine argv s = (Return (status, printed), s') ->
     status = 0%Z /\
     exists env,
       printed = Some env /\
       scrape_store engine url s = (Return env, s') /\
       envelope_consistent env).
Proof.
  split.
  - intros Hlen. unfold main.
    destruct (Nat.ltb_spec (length argv) 2) as [_|H]; [reflexivity|lia].
  - intros program url rest status printed s' -> Hrun.
    unfold main in Hrun. simpl in Hrun. unfold bind in Hrun.
    destruct (scrape_store engine url s) as [[env|e] s1] eqn:Hstore; [|discriminate Hrun].
    unfold ret in Hrun. injection Hrun as <- <- <-.
    split; [reflexivity|]. exists env. repeat split.
    destruct (scrape_store_returns _ _ _ _ _ Hstore) as [s0 [s2 Hscrape]].
    destruct (scrape_returns_shape _ _ _ _ _ Hscrape)
      as [[data [u [t ->]]]|[msg [t ->]]].
    + apply success_envelope_consistent.
    + apply failure_envelope_consistent.
Qed.

Lemma main_exit_status_witness :
  main Sample.engine_ok ["smartplace_scraper.py"] init_state
    = (Return (1%Z, None), init_state) /\
  (0%Z = 0%Z /\
   exists env,
     Some (body Scenario.failed_response) = Some env /\
     scrape_store Sample.engine_goto_fails Sample.short_link init_state
       = (Return env,
          snd (main Sample.engine_goto_fails
                 ["smartplace_scraper.py"; Sample.short_link; "ignored"] init_state)) /\
     envelope_consistent env).
Proof.
  split.
  - apply (proj1 (main_exit_status Sample.engine_ok ["smartplace_scraper.py"] init_state)).
    simpl. lia.
  - apply (proj2 (main_exit_status Sample.engine_goto_fails
                    ["smartplace_scraper.py"; Sample.short_link; "ignored"] init_state)
             "smartplace_scraper.py" Sample.short_link ["ignored"] 0%Z
             (Some (body Scenario.failed_response))
             (snd (main Sample.engine_goto_fails
                     ["smartplace_scraper.py"; Sample.short_link; "ignored"] init_state))).
    + reflexivity.
    + vm_compute. reflexivity.
Defined.

(** ** The script evaluated in the page *)

Lemma js_fold_fields {A : Type} (step : Js.Result -> A -> Js.Result) (l : list A) :
  (forall r a, Js.menuItems (step r a) = Js.menuItems r /\
               Js.reviews (step r a) = Js.reviews r) ->
  forall r, Js.menuItems (fold_left step l r) = Js.menuItems r /\
            Js.reviews (fold_left step l r) = Js.reviews r.
Proof.
  intros Hstep. induction l as [|a l IH]; intros r; simpl; [auto|].
  destruct (IH (step r a)) as [H1 H2]. destruct (Hstep r a) as [H3 H4].
  split; congruence.
Qed.

Lemma js_window_step_lists (page : Js.Page) (r : Js.Result) (key : string) :
  Js.menuItems (Js.window_step page r key) = Js.menuItems r /\
  Js.reviews (Js.window_step page r key) = Js.reviews r.
Proof. unfold Js.window_step. destruct (Js.truthy _); auto. Qed.

Lemma js_meta_step_lists (r : Js.Result) (meta : Js.Meta) :
  Js.menuItems (Js.meta_step r meta) = Js.menuItems r /\
  Js.reviews (Js.meta_step r meta) = Js.reviews r.
Proof.
  unfold Js.meta_step.
  destruct (Js.present (Js.meta_property meta)) as [p|]; [|auto].
  destruct (Js.present (Js.attr_content meta)) as [c|]; [|auto].
  destruct (PyStr.str_in "title" p), (PyStr.str_in "description" p),
    (PyStr.str_in "image" p); auto.
Qed.

Lemma js_ld_step_lists (r : Js.Result) (parsed : option Js.value) :
  Js.menuItems (Js.ld_step r parsed) = Js.menuItems r /\
  Js.reviews (Js.ld_step r parsed) = Js.reviews r.
Proof.
  unfold Js.ld_step. destruct parsed as [data|]; [|auto].
  destruct (Js.is_restaurant data) as [[]|]; auto.
Qed.

Lemma js_selector_step_lists (page : Js.Page) (r : Js.Result) (entry : string * list string) :
  Js.menuItems (Js.selector_step page r entry) = Js.menuItems r /\
  Js.reviews (Js.selector_step page r entry) = Js.reviews r.
Proof. auto. Qed.

Lemma js_img_step_lists (r : Js.Result) (img : Js.Img) :
  Js.menuItems (Js.img_step r img) = Js.menuItems r /\
  Js.reviews (Js.img_step r img) = Js.reviews r.
Proof.
  unfold Js.img_step. destruct (Js.present (Js.img_source img)) as [u|]; [|auto].
  destruct (_ && _); auto.
Qed.

(** X25: the script evaluated in the page never yields a menu item or a
    review: both lists of its result are empty on every page. *)
Theorem js_no_menu_no_reviews (page : Js.Page) :
  Js.menuItems (Js.locate page) = [] /\ Js.reviews (Js.locate page) = [].
Proof.
  unfold Js.locate.
  destruct (js_fold_fields Js.img_step (Js.imgs page) js_img_step_lists
              (fold_left (Js.selector_step page) Js.selectors
                 (fold_left Js.ld_step (Js.ld_json page)
                    (fold_left Js.meta_step (Js.metas page)
                       (fold_left (Js.window_step page) Js.possibleDataKeys
                          Js.empty_result))))) as [M5 R5].
  destruct (js_fold_fields (Js.selector_step page) Js.selectors (js_selector_step_lists page)
              (fold_left Js.ld_step (Js.ld_json page)
                 (fold_left Js.meta_step (Js.metas page)
                    (fold_left (Js.window_step page) Js.possibleDataKeys
                       Js.empty_result)))) as [M4 R4].
  destruct (js_fold_fields Js.ld_step (Js.ld_json page) js_ld_step_lists
              (fold_left Js.meta_step (Js.metas page)
                 (fold_left (Js.window_step page) Js.possibleDataKeys
                    Js.empty_result))) as [M3 R3].
  destruct (js_fold_fields Js.meta_step (Js.metas page) js_meta_step_lists
              (fold_left (Js.window_step page) Js.possibleDataKeys Js.empty_result))
    as [M2 R2].
  destruct (js_fold_fields (Js.window_step page) Js.possibleDataKeys
              (js_window_step_lists page) Js.empty_result) as [M1 R1].
  cbv zeta. split.
  - rewrite M5, M4, M3, M2, M1. reflexivity.
  - rewrite R5, R4, R3, R2, R1. reflexivity.
Qed.

Lemma js_fold_images {A : Type} (step : Js.Result -> A -> Js.Result)
    (added : A -> list string) (l : list A) :
  (forall r a, Js.images (step r a) = (Js.images r ++ added a)%list) ->
  forall r, Js.images (fold_left step l r) = (Js.images r ++ flat_map added l)%list.
Proof.
  intros Hstep. induction l as [|a l IH]; intros r; simpl.
  - now rewrite app_nil_r.
  - now rewrite IH, Hstep, <- app_assoc.
Qed.

Lemma js_meta_step_images (r : Js.Result) (meta : Js.Meta) :
  Js.images (Js.meta_step r meta) =
  (Js.images r ++ some_list (Js.meta_for "image" meta))%list.
Proof.
  unfold Js.meta_step, Js.meta_for.
  destruct (Js.present (Js.meta_property meta)) as [p|]; [|now rewrite app_nil_r].
  destruct (Js.present (Js.attr_content meta)) as [c|]; [|now rewrite app_nil_r].
  destruct (PyStr.str_in "title" p), (PyStr.str_in "description" p),
    (PyStr.str_in "image" p); simpl; now rewrite ?app_nil_r.
Qed.

Lemma js_img_step_images (r : Js.Result) (img : Js.Img) :
  Js.images (Js.img_step r img) = (Js.images r ++ some_list (Js.img_kept img))%list.
Proof.
  unfold Js.img_step, Js.img_kept.
  destruct (Js.present (Js.img_source img)) as [u|]; [|now rewrite app_nil_r].
  destruct (_ && _); simpl; now rewrite ?app_nil_r.
Qed.

Lemma js_window_step_images (page : Js.Page) (r : Js.Result) (key : string) :
  Js.images (Js.window_step page r key) = (Js.images r ++ (fun _ => []) key)%list.
Proof. unfold Js.window_step. destruct (Js.truthy _); simpl; now rewrite app_nil_r. Qed.

Lemma js_ld_step_images (r : Js.Result) (parsed : option Js.value) :
  Js.images (Js.ld_step r parsed) = (Js.images r ++ (fun _ => []) parsed)%list.
Proof.
  unfold Js.ld_step. destruct parsed as [data|]; [|now rewrite app_nil_r].
  destruct (Js.is_restaurant data) as [[]|]; simpl; now rewrite app_nil_r.
Qed.

Lemma js_selector_step_images (page : Js.Page) (r : Js.Result) (entry : string * list string) :
  Js.images (Js.selector_step page r entry) = (Js.images r ++ (fun _ => []) entry)%list.
Proof. simpl. now rewrite app_nil_r. Qed.

Lemma flat_map_nothing {A B : Type} (l : list A) : flat_map (fun _ : A => @nil B) l = [].
Proof. induction l; simpl; auto. Qed.

(** X26: the images of the script are the contents of the [meta] elements
    that count for "image", in document order and whatever their URL,
    followed by the sources of the [img] elements that hold "pstatic" and
    not "icon". *)
Theorem js_images (page : Js.Page) :
  Js.images (Js.locate page) =
    (flat_map (fun meta => some_list (Js.meta_for "image" meta)) (Js.metas page) ++
     flat_map (fun img => some_list (Js.img_kept img)) (Js.imgs page))%list /\
  (forall img u, Js.img_kept img = Some u ->
     PyStr.str_in "pstatic" u = true /\ PyStr.str_in "icon" u = false).
Proof.
  split.
  - unfold Js.locate. cbv zeta.
    rewrite (js_fold_images Js.img_step _ _ js_img_step_images).
    rewrite (js_fold_images (Js.selector_step page) _ _ (js_selector_step_images page)).
    rewrite (js_fold_images Js.ld_step _ _ js_ld_step_images).
    rewrite (js_fold_images Js.meta_step _ _ js_meta_step_images).
    rewrite (js_fold_images (Js.window_step page) _ _ (js_window_step_images page)).
    rewrite !flat_map_nothing, !app_nil_r. reflexivity.
  - intros img u. unfold Js.img_kept.
    destruct (Js.present (Js.img_source img)) as [v|]; [|discriminate].
    destruct (PyStr.str_in "pstatic" v) eqn:E1; [|discriminate].
    destruct (PyStr.str_in "icon" v) eqn:E2; [discriminate|].
    simpl. intros [= <-]. auto.
Qed.

Lemma last_some_app {A B : Type} (f : A -> option B) (l1 l2 : list A) :
  last_some f (l1 ++ l2)%list =
  match last_some f l2 with
  | Some y => Some y
  | None => last_some f l1
  end.
Proof.
  induction l1 as [|x l1 IH]; simpl.
  - now destruct (last_some f l2).
  - rewrite IH. now destruct (last_some f l2).
Qed.

Lemma last_some_none {A B : Type} (f : A -> option B) (l : list A) :
  (forall x, In x l -> f x = None) -> last_some f l = None.
Proof.
  induction l as [|x l IH]; intros H; simpl; [reflexivity|].
  rewrite IH by (intros y Hy; apply H; now right).
  apply H. now left.
Qed.

Lemma js_window_fold_basicInfo (page : Js.Page) (keys : list string) :
  forall r, Js.basicInfo (fold_left (Js.window_step page) keys r) = Js.basicInfo r.
Proof.
  induction keys as [|k keys IH]; intros r; simpl; [reflexivity|].
  rewrite IH. unfold Js.window_step. now destruct (Js.truthy _).
Qed.

Lemma js_img_fold_basicInfo (l : list Js.Img) :
  forall r, Js.basicInfo (fold_left Js.img_step l r) = Js.basicInfo r.
Proof.
  induction l as [|img l IH]; intros r; simpl; [reflexivity|].
  rewrite IH. unfold Js.img_step.
  destruct (Js.present (Js.img_source img)) as [u|]; [|reflexivity].
  now destruct (_ && _).
Qed.

Lemma js_meta_step_name (r : Js.Result) (meta : Js.Meta) :
  PyDict.get "name" (Js.basicInfo (Js.meta_step r meta)) =
  match Js.meta_for "title" meta with
  | Some content => Some (Js.Str content)
  | None => PyDict.get "name" (Js.basicInfo r)
  end.
Proof.
  unfold Js.meta_step, Js.meta_for.
  destruct (Js.present (Js.meta_property meta)) as [p|]; [|reflexivity].
  destruct (Js.present (Js.attr_content meta)) as [c|]; [|reflexivity].
  destruct (PyStr.str_in "title" p), (PyStr.str_in "description" p),
    (PyStr.str_in "image" p); simpl; repeat (rewrite get_set; simpl); reflexivity.
Qed.

Lemma js_meta_step_other (r : Js.Result) (meta : Js.Meta) (k : string) :
  k <> "name" -> k <> "description" ->
  PyDict.get k (Js.basicInfo (Js.meta_step r meta)) = PyDict.get k (Js.basicInfo r).
Proof.
  intros Hn Hd. unfold Js.meta_step.
  destruct (Js.present (Js.meta_property meta)) as [p|]; [|reflexivity].
  destruct (Js.present (Js.attr_content meta)) as [c|]; [|reflexivity].
  destruct (PyStr.str_in "title" p), (PyStr.str_in "description" p),
    (PyStr.str_in "image" p); simpl;
    rewrite ?get_set_other by assumption; reflexivity.
Qed.

Lemma js_meta_fold_name (l : list Js.Meta) :
  forall r,
    PyDict.get "name" (Js.basicInfo (fold_left Js.meta_step l r)) =
    match last_some (Js.meta_for "title") l with
    | Some content => Some (Js.Str content)
    | None => PyDict.get "name" (Js.basicInfo r)
    end.
Proof.
  induction l as [|m l IH]; intros r; simpl; [reflexivity|].
  rewrite IH. destruct (last_some (Js.meta_for "title") l); [reflexivity|].
  apply js_meta_step_name.
Qed.

Lemma js_meta_fold_other (l : list Js.Meta) (k : string) :
  k <> "name" -> k <> "description" ->
  forall r, PyDict.get k (Js.basicInfo (fold_left Js.meta_step l r)) =
            PyDict.get k (Js.basicInfo r).
Proof.
  intros Hn Hd. induction l as [|m l IH]; intros r; simpl; [reflexivity|].
  rewrite IH. now apply js_meta_step_other.
Qed.

Lemma js_ld_step_plain (r : Js.Result) (parsed : option Js.value) :
  Js.restaurant_block parsed = false ->
  Js.basicInfo (Js.ld_step r parsed) = Js.basicInfo r.
Proof.
  unfold Js.restaurant_block, Js.ld_step. destruct parsed as [data|]; [|reflexivity].
  destruct (Js.is_restaurant data) as [[]|]; [discriminate|reflexivity|reflexivity].
Qed.

Lemma js_ld_fold_plain (l : list (option Js.value)) :
  (forall parsed, In parsed l -> Js.restaurant_block parsed = false) ->
  forall r, Js.basicInfo (fold_left Js.ld_step l r) = Js.basicInfo r.
Proof.
  induction l as [|p l IH]; intros H r; simpl; [reflexivity|].
  rewrite IH by (intros q Hq; apply H; now right).
  apply js_ld_step_plain, H. now left.
Qed.

Lemma js_ld_fold_last (before after : list (option Js.value)) (data : Js.value) :
  Js.is_restaurant data = Some true ->
  (forall parsed, In parsed after -> Js.restaurant_block parsed = false) ->
  forall r,
    Js.basicInfo (fold_left Js.ld_step (before ++ Some data :: after)%list r) =
    PyDict.update (Js.basicInfo (fold_left Js.ld_step before r)) (Js.restaurant_fields data).
Proof.
  intros Hdata Hafter r. rewrite fold_left_app. simpl.
  rewrite js_ld_fold_plain by assumption.
  unfold Js.ld_step at 1. now rewrite Hdata.
Qed.

(** the loop over the selectors of a field: nothing when the field holds
    a true value, else the first selector that matches sets it *)
Lemma js_selector_loop_spec (page : Js.Page) (key : string) (selectorList : list string)
    (info : PyDict.dict Js.value) :
  Js.selector_loop page key selectorList info =
  if Js.truthy (Js.lookup info key) then info
  else match Js.first_query page selectorList with
       | Some text => PyDict.set key (Js.Str text) info
       | None => info
       end.
Proof.
  induction selectorList as [|sel rest IH]; simpl.
  - now destruct (Js.truthy _).
  - rewrite IH. destruct (Js.truthy (Js.lookup info key)); simpl; [reflexivity|].
    now destruct (Js.query_text page sel).
Qed.

Lemma js_selector_loop_other (page : Js.Page) (key k : string) (selectorList : list string)
    (info : PyDict.dict Js.value) :
  k <> key ->
  PyDict.get k (Js.selector_loop page key selectorList info) = PyDict.get k info.
Proof.
  intros Hne. rewrite js_selector_loop_spec.
  destruct (Js.truthy _); [reflexivity|].
  destruct (Js.first_query page selectorList); [|reflexivity].
  now apply get_set_other.
Qed.

Lemma js_selectors_fold (page : Js.Page) (r : Js.Result) :
  Js.basicInfo (fold_left (Js.selector_step page) Js.selectors r) =
  Js.selector_loop page "phone" [Js.class_has "phone"; Js.class_has "tel"]
    (Js.selector_loop page "address" [Js.class_has "address"; Js.class_has "location"]
       (Js.selector_loop page "category" [Js.class_has "category"; Js.class_has "type"]
          (Js.selector_loop page "name"
             ["h1"; "h2"; Js.class_has "name"; Js.class_has "title"] (Js.basicInfo r)))).
Proof. reflexivity. Qed.

(** the value of a field after the selectors, from its value before them *)
Lemma js_selectors_field (page : Js.Page) (r : Js.Result) (key : string)
    (selectorList : list string) :
  In (key, selectorList) Js.selectors ->
  Js.lookup (Js.basicInfo (fold_left (Js.selector_step page) Js.selectors r)) key =
  if Js.truthy (Js.lookup (Js.basicInfo r) key) then Js.lookup (Js.basicInfo r) key
  else match Js.first_query page selectorList with
       | Some text => Js.Str text
       | None => Js.lookup (Js.basicInfo r) key
       end.
Proof.
  intros Hin. rewrite js_selectors_fold. unfold Js.lookup.
  unfold Js.selectors in Hin. simpl in Hin.
  destruct Hin as [H|[H|[H|[H|[]]]]]; injection H as <- <-;
    repeat (rewrite js_selector_loop_other by discriminate);
    rewrite js_selector_loop_spec; unfold Js.lookup;
    repeat (rewrite js_selector_loop_other by discriminate);
    destruct (Js.truthy (get_or (PyDict.get _ (Js.basicInfo r)) Js.Undefined));
    repeat (rewrite js_selector_loop_other by discriminate);
    try reflexivity;
    destruct (Js.first_query page _);
    rewrite ?get_set_same;
    repeat (rewrite js_selector_loop_other by discriminate);
    reflexivity.
Qed.

Lemma js_selectors_other (page : Js.Page) (r : Js.Result) (k : string) :
  ~ In k ["name"; "category"; "address"; "phone"] ->
  PyDict.get k (Js.basicInfo (fold_left (Js.selector_step page) Js.selectors r)) =
  PyDict.get k (Js.basicInfo r).
Proof.
  intros Hnot. rewrite js_selectors_fold.
  rewrite !js_selector_loop_other; [reflexivity| | | |];
    intros ->; apply Hnot; simpl; tauto.
Qed.

Lemma js_images_witness :
  PyStr.str_in "pstatic" "https://ldb-phinf.pstatic.net/lazy.jpg" = true /\
  PyStr.str_in "icon" "https://ldb-phinf.pstatic.net/lazy.jpg" = false.
Proof.
  apply (proj2 (js_images JsScenario.plain_page)
           {| Js.src := ""; Js.dataset_src := Some "https://ldb-phinf.pstatic.net/lazy.jpg" |}).
  reflexivity.
Defined.

Lemma js_present_nonempty (a : option string) (s : string) :
  Js.present a = Some s -> String.eqb s "" = false.
Proof.
  unfold Js.present. destruct a as [x|]; [|discriminate].
  destruct (String.eqb x "") eqn:E; [discriminate|]. now intros [= <-].
Qed.

Lemma js_meta_for_nonempty (word : string) (meta : Js.Meta) (content : string) :
  Js.meta_for word meta = Some content -> String.eqb content "" = false.
Proof.
  unfold Js.meta_for.
  destruct (Js.present (Js.meta_property meta)) as [p|]; [|discriminate].
  destruct (Js.present (Js.attr_content meta)) as [c|] eqn:E; [|discriminate].
  destruct (PyStr.str_in word p); [|discriminate].
  intros [= <-]. eapply js_present_nonempty, E.
Qed.

Lemma js_locate_basicInfo (page : Js.Page) :
  Js.basicInfo (Js.locate page) =
  Js.basicInfo
    (fold_left (Js.selector_step page) Js.selectors
       (fold_left Js.ld_step (Js.ld_json page)
          (fold_left Js.meta_step (Js.metas page)
             (fold_left (Js.window_step page) Js.possibleDataKeys Js.empty_result)))).
Proof. unfold Js.locate. cbv zeta. apply js_img_fold_basicInfo. Qed.

Lemma js_restaurant_fields_other (data : Js.value) (info : PyDict.dict Js.value) (k : string) :
  ~ In k ["name"; "address"; "telephone"; "priceRange"; "rating"; "reviewCount"] ->
  PyDict.get k (PyDict.update info (Js.restaurant_fields data)) = PyDict.get k info.
Proof.
  intros Hnot. rewrite get_update. unfold Js.restaurant_fields. simpl.
  assert (H : forall key, In key ["name"; "address"; "telephone"; "priceRange"; "rating";
                                  "reviewCount"] -> String.eqb k key = false).
  { intros key Hin. apply String.eqb_neq. intros ->. contradiction. }
  rewrite !H by (simpl; tauto). reflexivity.
Qed.

Lemma js_ld_fold_other (l : list (option Js.value)) (k : string) :
  ~ In k ["name"; "address"; "telephone"; "priceRange"; "rating"; "reviewCount"] ->
  forall r, PyDict.get k (Js.basicInfo (fold_left Js.ld_step l r)) =
            PyDict.get k (Js.basicInfo r).
Proof.
  intros Hnot. induction l as [|p l IH]; intros r; simpl; [reflexivity|].
  rewrite IH. unfold Js.ld_step. destruct p as [data|]; [|reflexivity].
  destruct (Js.is_restaurant data) as [[]|]; simpl; try reflexivity.
  now apply js_restaurant_fields_other.
Qed.

(** X27: on a page without restaurant block, the name is the content of
    the last [meta] element that counts for "title": a later title
    replaces an earlier one, and no selector replaces it. *)
Theorem js_name_from_last_title (page : Js.Page) (before after : list Js.Meta)
    (meta : Js.Meta) (content : string) :
  (forall parsed, In parsed (Js.ld_json page) -> Js.restaurant_block parsed = false) ->
  Js.metas page = (before ++ meta :: after)%list ->
  Js.meta_for "title" meta = Some content ->
  (forall later, In later after -> Js.meta_for "title" later = None) ->
  PyDict.get "name" (Js.basicInfo (Js.locate page)) = Some (Js.Str content).
Proof.
  intros Hld Hmetas Hmeta Hafter.
  assert (Hbefore : PyDict.get "name"
            (Js.basicInfo
               (fold_left Js.ld_step (Js.ld_json page)
                  (fold_left Js.meta_step (Js.metas page)
                     (fold_left (Js.window_step page) Js.possibleDataKeys Js.empty_result))))
            = Some (Js.Str content)).
  { rewrite js_ld_fold_plain by assumption.
    rewrite js_meta_fold_name, Hmetas, last_some_app. simpl.
    rewrite (last_some_none _ after Hafter). now rewrite Hmeta. }
  rewrite js_locate_basicInfo, js_selectors_fold.
  rewrite !js_selector_loop_other by discriminate.
  rewrite js_selector_loop_spec. unfold Js.lookup. rewrite Hbefore. simpl.
  rewrite (js_meta_for_nonempty _ _ _ Hmeta). simpl. exact Hbefore.
Qed.

Lemma js_name_from_last_title_witness :
  PyDict.get "name" (Js.basicInfo (Js.locate JsScenario.plain_page))
  = Some (Js.Str "Second title").
Proof.
  apply (js_name_from_last_title JsScenario.plain_page [JsScenario.og_title]
           [JsScenario.og_image] JsScenario.twitter_title).
  - intros parsed [<-|[<-|[]]]; reflexivity.
  - reflexivity.
  - reflexivity.
  - intros later [<-|[]]. reflexivity.
Defined.

(** X28: the last structured-data script that parses to a restaurant sets
    the six fields it feeds, whether it has them or not: the name is its
    [name] when that is a true value, and else what the first matching
    name selector gives, not what a [meta] title gave; telephone, price
    range, rating and review count are as it has them, undefined
    included. *)
Theorem js_restaurant_block_wins (page : Js.Page) (before after : list (option Js.value))
    (data : Js.value) :
  Js.ld_json page = (before ++ Some data :: after)%list ->
  Js.is_restaurant data = Some true ->
  (forall parsed, In parsed after -> Js.restaurant_block parsed = false) ->
  let info := Js.basicInfo (Js.locate page) in
  Js.lookup info "name" =
    (if Js.truthy (Js.field data "name") then Js.field data "name"
     else match Js.first_query page ["h1"; "h2"; Js.class_has "name"; Js.class_has "title"] with
          | Some text => Js.Str text
          | None => Js.field data "name"
          end) /\
  PyDict.get "telephone" info = Some (Js.field data "telephone") /\
  PyDict.get "priceRange" info = Some (Js.field data "priceRange") /\
  PyDict.get "rating" info =
    Some (Js.opt_field (Js.field data "aggregateRating") "ratingValue") /\
  PyDict.get "reviewCount" info =
    Some (Js.opt_field (Js.field data "aggregateRating") "reviewCount").
Proof.
  intros Hld Hdata Hafter. cbv zeta. rewrite js_locate_basicInfo.
  set (r2 := fold_left Js.meta_step (Js.metas page)
               (fold_left (Js.window_step page) Js.possibleDataKeys Js.empty_result)).
  assert (Hr3 : Js.basicInfo (fold_left Js.ld_step (Js.ld_json page) r2) =
                PyDict.update (Js.basicInfo (fold_left Js.ld_step before r2))
                  (Js.restaurant_fields data)).
  { rewrite Hld. now apply js_ld_fold_last. }
  split; [|repeat split].
  - rewrite (js_selectors_field page _ "name"
               ["h1"; "h2"; Js.class_has "name"; Js.class_has "title"])
      by (simpl; tauto).
    unfold Js.lookup. rewrite Hr3, get_update. reflexivity.
  - rewrite js_selectors_other by (simpl; intuition discriminate).
    rewrite Hr3, get_update. reflexivity.
  - rewrite js_selectors_other by (simpl; intuition discriminate).
    rewrite Hr3, get_update. reflexivity.
  - rewrite js_selectors_other by (simpl; intuition discriminate).
    rewrite Hr3, get_update. reflexivity.
  - rewrite js_selectors_other by (simpl; intuition discriminate).
    rewrite Hr3, get_update. reflexivity.
Qed.

Lemma js_restaurant_block_wins_witness :
  Js.lookup (Js.basicInfo (Js.locate JsScenario.restaurant_page)) "name" = Js.Str "Heading" /\
  PyDict.get "priceRange" (Js.basicInfo (Js.locate JsScenario.restaurant_page))
    = Some Js.Undefined.
Proof.
  destruct (js_restaurant_block_wins JsScenario.restaurant_page
              [None; Some JsScenario.organization] [] JsScenario.restaurant)
    as [Hname [_ [Hprice _]]].
  - reflexivity.
  - reflexivity.
  - intros parsed [].
  - split; [exact Hname|exact Hprice].
Defined.

(** X29: category and phone come from the selectors alone, on every page:
    each is the trimmed text of the first of its selectors that matches,
    and undefined when none matches; the telephone of a restaurant block
    is kept under another key and never becomes the phone. *)
Theorem js_category_phone_from_selectors (page : Js.Page) :
  Js.lookup (Js.basicInfo (Js.locate page)) "category" =
    match Js.first_query page [Js.class_has "category"; Js.class_has "type"] with
    | Some text => Js.Str text
    | None => Js.Undefined
    end /\
  Js.lookup (Js.basicInfo (Js.locate page)) "phone" =
    match Js.first_query page [Js.class_has "phone"; Js.class_has "tel"] with
    | Some text => Js.Str text
    | None => Js.Undefined
    end.
Proof.
  assert (Hnone : forall k,
            ~ In k ["name"; "address"; "telephone"; "priceRange"; "rating"; "reviewCount"] ->
            k <> "description" ->
            Js.lookup
              (Js.basicInfo
                 (fold_left Js.ld_step (Js.ld_json page)
                    (fold_left Js.meta_step (Js.metas page)
                       (fold_left (Js.window_step page) Js.possibleDataKeys
                          Js.empty_result)))) k = Js.Undefined).
  { intros k Hk Hd. unfold Js.lookup.
    rewrite js_ld_fold_other by assumption.
    rewrite js_meta_fold_other; [| intros ->; apply Hk; simpl; tauto | assumption].
    now rewrite js_window_fold_basicInfo. }
  rewrite js_locate_basicInfo. split.
  - rewrite (js_selectors_field page _ "category"
               [Js.class_has "category"; Js.class_has "type"]) by (simpl; tauto).
    rewrite Hnone; [| simpl; intuition discriminate | discriminate].
    simpl. reflexivity.
  - rewrite (js_selectors_field page _ "phone"
               [Js.class_has "phone"; Js.class_has "tel"]) by (simpl; tauto).
    rewrite Hnone; [| simpl; intuition discriminate | discriminate].
    simpl. reflexivity.
Qed.

(** ** When nothing fails *)






